(** * NFC_PN532_SPI: the PN532 frame codec and the Mifare/NDEF data model

    A shallow embedding of the MicroPython sources

      - [NFC_PN532.py]       (bit reversal, frame codec, passive target),
      - [nfctag/ndeftext.py] (NDEF Text record payload),
      - [nfctag/ndefuri.py]  (NDEF URI record payload),
      - [nfctag/uNDEF.py]    (NDEF record header and record decoder),
      - [nfctag/utag.py]     (Mifare memory image, TLV scanner, MAD1),

    followed by the properties of the specification that concern them.

    Python values are modelled as follows: an [int] is a [Z]; [bytes],
    [bytearray] and [memoryview] contents are a [list Z] of values in
    [0..255]; a [str] is the list of its code points; a raised exception is
    the [Raise] branch of [result]. *)

From Stdlib Require Import ZArith Lia Bool Ascii String.
From stdpp Require Import base numbers list strings pretty.

Local Open Scope Z_scope.

(** ** The Python runtime that the sources rely on *)

Module Py.

(** The exceptions that the modelled code raises ([NDEFdecodeError] is the
    class declared in [uNDEF.py]). *)
Inductive exn : Type :=
| AssertionError (msg : string)
| RuntimeError (msg : string) (args : list Z)
| IndexError
| ValueError (msg : string)
| TypeError (msg : string)
| UnicodeError
| AttributeError (name : string)
| KeyError
| OSError
| BusyError
| NDEFdecodeError (msg : string).

Inductive result (A : Type) : Type :=
| Ok (a : A)
| Raise (e : exn).
Global Arguments Ok {A} a.
Global Arguments Raise {A} e.

Definition bind {A B} (r : result A) (k : A -> result B) : result B :=
  match r with
  | Ok a => k a
  | Raise e => Raise e
  end.

(** [len(x)] *)
Definition len {A} (l : list A) : Z := Z.of_nat (length l).

(** [sum(x)] over a bytes-like object *)
Definition sum (l : list Z) : Z := foldr Z.add 0 l.

(** [bytearray(n)]: [n] zero bytes *)
Definition bytearray (n : Z) : list Z := replicate (Z.to_nat n) 0.

(** [x[i]]: negative indices count from the end, anything out of range
    raises [IndexError]. *)
Definition norm_index {A} (l : list A) (i : Z) : Z :=
  if i <? 0 then i + len l else i.

Definition getitem {A} (l : list A) (i : Z) : result A :=
  let j := norm_index l i in
  if (j <? 0) || (len l <=? j) then Raise IndexError
  else match l !! Z.to_nat j with
       | Some x => Ok x
       | None => Raise IndexError
       end.

(** [x[i] = v] on a bytearray: the index must be within the array, and
    the value must be a byte. *)
Definition setitem (l : list Z) (i : Z) (v : Z) : result (list Z) :=
  let j := norm_index l i in
  if (j <? 0) || (len l <=? j) then Raise IndexError
  else if negb ((0 <=? v) && (v <? 256)) then
    Raise (ValueError "byte must be in range(0, 256)")
  else Ok (<[Z.to_nat j := v]> l).

(** Slice bounds are clamped to [0..len], negative ones counted from the
    end first. *)
Definition clamp {A} (l : list A) (i : Z) : nat :=
  Z.to_nat (if i <? 0 then Z.max (i + len l) 0 else Z.min i (len l)).

(** [x[a:b]] *)
Definition slice {A} (l : list A) (a b : Z) : list A :=
  let a' := clamp l a in
  let b' := clamp l b in
  take (b' - a') (drop a' l).

(** [x[a:]] *)
Definition slice_from {A} (l : list A) (a : Z) : list A :=
  drop (clamp l a) l.

(** [x[a:b] = v] on a bytearray, for a bytes-like [v] (the array is
    resized when the lengths differ) *)
Definition setslice {A} (l : list A) (a b : Z) (v : list A) : list A :=
  let a' := clamp l a in
  let b' := Nat.max a' (clamp l b) in
  take a' l ++ v ++ drop b' l.

(** [x[a:] = v] on a bytearray, for a bytes-like [v] *)
Definition setslice_from {A} (l : list A) (a : Z) (v : list A) : list A :=
  take (clamp l a) l ++ v.

(** [range(start, stop, step)] for a positive [step] *)
Definition range (start stop step : Z) : list Z :=
  (fun k => start + step * k) <$> seqZ 0 ((stop - start + step - 1) / step).

(** [[f(x) for x in l]] when [f] may raise *)
Fixpoint for_each {A B} (f : A -> result B) (l : list A) : result (list B) :=
  match l with
  | [] => Ok []
  | x :: l' =>
      match f x with
      | Raise e => Raise e
      | Ok y =>
          match for_each f l' with
          | Raise e => Raise e
          | Ok ys => Ok (y :: ys)
          end
      end
  end.

End Py.
Export Py.

Notation "'let*' x ':=' e 'in' k" := (Py.bind e (fun x => k))
  (at level 10, x name, e at level 100, k at level 200).

(** ** [NFC_PN532.py] *)

Module PN532.

Definition _PREAMBLE : Z := 0x00.
Definition _STARTCODE1 : Z := 0x00.
Definition _STARTCODE2 : Z := 0xFF.
Definition _POSTAMBLE : Z := 0x00.
Definition _HOSTTOPN532 : Z := 0xD4.
Definition _PN532TOHOST : Z := 0xD5.
Definition _COMMAND_INLISTPASSIVETARGET : Z := 0x4A.
Definition _MIFARE_ISO14443A : Z := 0x00.
Definition _SPI_STATREAD : Z := 0x02.
Definition _SPI_DATAWRITE : Z := 0x01.
Definition _SPI_DATAREAD : Z := 0x03.

(** [reverse_bit]: eight rounds of [result <<= 1; result += num & 1;
    num >>= 1]. *)
Fixpoint reverse_bit_loop (rounds : nat) (result num : Z) : Z :=
  match rounds with
  | O => result
  | S rounds' =>
      reverse_bit_loop rounds' (Z.shiftl result 1 + Z.land num 1) (Z.shiftr num 1)
  end.

Definition reverse_bit (num : Z) : Z := reverse_bit_loop 8 0 num.

(** The bus: [miso i] is the byte that the chip shifts out at the [i]-th
    clocked byte of a transaction, in the bit order of the wire. *)
Definition SPI : Type := nat -> Z.

(** [spi.write_readinto(frame, frame)] overwrites every byte of [frame]
    with the one received while it was sent. *)
Definition write_readinto (miso : SPI) (frame : list Z) : list Z :=
  imap (fun i _ => miso i) frame.

(** [_read_data(count)] *)
Definition _read_data (miso : SPI) (count : Z) : list Z :=
  let frame := bytearray (count + 1) in
  let frame := <[0%nat := reverse_bit _SPI_DATAREAD]> frame in
  let frame := write_readinto miso frame in
  let frame := reverse_bit <$> frame in
  slice_from frame 1.

(** [_write_data(framebytes)]: the bytes put on the bus. *)
Definition _write_data (framebytes : list Z) : list Z :=
  reverse_bit <$> ([_SPI_DATAWRITE] ++ framebytes).

(** [_write_frame(data)]: the frame is assembled in a bytearray of
    [length+8] bytes, which the slice assignment [frame[5:-2] = data]
    shrinks to [length+7]; the result is what [_write_data] sends. *)
Definition _write_frame (data : list Z) : result (list Z) :=
  if negb ((1 <? len data) && (len data <? 255)) then
    Raise (AssertionError "Data must be array of 1 to 255 bytes.")
  else
    let length := len data in
    let frame := bytearray (length + 8) in
    let* frame := setitem frame 0 _PREAMBLE in
    let* frame := setitem frame 1 _STARTCODE1 in
    let* frame := setitem frame 2 _STARTCODE2 in
    let checksum := sum (slice frame 0 3) in
    let* frame := setitem frame 3 (Z.land length 0xFF) in
    let* frame := setitem frame 4 (Z.land (Z.lnot length + 1) 0xFF) in
    let frame := setslice frame 5 (-2) data in
    let checksum := checksum + sum data in
    let* frame := setitem frame (-2) (Z.land (Z.lnot checksum) 0xFF) in
    let* frame := setitem frame (-1) _POSTAMBLE in
    Ok (_write_data frame).

Definition preamble_error : exn :=
  RuntimeError "Response frame preamble does not contain 0x00FF!" [].

(** The loop [while response[offset] == 0x00: offset += 1; if offset >=
    len(response): raise ...] of [_read_frame].  [rest] is
    [response[offset:]] and [n] is [len(response)]; the loop ends because
    [rest] shrinks with every round. *)
Fixpoint swallow_zeros (rest : list Z) (n offset : Z) : result Z :=
  match rest with
  | [] => Raise IndexError
  | b :: rest' =>
      if b =? 0x00 then
        let offset := offset + 1 in
        if offset >=? n then Raise preamble_error
        else swallow_zeros rest' n offset
      else Ok offset
  end.

(** [_read_frame], from the bytes that [_read_data(length+8)] returned *)
Definition parse_frame (response : list Z) : result (list Z) :=
  let* offset := swallow_zeros response (len response) 0 in
  let* b := getitem response offset in
  if negb (b =? 0xFF) then Raise preamble_error
  else
    let offset := offset + 1 in
    if offset >=? len response then
      Raise (RuntimeError "Response contains no data!" [])
    else
      let* frame_len := getitem response offset in
      let* len_checksum := getitem response (offset + 1) in
      if negb (Z.land (frame_len + len_checksum) 0xFF =? 0) then
        Raise (RuntimeError "Response length checksum did not match length!" [])
      else
        let checksum :=
          Z.land (sum (slice response (offset + 2) (offset + 2 + frame_len + 1))) 0xFF in
        if negb (checksum =? 0) then
          Raise (RuntimeError "Response checksum did not match expected value: " [checksum])
        else
          Ok (slice response (offset + 2) (offset + 2 + frame_len)).

(** [_read_frame(length)] *)
Definition _read_frame (miso : SPI) (length : Z) : result (list Z) :=
  let response := _read_data miso (length + 8) in
  parse_frame response.

Definition _ACK : list Z := [0x00; 0x00; 0xFF; 0x00; 0xFF; 0x00].

(** What the bus does during one [call_function]: whether the write of
    the frame faults, whether the write of [_wakeup] that follows such a
    fault faults as well, what the two [_wait_ready] polls end with, and
    what the chip shifts out during the two reads. *)
Record Bus : Type := {
  write_fault : bool;
  wakeup_fault : bool;
  ack_ready : bool;
  ack_miso : SPI;
  response_ready : bool;
  response_miso : SPI
}.

(** [for i, val in enumerate(params): data[2+i] = val] *)
Fixpoint fill_params (data : list Z) (i : Z) (params : list Z) : result (list Z) :=
  match params with
  | [] => Ok data
  | val :: params' =>
      let* data := setitem data (2 + i) val in
      fill_params data (i + 1) params'
  end.

(** [call_function(command, response_length, params, timeout)]; [None] is
    the "no response" outcome.  [_write_frame] checks its assertion before
    it writes to the bus; the handler of [OSError] calls [_wakeup], whose
    own write is not inside any handler. *)
Definition call_function (bus : Bus) (command response_length : Z)
    (params : list Z) : result (option (list Z)) :=
  let data := bytearray (2 + len params) in
  let* data := setitem data 0 _HOSTTOPN532 in
  let* data := setitem data 1 (Z.land command 0xFF) in
  let* data := fill_params data 0 params in
  match (let* mosi := _write_frame data in
         if write_fault bus then Raise OSError else Ok mosi) with
  | Raise OSError => if wakeup_fault bus then Raise OSError else Ok None
  | Raise e => Raise e
  | Ok _ =>
      if negb (ack_ready bus) then Ok None
      else if negb (bool_decide (_ACK = _read_data (ack_miso bus) (len _ACK))) then
        Raise (RuntimeError "Did not receive expected ACK from PN532!" [])
      else if negb (response_ready bus) then Ok None
      else
        let* response := _read_frame (response_miso bus) (response_length + 2) in
        let* r0 := getitem response 0 in
        let* for_command :=
          if r0 =? _PN532TOHOST then
            let* r1 := getitem response 1 in Ok (r1 =? command + 1)
          else Ok false in
        if negb for_command then
          Raise (RuntimeError "Received unexpected command response!" [])
        else Ok (Some (slice_from response 2))
  end.

(** [read_passive_target], from the outcome of its [call_function] *)
Definition uid_of_response (call : result (option (list Z)))
    : result (option (list Z)) :=
  match call with
  | Raise BusyError => Ok None
  | Raise e => Raise e
  | Ok None => Ok None
  | Ok (Some response) =>
      let* nb_targets := getitem response 0 in
      if negb (nb_targets =? 0x01) then
        Raise (RuntimeError "More than one card detected!" [])
      else
        let* uid_length := getitem response 5 in
        if uid_length >? 7 then
          Raise (RuntimeError "Found card with unexpectedly long UID!" [])
        else Ok (Some (slice response 6 (6 + uid_length)))
  end.

(** [read_passive_target(card_baud, timeout)] *)
Definition read_passive_target (bus : Bus) (card_baud : Z)
    : result (option (list Z)) :=
  uid_of_response
    (call_function bus _COMMAND_INLISTPASSIVETARGET 19 [0x01; card_baud]).

Definition _COMMAND_GETFIRMWAREVERSION : Z := 0x02.
Definition _COMMAND_SAMCONFIGURATION : Z := 0x14.
Definition _COMMAND_INDATAEXCHANGE : Z := 0x40.
Definition MIFARE_CMD_AUTH_A : Z := 0x60.
Definition MIFARE_CMD_AUTH_B : Z := 0x61.
Definition MIFARE_CMD_READ : Z := 0x30.
Definition MIFARE_ULTRALIGHT_CMD_WRITE : Z := 0xA2.
Definition KEY_DEFAULT_B : list Z := replicate 6 0xFF.

(** Subscripting [None], which [call_function] returns when the chip gave
    no response: [response[0]], and [block[0:4]] alike. *)
Definition none_subscript : exn := TypeError "'NoneType' object isn't subscriptable".

(** [get_firmware_version()]: the tuple (IC, Ver, Rev, Support) *)
Definition get_firmware_version (bus : Bus) : result (list Z) :=
  let* response := call_function bus _COMMAND_GETFIRMWAREVERSION 4 [] in
  match response with
  | None => Raise (RuntimeError "Failed to detect the PN532" [])
  | Some response => Ok response
  end.

(** [SAM_configuration()]: the response is not looked at. *)
Definition SAM_configuration (bus : Bus) : result unit :=
  let* _ := call_function bus _COMMAND_SAMCONFIGURATION 0 [0x01; 0x14; 0x01] in
  Ok tt.

(** [ntag2xx_write_block(block_number, data)] *)
Definition ntag2xx_write_block (bus : Bus) (block_number : Z) (data : list Z)
    : result bool :=
  if negb (len data =? 4) then
    Raise (AssertionError "Data must be an array of 4 bytes!")
  else
    let params := bytearray (3 + len data) in
    let* params := setitem params 0 0x01 in
    let* params := setitem params 1 MIFARE_ULTRALIGHT_CMD_WRITE in
    let* params := setitem params 2 (Z.land block_number 0xFF) in
    let params := setslice_from params 3 data in
    let* response := call_function bus _COMMAND_INDATAEXCHANGE 1 params in
    match response with
    | None => Raise none_subscript
    | Some response =>
        let* status := getitem response 0 in
        Ok (status =? 0x00)
    end.

(** [mifare_classic_read_block(block_number)]; [None] is the "not read"
    outcome. *)
Definition mifare_classic_read_block (bus : Bus) (block_number : Z)
    : result (option (list Z)) :=
  let* response :=
    call_function bus _COMMAND_INDATAEXCHANGE 17
      [0x01; MIFARE_CMD_READ; Z.land block_number 0xFF] in
  match response with
  | None => Raise none_subscript
  | Some response =>
      let* status := getitem response 0 in
      if negb (status =? 0x00) then Ok None
      else Ok (Some (slice_from response 1))
  end.

(** [ntag2xx_read_block(block_number)] *)
Definition ntag2xx_read_block (bus : Bus) (block_number : Z) : result (list Z) :=
  let* block := mifare_classic_read_block bus block_number in
  match block with
  | None => Raise none_subscript
  | Some block => Ok (slice block 0 4)
  end.

(** [mifare_classic_authenticate_block(uid, block_number, key_number, key)]:
    the parameters of the command, and the call *)
Definition authenticate_params (uid : list Z) (block_number key_number : Z)
    (key : list Z) : result (list Z) :=
  let uidlen := len uid in
  let keylen := len key in
  let params := bytearray (3 + uidlen + keylen) in
  let* params := setitem params 0 0x01 in
  let* params := setitem params 1 (Z.land key_number 0xFF) in
  let* params := setitem params 2 (Z.land block_number 0xFF) in
  let params := setslice params 3 (3 + keylen) key in
  let params := setslice_from params (3 + keylen) uid in
  Ok params.

Definition mifare_classic_authenticate_block (bus : Bus) (uid : list Z)
    (block_number key_number : Z) (key : list Z) : result bool :=
  let* params := authenticate_params uid block_number key_number key in
  let* response := call_function bus _COMMAND_INDATAEXCHANGE 1 params in
  match response with
  | None => Raise none_subscript
  | Some response =>
      let* status := getitem response 0 in
      Ok (status =? 0x00)
  end.

End PN532.


(** ** Library objects used by the [nfctag] modules *)

(** A [str] is the list of its code points. *)
Definition str : Type := list Z.

Definition str_of_string (s : string) : str :=
  (fun c => Z.of_N (Ascii.N_of_ascii c)) <$> String.list_ascii_of_string s.

(** [s.format(arg)] for a format string with at most one plain [{}] field *)
Fixpoint format1 (s arg : string) : string :=
  match s with
  | EmptyString => EmptyString
  | String c rest =>
      match rest with
      | String c' rest' =>
          if Ascii.eqb c "{"%char && Ascii.eqb c' "}"%char then arg +:+ rest'
          else String c (format1 rest arg)
      | EmptyString => s
      end
  end.

(** [ord(b)] of a bytes object *)
Definition ord (b : list Z) : result Z :=
  match b with
  | [x] => Ok x
  | _ => Raise (TypeError "ord() expected a character")
  end.

(** [io.BytesIO]: a buffer and a read/write position *)
Module BytesIO.

Record T : Type := { buf : list Z; pos : nat }.

Definition new (initial : list Z) : T := {| buf := initial; pos := 0 |}.

Definition seek (s : T) (p : nat) : T := {| buf := buf s; pos := p |}.

(** [read(n)] returns at most [n] bytes, fewer at the end of the buffer;
    a negative [n] reads everything that is left. *)
Definition read (s : T) (n : Z) : list Z * T :=
  let rest := drop (pos s) (buf s) in
  let data := if n <? 0 then rest else take (Z.to_nat n) rest in
  (data, {| buf := buf s; pos := pos s + length data |}).

(** [read()] *)
Definition read_all (s : T) : list Z * T := read s (-1).

(** [readinto(b, nbytes)] (MicroPython): at most [nbytes] bytes, and at
    most [len(b)], are stored at the start of [b]; returns the updated
    [b] and the number of bytes read. *)
Definition readinto (s : T) (b : list Z) (nbytes : Z) : list Z * Z * T :=
  let n := Z.min nbytes (len b) in
  let '(data, s') := read s (Z.max n 0) in
  (data ++ drop (length data) b, len data, s').

End BytesIO.

(** [struct]: the formats that the sources use are sequences of [B]
    (1 byte), [H] (2 bytes) and [L] (4 bytes) unsigned fields. *)
Module struct.

Inductive byteorder : Type := Big | Little.
Inductive field : Type := B | H | L.

Definition field_size (f : field) : nat :=
  match f with B => 1 | H => 2 | L => 4 end.

Definition calcsize (fmt : list field) : Z :=
  Z.of_nat (foldr (fun f n => field_size f + n)%nat 0%nat fmt).

(** the unsigned value of big-endian bytes *)
Definition be_value (bs : list Z) : Z :=
  foldl (fun acc b => Z.lor (Z.shiftl acc 8) b) 0 bs.

Definition value (order : byteorder) (bs : list Z) : Z :=
  match order with
  | Big => be_value bs
  | Little => be_value (reverse bs)
  end.

Fixpoint unpack_fields (order : byteorder) (fmt : list field) (data : list Z)
    : list Z :=
  match fmt with
  | [] => []
  | f :: fmt' =>
      value order (take (field_size f) data)
        :: unpack_fields order fmt' (drop (field_size f) data)
  end.

(** [struct.unpack(fmt, data)]: [data] must hold [calcsize(fmt)] bytes
    (the sources never pass more than that, only fewer at the end of a
    stream or of a directory). *)
Definition unpack (order : byteorder) (fmt : list field) (data : list Z)
    : result (list Z) :=
  if negb (len data =? calcsize fmt) then
    Raise (ValueError "unpack requires a buffer of calcsize(fmt) bytes")
  else Ok (unpack_fields order fmt data).

End struct.

(** The text codecs of [str.encode] and [bytes.decode]: a codec either
    converts its argument or raises [UnicodeError] ([None]). *)
Module Codec.

Record codec : Type := {
  encode : str -> option (list Z);
  decode : list Z -> option str
}.

Definition unicode {A} (o : option A) : result A :=
  match o with
  | Some x => Ok x
  | None => Raise UnicodeError
  end.

Definition is_ascii (c : Z) : bool := (0 <=? c) && (c <? 0x80).

Definition ascii_encode (s : str) : option (list Z) :=
  if forallb is_ascii s then Some s else None.

Definition ascii_decode (b : list Z) : option str :=
  if forallb is_ascii b then Some b else None.

Definition ascii : codec := {| encode := ascii_encode; decode := ascii_decode |}.

Definition cont (x : Z) : Z := Z.lor 0x80 (Z.land x 0x3F).

Definition utf8_encode_char (c : Z) : option (list Z) :=
  if c <? 0 then None
  else if c <? 0x80 then Some [c]
  else if c <? 0x800 then Some [Z.lor 0xC0 (Z.shiftr c 6); cont c]
  else if (0xD800 <=? c) && (c <? 0xE000) then None
  else if c <? 0x10000 then
    Some [Z.lor 0xE0 (Z.shiftr c 12); cont (Z.shiftr c 6); cont c]
  else if c <? 0x110000 then
    Some [Z.lor 0xF0 (Z.shiftr c 18); cont (Z.shiftr c 12); cont (Z.shiftr c 6); cont c]
  else None.

Fixpoint utf8_encode (s : str) : option (list Z) :=
  match s with
  | [] => Some []
  | c :: s' =>
      match utf8_encode_char c, utf8_encode s' with
      | Some bs, Some rest => Some (bs ++ rest)
      | _, _ => None
      end
  end.

Definition is_cont (b : Z) : bool := (0x80 <=? b) && (b <? 0xC0).

Definition low6 (b : Z) : Z := Z.land b 0x3F.

(** A decoded scalar value is accepted when it is not an overlong form,
    not a surrogate and not above U+10FFFF. *)
Definition scalar_ok (lo c : Z) : bool :=
  (lo <=? c) && (c <? 0x110000) && negb ((0xD800 <=? c) && (c <? 0xE000)).

Definition push (c : Z) (rest : option str) : option str :=
  match rest with
  | Some s => Some (c :: s)
  | None => None
  end.

Fixpoint utf8_decode (b : list Z) : option str :=
  match b with
  | [] => Some []
  | b0 :: r0 =>
      if is_ascii b0 then push b0 (utf8_decode r0)
      else if (0xC0 <=? b0) && (b0 <? 0xE0) then
        match r0 with
        | b1 :: r1 =>
            let c := Z.lor (Z.shiftl (Z.land b0 0x1F) 6) (low6 b1) in
            if is_cont b1 && scalar_ok 0x80 c then push c (utf8_decode r1)
            else None
        | _ => None
        end
      else if (0xE0 <=? b0) && (b0 <? 0xF0) then
        match r0 with
        | b1 :: b2 :: r2 =>
            let c := Z.lor (Z.shiftl (Z.land b0 0x0F) 12)
                       (Z.lor (Z.shiftl (low6 b1) 6) (low6 b2)) in
            if is_cont b1 && is_cont b2 && scalar_ok 0x800 c then
              push c (utf8_decode r2)
            else None
        | _ => None
        end
      else if (0xF0 <=? b0) && (b0 <? 0xF8) then
        match r0 with
        | b1 :: b2 :: b3 :: r3 =>
            let c := Z.lor (Z.shiftl (Z.land b0 0x07) 18)
                       (Z.lor (Z.shiftl (low6 b1) 12)
                          (Z.lor (Z.shiftl (low6 b2) 6) (low6 b3))) in
            if is_cont b1 && is_cont b2 && is_cont b3 && scalar_ok 0x10000 c then
              push c (utf8_decode r3)
            else None
        | _ => None
        end
      else None
  end.

Definition utf8 : codec := {| encode := utf8_encode; decode := utf8_decode |}.

(** [s.encode(name)] and [b.decode(name)] *)
Definition str_encode (c : codec) (s : str) : result (list Z) := unicode (encode c s).
Definition bytes_decode (c : codec) (b : list Z) : result str := unicode (decode c b).

End Codec.

(** ** [nfctag/uNDEF.py]: the helper methods of [NDEFRecord] that the record
    classes call on their base record *)

Module NDEFBase.

(** The optional second argument of [_decode_error]. *)
Inductive excp : Type :=
| NoExcp
| IntExcp (n : Z)
| ErrExcp (msg : string).

Definition truthy (e : excp) : bool :=
  match e with
  | NoExcp => false
  | IntExcp n => negb (n =? 0)
  | ErrExcp _ => true
  end.

Definition excp_str (e : excp) : string :=
  match e with
  | NoExcp => "None"
  | IntExcp n => pretty n
  | ErrExcp msg => msg
  end.

(** [_decode_error(excpstr, excp=None)] *)
Definition _decode_error (excpstr : string) (e : excp) : exn :=
  let excpstr := if truthy e then format1 excpstr (excp_str e) else excpstr in
  NDEFdecodeError excpstr.

(** [_value_error(fmt, *args)]; the arguments are formatted with [{!r}]
    at the only call, and their representation is left out of the
    message here. *)
Definition _value_error (fmt : string) : exn :=
  ValueError ("NDEFRecord" +:+ ": " +:+ fmt).

(** [_decode_struct("B", octets)].  With the format ["B"] the method takes
    the byte order [">"], finds neither ["+"] nor ["*"] in the format, and
    returns the single value of [struct.unpack_from(">B", octets, 0)]; the
    exception of the unpacking (MicroPython words it "buffer too small")
    is turned into a decode error with the same message. *)
Definition _decode_struct_B (octets : list Z) : result Z :=
  match octets with
  | b :: _ => Ok b
  | [] => Raise (_decode_error "buffer too small" NoExcp)
  end.

(** [baserecord._encode_struct]: the class [NDEFRecord] defines no such
    method, so that the look-up of the attribute raises. *)
Definition _encode_struct : result (Z -> list Z) :=
  Raise (AttributeError "_encode_struct").

(** A value given to a record attribute is a [str] or a bytes object. *)
Inductive value : Type :=
| VStr (s : str)
| VBytes (b : list Z).

(** [_value_to_unicode(value, name)] *)
Definition _value_to_unicode (v : value) (name : string) : result str :=
  match v with
  | VStr s => Ok s
  | VBytes b =>
      match Codec.bytes_decode Codec.ascii b with
      | Ok s => Ok s
      | Raise UnicodeError =>
          Raise (_value_error (name +:+ " conversion requires ascii text, but got {!r}"))
      | Raise e => Raise e
      end
  end.

End NDEFBase.

(** ** [nfctag/ndeftext.py] *)

Module NDEFTextRecord.
Import NDEFBase.

Definition _type : str := str_of_string "urn:nfc:wkt:T".
Definition _decode_min_payload_length : Z := 1.
Definition _decode_max_payload_length : Z := 512.

Record T : Type := { _text : str; _lang : str; _utfx : string }.

(** the [language] setter; the class has no [_value_error], so that the
    [raise self._value_error(...)] of a refused value ends in the
    [AttributeError] of the lookup *)
Definition check_language (value : str) : result str :=
  if negb ((0 <? len value) && (len value <? 64)) then
    Raise (AttributeError "_value_error")
  else Ok value.

(** the [encoding] setter, with the same way of refusing *)
Definition check_encoding (value : string) : result string :=
  if negb (bool_decide (value = "UTF-8") || bool_decide (value = "UTF-16")) then
    Raise (AttributeError "_value_error")
  else Ok value.

(** [NDEFTextRecord(base, text, language, encoding)] *)
Definition __init__ (text language : option str) (encoding : option string)
    : result T :=
  let text := default [] text in
  let* language := check_language (default (str_of_string "en") language) in
  let* encoding := check_encoding (default "UTF-8" encoding) in
  Ok {| _text := text; _lang := language; _utfx := encoding |}.

Section Codecs.

(** The codec that the platform selects for the name ["UTF-16"]. *)
Variable utf16 : Codec.codec.

Definition codec_of (name : string) : Codec.codec :=
  if bool_decide (name = "UTF-16") then utf16
  else Codec.utf8.

(** The codec that the platform selects for the name ["ascii"]: the strict
    one, or UTF-8 where the name of the codec is not looked at. *)
Variable named_ascii : Codec.codec.

(** [_encode_payload]: the language and the text are encoded, and then the
    method [_encode_struct] is looked up on the base record. *)
Definition _encode_payload (self : T) : result (list Z) :=
  let UTFX := _utfx self in
  let* LANG := Codec.str_encode named_ascii (_lang self) in
  let* TEXT := Codec.str_encode (codec_of UTFX) (_text self) in
  let* encode_struct := _encode_struct in
  let FLAG :=
    encode_struct
      (Z.lor (len LANG) (Z.shiftl (Z.b2z (bool_decide (UTFX = "UTF-16"))) 7)) in
  Ok (FLAG ++ LANG ++ TEXT).

(** [_decode_payload(baserecord, octets)] *)
Definition _decode_payload (octets : list Z) : result T :=
  let* FLAG := _decode_struct_B octets in
  if Z.land FLAG 0x3F =? 0 then
    Raise (_decode_error "language code length can not be zero" NoExcp)
  else if Z.land FLAG 0x3F >=? len octets then
    Raise (_decode_error "language code length exceeds payload" NoExcp)
  else
    let UTFX := if negb (Z.shiftr FLAG 7 =? 0) then "UTF-16" else "UTF-8" in
    let LANG := slice octets 1 (1 + Z.land FLAG 0x3F) in
    let decoded :=
      let* LANG := Codec.bytes_decode (codec_of "utf-8") LANG in
      let* TEXT :=
        Codec.bytes_decode (codec_of UTFX) (slice_from octets (1 + len LANG)) in
      Ok (LANG, TEXT) in
    match decoded with
    | Raise UnicodeError =>
        Raise (_decode_error (format1 "can't be decoded as {}" UTFX) NoExcp)
    | Raise e => Raise e
    | Ok (LANG, TEXT) => __init__ (Some TEXT) (Some LANG) (Some UTFX)
    end.

End Codecs.

End NDEFTextRecord.

(** ** [nfctag/ndefuri.py] *)

Module MicroUri.
Import NDEFBase.

Definition _type : str := str_of_string "urn:nfc:wkt:U".

Definition _prefix_strings : list string :=
  [ EmptyString;
    "http://www.";
    "https://www.";
    "http://";
    "https://";
    "tel:";
    "mailto:";
    "ftp://anonymous:anonymous@";
    "ftp://ftp.";
    "ftps://";
    "sftp://";
    "smb://";
    "nfs://";
    "ftp://";
    "dav://";
    "news:";
    "telnet://";
    "imap:";
    "rtsp://";
    "urn:";
    "pop:";
    "sip:";
    "sips:";
    "tftp:";
    "btspp://";
    "btl2cap://";
    "btgoep://";
    "tcpobex://";
    "irdaobex://";
    "file://";
    "urn:epc:id:";
    "urn:epc:tag:";
    "urn:epc:pat:";
    "urn:epc:raw:";
    "urn:epc:";
    "urn:nfc:" ].

Definition _decode_min_payload_length : Z := 1.
Definition _decode_max_payload_length : Z := 512.

Record T : Type := { _url : str }.

(** [MicroUri(base, uri)]; the [uri] setter converts through
    [_value_to_unicode]. *)
Definition __init__ (uri : option value) : result T :=
  let uri := default (VStr []) uri in
  let* value := _value_to_unicode uri "uri" in
  Ok {| _url := value |}.

(** [_decode_payload(baserecord, octets)] *)
Definition _decode_payload (octets : list Z) : result T :=
  let stream := BytesIO.new octets in
  let '(first, stream) := BytesIO.read stream 1 in
  let* code := getitem first 0 in
  let '(data, stream) := BytesIO.read_all stream in
  let* prefix := getitem _prefix_strings code in
  let* encoded := Codec.str_encode Codec.utf8 (str_of_string prefix) in
  __init__ (Some (VBytes (encoded ++ data))).

(** [s.startswith(prefix)] *)
Definition startswith (s prefix : str) : bool :=
  bool_decide (take (length prefix) s = prefix).

(** [_prefix_strings.index(prefix)] *)
Definition index (prefix : string) : result Z :=
  match list_find (fun entry => entry = prefix) _prefix_strings with
  | Some (i, _) => Ok (Z.of_nat i)
  | None => Raise (ValueError "object not in sequence")
  end.

(** [bytes([index])] *)
Definition bytes_of (values : list Z) : result (list Z) :=
  if forallb (fun b => (0 <=? b) && (b <? 256)) values then Ok values
  else Raise (ValueError "bytes value out of range").

(** The loop [for prefix in self._prefix_strings] of [_encode_payload],
    over the entries that are left: what the first round that returns
    hands back, [None] when the loop ends without returning. *)
Fixpoint encode_loop (uri : str) (prefixes : list string)
    : option (result (list Z)) :=
  match prefixes with
  | [] => None
  | prefix :: prefixes' =>
      if negb (bool_decide (prefix = EmptyString))
         && startswith uri (str_of_string prefix) then
        Some (let* index := index prefix in
              let* code := bytes_of [index] in
              let* rest :=
                Codec.str_encode Codec.utf8
                  (slice_from uri (len (str_of_string prefix))) in
              Ok (code ++ rest))
      else encode_loop uri prefixes'
  end.

(** [_encode_payload()] *)
Definition _encode_payload (self : T) : result (list Z) :=
  match encode_loop (_url self) _prefix_strings with
  | Some payload => payload
  | None =>
      let* rest := Codec.str_encode Codec.utf8 (_url self) in
      Ok ([0x00] ++ rest)
  end.

End MicroUri.

(** ** [nfctag/uNDEF.py]: the record decoder *)

Module NDEFRecord.
Import NDEFBase.

Record NDEFRecordHeader : Type := {
  _TNF : Z; _IL : bool; _SR : bool; _CF : bool; _ME : bool; _MB : bool
}.

(** The attributes of an [NDEFRecord] that [_decode] reads or writes. *)
Record T : Type := {
  _data : BytesIO.T;
  header : option NDEFRecordHeader;
  MAX_PAYLOAD_SIZE : Z
}.

(** [NDEFRecord(stream_or_bytes)] for a bytes argument *)
Definition __init__ (octets : list Z) : T :=
  {| _data := BytesIO.new octets; header := None; MAX_PAYLOAD_SIZE := 512 |}.

Definition with_data (self : T) (d : BytesIO.T) : T :=
  {| _data := d; header := header self; MAX_PAYLOAD_SIZE := MAX_PAYLOAD_SIZE self |}.

Definition with_header (self : T) (h : NDEFRecordHeader) : T :=
  {| _data := _data self; header := Some h; MAX_PAYLOAD_SIZE := MAX_PAYLOAD_SIZE self |}.

(** What [_decode] hands to its caller as the record: an instance of one
    of the known classes, or the string ["?"]. *)
Inductive record : Type :=
| Text (r : NDEFTextRecord.T)
| Uri (r : MicroUri.T)
| Unknown.

(** The classes of [known_types], with the attributes that [_decode]
    takes from them. *)
Inductive record_cls : Type := TextCls | UriCls.

Definition known_types : list (str * record_cls) :=
  [ (NDEFTextRecord._type, TextCls); (MicroUri._type, UriCls) ].

(** [known_types[record_type]], [None] when [record_type] is not a key *)
Fixpoint dict_get {V} (d : list (str * V)) (key : str) : option V :=
  match d with
  | [] => None
  | (k, v) :: d' => if bool_decide (k = key) then Some v else dict_get d' key
  end.

Definition lookup_type (record_type : str) : option record_cls :=
  dict_get known_types record_type.

Definition min_payload_length (c : record_cls) : Z :=
  match c with
  | TextCls => NDEFTextRecord._decode_min_payload_length
  | UriCls => MicroUri._decode_min_payload_length
  end.

Definition max_payload_length (c : record_cls) : Z :=
  match c with
  | TextCls => NDEFTextRecord._decode_max_payload_length
  | UriCls => MicroUri._decode_max_payload_length
  end.

Definition prefix : list string :=
  [ EmptyString; "urn:nfc:wkt:"; EmptyString; EmptyString; "urn:nfc:ext:";
    "unknown"; "unchanged" ].

(** [_decode_type(TNF, TYPE)] *)
Definition _decode_type (TNF : Z) (TYPE : list Z) : result str :=
  if negb ((0 <=? TNF) && (TNF <=? 6)) then
    Raise (_value_error "NDEF Record TNF values must be 0 to 6")
  else
    let TYPE := if bool_decide (TNF ∈ [0; 5; 6]) then [] else TYPE in
    let* p := getitem prefix TNF in
    let* t := Codec.bytes_decode Codec.utf8 TYPE in
    Ok (str_of_string p ++ t).

(** The format [">B" + ("B" if SR else "L") + ("B" if IL else "")] *)
Definition structfmt (SR IL : bool) : list struct.field :=
  [struct.B] ++ (if SR then [struct.B] else [struct.L])
             ++ (if IL then [struct.B] else []).

(** The assertions on the length fields, in the order of the source: the
    message of the first one that fails.  [f0], [f1] and [f2] are
    [fields[0]] (TYPE_LENGTH), [fields[1]] (PAYLOAD_LENGTH) and
    [fields[2]] (ID_LENGTH, or the appended [0] when there is none). *)
Definition check_fields (TNF f0 f1 f2 : Z) : option string :=
  if bool_decide (TNF ∈ [0; 5; 6]) && negb (f0 =? 0) then
    Some "TYPE_LENGTH must be 0"
  else if (TNF =? 0) && negb (f2 =? 0) then
    Some "ID_LENGTH must be 0"
  else if (TNF =? 0) && negb (f1 =? 0) then
    Some "PAYLOAD_LENGTH must be 0"
  else if bool_decide (TNF ∈ [1; 2; 3; 4]) && negb (f0 >? 0) then
    Some "TYPE_LENGTH must be > 0"
  else None.

(** The assertions on the fields that were read *)
Definition check_read (f0 f1 f2 : Z) (TYPE ID PAYLOAD : list Z) : option string :=
  if negb (f0 =? len TYPE) then Some "TYPE field"
  else if negb (f2 =? len ID) then Some "ID field"
  else if negb (f1 =? len PAYLOAD) then Some "PAYLOAD field"
  else None.

(** The outcome of a call: what was returned or raised, the object after
    the call, and what was printed. *)
Definition outcome (A : Type) : Type := result A * T * list string.

Definition decoded : Type := option record * bool * bool * bool.

(** [record_cls._decode_payload(self, PAYLOAD)] *)
Definition _decode_payload (utf16 : Codec.codec) (record_cls : record_cls)
    (PAYLOAD : list Z) : result record :=
  match record_cls with
  | TextCls =>
      let* r := NDEFTextRecord._decode_payload utf16 PAYLOAD in Ok (Text r)
  | UriCls =>
      let* r := MicroUri._decode_payload PAYLOAD in Ok (Uri r)
  end.

(** The last part of [_decode]: from the type string to the returned
    tuple.  [print] appends its argument to [out]. *)
Definition dispatch (utf16 : Codec.codec) (self : T) (out : list string)
    (record_type : str) (PAYLOAD : list Z) (MB ME CF : bool) : outcome decoded :=
  match lookup_type record_type with
  | Some record_cls =>
      let out :=
        if len PAYLOAD <? min_payload_length record_cls then
          out ++ ["payload length can not be less than {}"]
        else out in
      let out :=
        if len PAYLOAD >? max_payload_length record_cls then
          out ++ ["payload length can not be more than {}"]
        else out in
      (let* record := _decode_payload utf16 record_cls PAYLOAD in
       Ok (Some record, MB, ME, CF), self, out)
  | None => (Ok (Some Unknown, MB, ME, CF), self, out)
  end.

(** [_decode()] *)
Definition _decode (utf16 : Codec.codec) (self : T) (out : list string)
    : outcome decoded :=
  let '(first, stream) := BytesIO.read (_data self) 1 in
  let self := with_data self stream in
  match ord first with
  | Raise IndexError => (Ok (None, false, false, false), self, out)
  | Raise e => (Raise e, self, out)
  | Ok octet0 =>
      let MB := negb (Z.land octet0 0x80 =? 0) in
      let ME := negb (Z.land octet0 0x40 =? 0) in
      let CF := negb (Z.land octet0 0x20 =? 0) in
      let SR := negb (Z.land octet0 0x10 =? 0) in
      let IL := negb (Z.land octet0 0x08 =? 0) in
      let TNF := Z.land octet0 0x07 in
      let self :=
        with_header self
          {| _TNF := TNF; _IL := IL; _SR := SR; _CF := CF; _ME := ME; _MB := MB |} in
      if TNF =? 7 then
        (Raise (_decode_error "TNF field value must be between 0 and 6" NoExcp),
         self, out)
      else
        let '(data, stream) :=
          BytesIO.read (_data self) (struct.calcsize (structfmt SR IL)) in
        let self := with_data self stream in
        match struct.unpack struct.Big (structfmt SR IL) data with
        | Raise _ =>
            (Raise (_decode_error "buffer underflow at reading length fields" NoExcp),
             self, out)
        | Ok unpacked =>
            match unpacked ++ [0] with
            | f0 :: f1 :: f2 :: _ =>
                match check_fields TNF f0 f1 f2 with
                | Some error =>
                    (Raise (_decode_error (error +:+ " for TNF value {}") (IntExcp TNF)),
                     self, out)
                | None =>
                    if f1 >? MAX_PAYLOAD_SIZE self then
                      (Raise (_decode_error
                                (format1 "payload of more than {} octets can not be decoded"
                                   (pretty (MAX_PAYLOAD_SIZE self))) NoExcp),
                       self, out)
                    else
                      let '(TYPE, stream) := BytesIO.read (_data self) f0 in
                      let '(ID, stream) := BytesIO.read stream f2 in
                      let '(PAYLOAD, stream) := BytesIO.read stream f1 in
                      let self := with_data self stream in
                      match check_read f0 f1 f2 TYPE ID PAYLOAD with
                      | Some error =>
                          (Raise (_decode_error "buffer underflow at reading {}"
                                    (ErrExcp error)),
                           self, out)
                      | None =>
                          match _decode_type TNF TYPE with
                          | Raise e => (Raise e, self, out)
                          | Ok record_type =>
                              dispatch utf16 self out record_type PAYLOAD MB ME CF
                          end
                      end
                end
            | _ => (Raise IndexError, self, out)
            end
        end
  end.

End NDEFRecord.

(** ** [nfctag/utag.py] *)

(** [MAD1], the application directory of sector 0 *)
Module MAD1.

Definition _MAD_AID_NFC : Z := 0xE103.

Record T : Type := {
  _mad : list Z;
  _crc : Z;
  _info : Z;
  _aids : list (Z * list Z);
  _nfc_sectors : list Z
}.

(** [dict(zip([k for k in range(1, 16)], [mad[i:i+2] for i in range(2, 32, 2)]))] *)
Definition aids_of (mad : list Z) : list (Z * list Z) :=
  zip (seqZ 1 15) ((fun i => slice mad i (i + 2)) <$> ((fun k => 2 + 2 * k) <$> seqZ 0 15)).

Section Host.

(** The byte order of the host, which the native format ["H"] of
    [struct.unpack("H", aid)] follows. *)
Variable native : struct.byteorder.

(** One round of the loop of [_get_nfc_sectors]: [aid_code] stays [0]
    when the unpacking raises (the entry is then printed, which is not
    kept here). *)
Definition aid_code (aid : list Z) : Z :=
  match struct.unpack native [struct.H] aid with
  | Ok [code] => code
  | _ => 0
  end.

(** [_get_nfc_sectors] *)
Definition _get_nfc_sectors (self : T) : T :=
  let nfc_sectors :=
    fst <$> filter (fun entry => aid_code (snd entry) = _MAD_AID_NFC) (_aids self) in
  {| _mad := _mad self; _crc := _crc self; _info := _info self;
     _aids := _aids self; _nfc_sectors := nfc_sectors |}.

(** [set_mad_data(data)] *)
Definition set_mad_data (self : T) (data : list Z) : result T :=
  let* crc := getitem data 0 in
  let* info := getitem data 1 in
  Ok (_get_nfc_sectors
        {| _mad := data; _crc := crc; _info := info;
           _aids := aids_of data; _nfc_sectors := _nfc_sectors self |}).

(** The property [NFCSectors]: the list that is returned, and the object
    after the call. *)
Definition NFCSectors (self : T) : list Z * T :=
  let self := if bool_decide (_aids self = []) then self else _get_nfc_sectors self in
  (_nfc_sectors self, self).

End Host.

End MAD1.

(** [NFCTag], the memory image of a Mifare Classic 1k tag *)
Module NFCTag.

Definition _NDEF_Message : list Z := [0x03].
Definition _NDEF_Terminator : list Z := [0xFE].
Definition _NDEF_Terminator_int : Z := 0xFE.

Definition _nsectors : Z := 16.
Definition _nblocks : Z := 64.
Definition _blen : Z := 16.
Definition _bps : Z := 4.

(** Modelled from the spec: the device method [read_mifare_classic], which
    the driver class of [NFC_PN532.py] does not define.  It is the live
    read of one block, which returns the bytes read or nothing. *)
Record Device : Type := { read_mifare_classic : Z -> option (list Z) }.

Record T : Type := {
  _memory : list Z;
  _payload_buff : list Z;
  _device : option Device;
  _wr_sectors : list Z
}.

(** [NFCTag(memory_size, uid, device, init=False)] *)
Definition __init__ (memory_size : Z) (device : option Device) : T :=
  {| _memory := bytearray memory_size;
     _payload_buff := bytearray 752;
     _device := device;
     _wr_sectors := [] |}.

Definition with_memory (self : T) (memory : list Z) : T :=
  {| _memory := memory; _payload_buff := _payload_buff self; _device := _device self;
     _wr_sectors := _wr_sectors self |}.

Definition with_payload_buff (self : T) (b : list Z) : T :=
  {| _memory := _memory self; _payload_buff := b; _device := _device self;
     _wr_sectors := _wr_sectors self |}.

Definition with_wr_sectors (self : T) (sectors : list Z) : T :=
  {| _memory := _memory self; _payload_buff := _payload_buff self;
     _device := _device self; _wr_sectors := sectors |}.

(** [_blocks[i]] is a window into [_memory]: the slice
    [i*_nsectors : i*_nsectors + _nsectors], for the keys [0.._nblocks-1]. *)
Definition _blocks (i : Z) : result (Z * Z) :=
  if (0 <=? i) && (i <? _nblocks) then
    Ok (i * _nsectors, i * _nsectors + _nsectors)
  else Raise KeyError.

(** the bytes seen through a window *)
Definition view (self : T) (w : Z * Z) : list Z :=
  slice (_memory self) (fst w) (snd w).

(** [window[:] = data]: the lengths must agree *)
Definition assign (self : T) (w : Z * Z) (data : list Z) : result T :=
  if negb (len data =? len (view self w)) then
    Raise (ValueError "memoryview slice assignment of a different length")
  else Ok (with_memory self (setslice (_memory self) (fst w) (snd w) data)).

(** [block(number)] *)
Definition block (self : T) (number : Z) : result (list Z) :=
  let* w := _blocks number in
  Ok (view self w).

(** [get_block(number)]: the bytes returned and the tag after the call.
    The test [block_data and len(block_data) == self._blen] fails for
    [None] and for an empty bytes object before the length is looked at. *)
Definition get_block (self : T) (number : Z) : result (list Z * T) :=
  if number >? _nblocks - 1 then Raise IndexError
  else
    let* self :=
      match _device self with
      | Some device =>
          match read_mifare_classic device number with
          | Some block_data =>
              if negb (bool_decide (block_data = [])) && (len block_data =? _blen) then
                let* w := _blocks number in
                assign self w block_data
              else Ok self
          | None => Ok self
          end
      | None => Ok self
      end in
    let* b := block self number in
    Ok (b, self).

(** [datablock.index(b)] for a one-byte pattern *)
Definition index (datablock : list Z) (b : Z) : result Z :=
  match list_find (fun x => x = b) datablock with
  | Some (i, _) => Ok (Z.of_nat i)
  | None => Raise (ValueError "substring not found")
  end.

(** [find_tlvblock(datablock)] when [datablock] is a bytes object *)
Definition find_tlvblock_bytes (datablock : list Z) : result (list Z) :=
  let* ndef_msg_start := index datablock 0x03 in
  let* ndef_msg_end := index datablock 0xFE in
  let tlv_len_index := ndef_msg_start + 1 in
  let* tlv_len := getitem datablock tlv_len_index in
  let bl_start := tlv_len_index + 1 in
  let bl_end := bl_start + tlv_len in
  let tlv_block := slice datablock (tlv_len_index + 1) bl_end in
  if negb (bl_end =? ndef_msg_end) then
    Raise (AssertionError "Block ender index missmatch")
  else
    let* ender := getitem datablock bl_end in
    if negb (ender =? _NDEF_Terminator_int) then
      Raise (AssertionError "Block ender index missmatch")
    else Ok tlv_block.

(** The branch of the stream loop that is taken once the byte [0x03] was
    read: the length, the payload (stored in [_payload_buff]) and the
    terminator. *)
Definition read_tlv (self : T) (datablock : BytesIO.T)
    : result Z * T * BytesIO.T :=
  let '(dlen, datablock) := BytesIO.read datablock 1 in
  match ord dlen with
  | Raise e => (Raise e, self, datablock)
  | Ok n =>
      let length :=
        if n <? 0xFF then (Ok n, datablock)
        else
          let '(two, datablock) := BytesIO.read datablock 2 in
          match struct.unpack struct.Big [struct.H] two with
          | Ok [dlen] => (Ok dlen, datablock)
          | Ok _ => (Raise (ValueError "unpack"), datablock)
          | Raise e => (Raise e, datablock)
          end in
      match length with
      | (Raise e, datablock) => (Raise e, self, datablock)
      | (Ok dlen, datablock) =>
          let '(buff, _, datablock) :=
            BytesIO.readinto datablock (_payload_buff self) dlen in
          let self := with_payload_buff self buff in
          let '(ender, datablock) := BytesIO.read datablock 1 in
          if negb (bool_decide (ender = _NDEF_Terminator)) then
            (Raise (AssertionError "Block ender missmatch"), self, datablock)
          else (Ok dlen, self, datablock)
      end
  end.

(** The loop [while True: bd = datablock.read(1); if bd != b"\x03":
    continue; else: ...; return dlen].  The loop has no other exit, so the
    number of rounds is bounded by [fuel]; [None] means that the rounds
    allowed were all used without the call returning or raising. *)
Fixpoint scan_tlv (fuel : nat) (self : T) (datablock : BytesIO.T)
    : option (result Z * T * BytesIO.T) :=
  match fuel with
  | O => None
  | S fuel' =>
      let '(bd, datablock) := BytesIO.read datablock 1 in
      if negb (bool_decide (bd = _NDEF_Message)) then scan_tlv fuel' self datablock
      else Some (read_tlv self datablock)
  end.

(** [find_tlvblock(datablock)] when [datablock] is an [io.BytesIO] *)
Definition find_tlvblock_stream (fuel : nat) (self : T) (datablock : BytesIO.T)
    : option (result Z * T * BytesIO.T) :=
  let datablock := BytesIO.seek datablock 0 in
  scan_tlv fuel self datablock.

(** [is_st(n)]: [n in (i for i in range(3, 64, 4))] *)
Definition is_st (n : Z) : bool := bool_decide (n ∈ range 3 64 4).

(** [_sectors[i]]: the windows of the blocks [i*_bps .. i*_bps+_bps-1], for
    the keys [0.._nsectors-1]. *)
Definition _sectors (i : Z) : result (list (Z * Z)) :=
  if (0 <=? i) && (i <? _nsectors) then
    for_each _blocks (range (i * _bps) (i * _bps + _bps) 1)
  else Raise KeyError.

(** [sector(number)]: the items of the dict that is returned, one for each
    round of the comprehension (their keys are distinct). *)
Definition sector (self : T) (number : Z) : result (list (Z * list Z)) :=
  for_each
    (fun i =>
       let* windows := _sectors number in
       let* w := getitem windows i in
       Ok (number * _bps + i, view self w))
    (range 0 _bps 1).

Section Host.

Variable native : struct.byteorder.

(** [get_mad()]; the directory object [self._mad] is passed beside the
    tag, and returned as the call leaves it. *)
Definition get_mad (self : T) (mad : MAD1.T) : result MAD1.T :=
  match _device self with
  | Some _ =>
      let mad_data := [] in
      let* b := block self 1 in
      let mad_data := mad_data ++ b in
      let* b := block self 2 in
      let mad_data := mad_data ++ b in
      MAD1.set_mad_data native mad mad_data
  | None => Ok mad
  end.

(** The loop of [find_wr_sectors] over the block numbers [bls] that are
    left; [wr_sectors] is the list built so far. *)
Fixpoint wr_sectors_loop (stop_at_first_empty cache : bool) (self : T)
    (bls : list Z) (wr_sectors : list Z) : result (list Z * T) :=
  match bls with
  | [] => Ok (wr_sectors, self)
  | bl :: bls' =>
      let sector := bl / _bps in
      let* read :=
        if cache then let* nb := block self bl in Ok (nb, self)
        else get_block self bl in
      let '(nb, self) := read in
      if negb (sum nb =? 0) then
        wr_sectors_loop stop_at_first_empty cache self bls' (wr_sectors ++ [sector])
      else if stop_at_first_empty then Ok (wr_sectors, self)
      else wr_sectors_loop stop_at_first_empty cache self bls' wr_sectors
  end.

(** [[sec for sec in wr_sectors if sec in self.mad.NFCSectors]]: the
    property [NFCSectors] is evaluated for every element. *)
Fixpoint nfc_only (mad : MAD1.T) (wr_sectors : list Z) : list Z * MAD1.T :=
  match wr_sectors with
  | [] => ([], mad)
  | sec :: wr_sectors' =>
      let '(nfc_sectors, mad) := MAD1.NFCSectors native mad in
      let '(kept, mad) := nfc_only mad wr_sectors' in
      (if bool_decide (sec ∈ nfc_sectors) then sec :: kept else kept, mad)
  end.

(** [find_wr_sectors(nfcfilter, stop_at_first_empty, debug, cache)]: the
    list returned, the tag (with the list stored in [_wr_sectors]) and its
    directory object after the call. *)
Definition find_wr_sectors (nfcfilter stop_at_first_empty cache : bool)
    (self : T) (mad : MAD1.T) : result (list Z * T * MAD1.T) :=
  let* found :=
    wr_sectors_loop stop_at_first_empty cache self (range _bps _nblocks _bps) [] in
  let '(wr_sectors, self) := found in
  let self := with_wr_sectors self wr_sectors in
  if nfcfilter then
    let '(kept, mad) := nfc_only mad wr_sectors in
    let self := with_wr_sectors self kept in
    Ok (_wr_sectors self, self, mad)
  else Ok (_wr_sectors self, self, mad).

End Host.

(** The loop of [read_nfc_records] that decodes one record after the
    other: [while True: try: raw_records["r{}".format(ri)], *_ =
    record._decode(); ri += 1; except TypeError: break; except Exception
    as e: raise e].  The dict [raw_records] is the list of its items;
    [None] means that the rounds allowed by [fuel] were all used. *)
Fixpoint decode_records (utf16 : Codec.codec) (fuel : nat)
    (record : NDEFRecord.T) (out : list string)
    (raw_records : list (string * option NDEFRecord.record)) (ri : Z)
    : option (NDEFRecord.outcome (list (string * option NDEFRecord.record))) :=
  match fuel with
  | O => None
  | S fuel' =>
      match NDEFRecord._decode utf16 record out with
      | (Ok (r, _, _, _), record, out) =>
          decode_records utf16 fuel' record out
            (raw_records ++ [(format1 "r{}" (pretty ri), r)]) (ri + 1)
      | (Raise (TypeError _), record, out) => Some (Ok raw_records, record, out)
      | (Raise e, record, out) => Some (Raise e, record, out)
      end
  end.

End NFCTag.

(** * Properties *)

(** ** Vocabulary of the statements *)

Definition is_byte (b : Z) : Prop := 0 <= b < 256.

(** *** Frames on the bus *)

(** The frame that the chip receives for [data]: preamble, start code, LEN,
    LCS, the data, DCS and postamble. *)
Definition frame_of (data : list Z) : list Z :=
  [PN532._PREAMBLE; PN532._STARTCODE1; PN532._STARTCODE2;
   Z.land (len data) 0xFF; Z.land (Z.lnot (len data) + 1) 0xFF]
  ++ data ++ [Z.land (Z.lnot (0xFF + sum data)) 0xFF; PN532._POSTAMBLE].

(** The chip answers a read with the very bytes that were written to it:
    after the first byte of the transaction (the command byte of a write,
    the status byte of a read), byte [i] of the read is byte [i] of [mosi]. *)
Definition echoes (miso : PN532.SPI) (mosi : list Z) : Prop :=
  forall i, (1 <= i < length mosi)%nat -> mosi !! i = Some (miso i).

(** A bus on which a command gets no answer: the write of the frame fails
    and the wake-up that follows goes through, or the frame is written and
    the chip is not ready with its acknowledgement in time. *)
Definition silent (bus : PN532.Bus) : Prop :=
  if PN532.write_fault bus then PN532.wakeup_fault bus = false
  else PN532.ack_ready bus = false.

(** A bus on which the write of the frame fails and the write of the
    wake-up after it fails again. *)
Definition dead (bus : PN532.Bus) : Prop :=
  PN532.write_fault bus = true /\ PN532.wakeup_fault bus = true.

(** [b] with its bit [k] flipped *)
Definition flip_bit (k b : Z) : Z := Z.lxor b (Z.shiftl 1 k).

Definition length_error : exn :=
  RuntimeError "Response length checksum did not match length!" [].

Definition checksum_error (e : exn) : Prop :=
  e = length_error \/
  exists c, c <> 0
            /\ e = RuntimeError "Response checksum did not match expected value: " [c].

(** The chip shifting out a status byte and then the bytes of [frame], in
    the bit order of the wire. *)
Definition chip_sends (frame : list Z) : PN532.SPI :=
  fun i =>
    match i with
    | O => PN532.reverse_bit 0x01
    | S j => PN532.reverse_bit (default 0 (frame !! j))
    end.

(** A bus on which the chip acknowledges the command and answers with the
    frame that carries [response]. *)
Definition answering_bus (response : list Z) : PN532.Bus :=
  {| PN532.write_fault := false;
     PN532.wakeup_fault := false;
     PN532.ack_ready := true;
     PN532.ack_miso := chip_sends PN532._ACK;
     PN532.response_ready := true;
     PN532.response_miso := chip_sends (frame_of response) |}.

Definition multiple_targets : exn := RuntimeError "More than one card detected!" [].
Definition long_uid : exn := RuntimeError "Found card with unexpectedly long UID!" [].

(** Answers to InListPassiveTarget: one card with a four-byte UID; no card;
    one card whose answer ends after two of the four UID bytes it reports. *)
Definition one_card : list Z :=
  [0xD5; 0x4B; 0x01; 0x01; 0x00; 0x04; 0x08; 0x04; 0xDE; 0xAD; 0xBE; 0xEF].
Definition no_card : list Z :=
  [0xD5; 0x4B; 0x00; 0x01; 0x00; 0x04; 0x08; 0x04; 0xDE; 0xAD; 0xBE; 0xEF].
Definition short_card : list Z :=
  [0xD5; 0x4B; 0x01; 0x01; 0x00; 0x04; 0x08; 0x04; 0xDE; 0xAD].

(** *** Text records *)

Definition hello_en_utf8 : NDEFTextRecord.T :=
  {| NDEFTextRecord._text := str_of_string "hello";
     NDEFTextRecord._lang := str_of_string "en";
     NDEFTextRecord._utfx := "UTF-8" |}.

(** What MicroPython does with the codec name: [str.encode] and
    [bytes.decode] ignore it, so the name ["UTF-16"] selects UTF-8 too. *)
Definition micropython_utf16 : Codec.codec := Codec.utf8.

(** *** Record headers *)

Definition invalid_tnf : exn :=
  NDEFdecodeError "TNF field value must be between 0 and 6".
Definition field_invariant (msg : string) (TNF : Z) : exn :=
  NDEFBase._decode_error (msg +:+ " for TNF value {}") (NDEFBase.IntExcp TNF).
Definition payload_too_large : exn :=
  NDEFdecodeError "payload of more than 512 octets can not be decoded".

(** The three kinds of error of the header checks, told by how their
    messages start. *)
Definition header_error (e : exn) : bool :=
  match e with
  | NDEFdecodeError msg =>
      String.prefix "TNF field value" msg
      || String.prefix "TYPE_LENGTH must be" msg
      || String.prefix "ID_LENGTH must be" msg
      || String.prefix "PAYLOAD_LENGTH must be" msg
      || String.prefix "payload of more than" msg
  | _ => false
  end.

(** The length fields [f0] (TYPE_LENGTH), [f1] (PAYLOAD_LENGTH) and [f2]
    (ID_LENGTH) break, or keep, what the type name format asks of them. *)
Definition violates_invariant (TNF f0 f1 f2 : Z) : Prop :=
  (TNF ∈ [0; 5; 6] /\ f0 <> 0)
  \/ (TNF = 0 /\ (f2 <> 0 \/ f1 <> 0))
  \/ (TNF ∈ [1; 2; 3; 4] /\ f0 = 0).

Definition satisfies_invariants (TNF f0 f1 f2 : Z) : Prop :=
  (TNF ∈ [0; 5; 6] -> f0 = 0)
  /\ (TNF = 0 -> f2 = 0 /\ f1 = 0)
  /\ (TNF ∈ [1; 2; 3; 4] -> 0 < f0).

Definition warn_short : string := "payload length can not be less than {}".
Definition warn_long : string := "payload length can not be more than {}".

(** The reads of [_decode] on [self]: the first octet, the length fields
    [f0], [f1], [f2], and the TYPE, ID and PAYLOAD fields, after which the
    stream is [s5]. *)
Definition reads_record (self : NDEFRecord.T) (octet0 f0 f1 f2 : Z)
    (TYPE ID PAYLOAD : list Z) (s5 : BytesIO.T) : Prop :=
  let SR := negb (Z.land octet0 0x10 =? 0) in
  let IL := negb (Z.land octet0 0x08 =? 0) in
  exists s1 lengths s2 unpacked more s3 s4,
    BytesIO.read (NDEFRecord._data self) 1 = ([octet0], s1)
    /\ BytesIO.read s1 (struct.calcsize (NDEFRecord.structfmt SR IL)) = (lengths, s2)
    /\ struct.unpack struct.Big (NDEFRecord.structfmt SR IL) lengths = Ok unpacked
    /\ unpacked ++ [0] = f0 :: f1 :: f2 :: more
    /\ BytesIO.read s2 f0 = (TYPE, s3)
    /\ BytesIO.read s3 f2 = (ID, s4)
    /\ BytesIO.read s4 f1 = (PAYLOAD, s5).

(** A record object that accepts payloads of up to 1024 bytes. *)
Definition roomy_record (octets : list Z) : NDEFRecord.T :=
  {| NDEFRecord._data := BytesIO.new octets;
     NDEFRecord.header := None;
     NDEFRecord.MAX_PAYLOAD_SIZE := 1024 |}.

(** The length fields of a record header: TYPE_LENGTH, PAYLOAD_LENGTH (one
    byte in a short record, four bytes with the high byte first otherwise)
    and, when the record has an ID, ID_LENGTH. *)
Definition length_fields (SR IL : bool) (TYPE PAYLOAD ID : list Z) : list Z :=
  [len TYPE]
  ++ (if SR then [len PAYLOAD]
      else [len PAYLOAD / 2 ^ 24 mod 256; len PAYLOAD / 2 ^ 16 mod 256;
            len PAYLOAD / 2 ^ 8 mod 256; len PAYLOAD mod 256])
  ++ (if IL then [len ID] else []).

(** The end of [_decode], from the fields that were read: the type string
    and the record of its class. *)
Definition decode_fields (utf16 : Codec.codec) (self : NDEFRecord.T)
    (out : list string) (TNF : Z) (TYPE PAYLOAD : list Z) (MB ME CF : bool)
    : NDEFRecord.outcome NDEFRecord.decoded :=
  match NDEFRecord._decode_type TNF TYPE with
  | Raise e => (Raise e, self, out)
  | Ok record_type => NDEFRecord.dispatch utf16 self out record_type PAYLOAD MB ME CF
  end.

(** *** Tag memory and TLV blocks *)

(** A read that does not refresh the cache: nothing, or not 16 bytes. *)
Definition stale (block_data : option (list Z)) : Prop :=
  block_data = None \/ exists data, block_data = Some data /\ len data <> 16.

(** [i] is the place of the first byte [b] of [l]. *)
Definition first_at (b : Z) (l : list Z) (i : nat) : Prop :=
  l !! i = Some b /\ forall j, (j < i)%nat -> l !! j <> Some b.

(** What is left to read of a stream *)
Definition remaining (s : BytesIO.T) : list Z := drop (BytesIO.pos s) (BytesIO.buf s).

(** Sector [s] counts as written when the bytes of its first block, the
    block [4 * s], do not add up to zero. *)
Definition written (self : NFCTag.T) (s : Z) : bool :=
  negb (sum (slice (NFCTag._memory self) (64 * s) (64 * s + 16)) =? 0).

(** The elements of [l] before the first one that fails [f] *)
Fixpoint leading (f : Z -> bool) (l : list Z) : list Z :=
  match l with
  | [] => []
  | x :: l' => if f x then x :: leading f l' else []
  end.

(** A tag with a blank image whose device answers every read with sixteen
    bytes [0xAB]. *)
Definition fresh_device : NFCTag.Device :=
  {| NFCTag.read_mifare_classic := fun _ => Some (replicate 16 0xAB) |}.
Definition fresh_tag : NFCTag.T := NFCTag.__init__ 1024 (Some fresh_device).

(** The same tag with one byte set in the first block of sector 1 and one
    in the first block of sector 3. *)
Definition marked_tag : NFCTag.T :=
  NFCTag.with_memory fresh_tag
    (<[64%nat := 0x01]> (<[192%nat := 0x07]> (Py.bytearray 1024))).

(** A directory whose entries 1 and 2 hold the bytes [03 E1] and whose
    entry 3 holds [E1 03]. *)
Definition sample_directory : list Z :=
  [0x14; 0x01; 0x03; 0xE1; 0x03; 0xE1; 0xE1; 0x03] ++ replicate 24 0.

Definition blank_mad : MAD1.T :=
  {| MAD1._mad := []; MAD1._crc := 0; MAD1._info := 0;
     MAD1._aids := []; MAD1._nfc_sectors := [] |}.

(** ** The Python runtime *)

Ltac len_tac :=
  unfold len in *;
  repeat (rewrite ?length_insert, ?length_app, ?length_replicate, ?length_fmap,
            ?length_take, ?length_drop, ?length_seq; cbn [length]);
  lia.

Lemma land_byte x : is_byte (Z.land x 255).
Proof.
  unfold is_byte. change 255 with (Z.ones 8). rewrite Z.land_ones by lia.
  apply Z.mod_pos_bound. lia.
Qed.

(** The side conditions of a store into a bytearray: the index is in
    range and the value is a byte. *)
Ltac store_tac :=
  lazymatch goal with
  | |- is_byte _ =>
      first [ assumption
            | apply land_byte
            | unfold is_byte in *; lia
            | unfold is_byte; vm_compute; split; [discriminate | reflexivity] ]
  | |- _ => len_tac
  end.

Section Runtime.

Lemma len_app {A} (l k : list A) : len (l ++ k) = len l + len k.
Proof. unfold len. rewrite length_app. lia. Qed.

Lemma len_cons {A} (x : A) (l : list A) : len (x :: l) = 1 + len l.
Proof. unfold len. simpl. lia. Qed.

Lemma len_nonneg {A} (l : list A) : 0 <= len l.
Proof. unfold len. lia. Qed.

Lemma sum_app l k : sum (l ++ k) = sum l + sum k.
Proof. unfold sum. induction l as [|x l IH]; simpl; lia. Qed.

Lemma sum_insert l j b b' :
  l !! j = Some b -> sum (<[j := b']> l) = sum l + (b' - b).
Proof.
  revert j. induction l as [|x l IH]; intros [|j] Hj; try discriminate.
  - injection Hj as ->. cbn [list_insert insert]. unfold sum. cbn [foldr]. lia.
  - cbn in Hj. specialize (IH j Hj). unfold sum in *. cbn [list_insert insert foldr].
    change (insert j b' l) with (<[j := b']> l). lia.
Qed.

Lemma setitem_nonneg l i v :
  0 <= i < len l -> is_byte v -> setitem l i v = Ok (<[Z.to_nat i := v]> l).
Proof.
  intros H Hv. unfold is_byte in Hv. unfold setitem, norm_index.
  destruct (Z.ltb_spec i 0); [lia|].
  destruct (Z.ltb_spec i 0); [lia|].
  destruct (Z.leb_spec (len l) i); [lia|].
  destruct (Z.leb_spec 0 v); [|lia].
  destruct (Z.ltb_spec v 256); [|lia]. reflexivity.
Qed.

Lemma setitem_neg l i v :
  - len l <= i < 0 -> is_byte v -> setitem l i v = Ok (<[Z.to_nat (i + len l) := v]> l).
Proof.
  intros H Hv. unfold is_byte in Hv. unfold setitem, norm_index.
  destruct (Z.ltb_spec i 0); [|lia].
  destruct (Z.ltb_spec (i + len l) 0); [lia|].
  destruct (Z.leb_spec (len l) (i + len l)); [lia|].
  destruct (Z.leb_spec 0 v); [|lia].
  destruct (Z.ltb_spec v 256); [|lia]. reflexivity.
Qed.

Lemma setitem_refused l i v :
  0 <= i < len l -> ~ is_byte v ->
  setitem l i v = Raise (ValueError "byte must be in range(0, 256)").
Proof.
  intros H Hv. unfold is_byte in Hv. unfold setitem, norm_index.
  destruct (Z.ltb_spec i 0); [lia|].
  destruct (Z.ltb_spec i 0); [lia|].
  destruct (Z.leb_spec (len l) i); [lia|].
  destruct (Z.leb_spec 0 v); destruct (Z.ltb_spec v 256); try reflexivity. lia.
Qed.


Lemma getitem_nonneg {A} (l : list A) i x :
  0 <= i -> l !! Z.to_nat i = Some x -> getitem l i = Ok x.
Proof.
  intros Hi Hx. unfold getitem, norm_index.
  pose proof (lookup_lt_Some _ _ _ Hx) as Hlt.
  destruct (Z.ltb_spec i 0); [lia|].
  destruct (Z.ltb_spec i 0); [lia|].
  destruct (Z.leb_spec (len l) i); [unfold len in *; lia|].
  rewrite Hx. reflexivity.
Qed.

Lemma getitem_ok {A} (l : list A) i x :
  0 <= i -> getitem l i = Ok x -> l !! Z.to_nat i = Some x.
Proof.
  intros Hi. unfold getitem, norm_index.
  destruct (Z.ltb_spec i 0); [lia|].
  repeat case_match; intros ?; simplify_eq. done.
Qed.

Lemma getitem_raises {A} (l : list A) i e :
  getitem l i = Raise e -> e = IndexError.
Proof.
  unfold getitem. repeat case_match; intros ?; simplify_eq; reflexivity.
Qed.

Lemma getitem_beyond {A} (l : list A) i :
  len l <= i -> getitem l i = Raise IndexError.
Proof.
  intros H. unfold getitem, norm_index. pose proof (Zle_0_nat (length l)).
  destruct (Z.ltb_spec i 0); [unfold len in *; lia|].
  destruct (Z.ltb_spec i 0); [lia|].
  destruct (Z.leb_spec (len l) i); [reflexivity|lia].
Qed.

Lemma slice_nonneg {A} (l : list A) a b :
  0 <= a <= b -> slice l a b = take (Z.to_nat (b - a)) (drop (Z.to_nat a) l).
Proof.
  intros H. unfold slice, clamp.
  destruct (Z.ltb_spec a 0); [lia|]. destruct (Z.ltb_spec b 0); [lia|].
  unfold len.
  destruct (Z.le_gt_cases b (Z.of_nat (length l))) as [Hb|Hb].
  - rewrite (Z.min_l a), (Z.min_l b) by lia. f_equal. lia.
  - rewrite (Z.min_r b) by lia.
    destruct (Z.le_gt_cases a (Z.of_nat (length l))) as [Ha|Ha].
    + rewrite (Z.min_l a) by lia.
      rewrite !take_ge; rewrite ?length_drop; try lia. reflexivity.
    + rewrite (Z.min_r a) by lia.
      rewrite !drop_ge by lia. rewrite !take_nil. reflexivity.
Qed.

Lemma slice_from_nonneg {A} (l : list A) a :
  0 <= a -> slice_from l a = drop (Z.to_nat a) l.
Proof.
  intros Ha. unfold slice_from, clamp.
  destruct (Z.ltb_spec a 0); [lia|].
  destruct (Z.le_gt_cases a (len l)).
  - rewrite Z.min_l by lia. reflexivity.
  - rewrite Z.min_r by lia. unfold len in *. rewrite !drop_ge by lia. reflexivity.
Qed.

Lemma slice_prefix5 {A} (a b c d e : A) rest n :
  0 <= n -> slice (a :: b :: c :: d :: e :: rest) 5 (5 + n) = take (Z.to_nat n) rest.
Proof.
  intros Hn. rewrite slice_nonneg by lia.
  replace (5 + n - 5) with n by lia. reflexivity.
Qed.

Lemma setslice_to_end {A} (l : list A) a b v :
  0 <= a -> b < 0 -> a <= len l + b ->
  setslice l a b v = take (Z.to_nat a) l ++ v ++ drop (Z.to_nat (len l + b)) l.
Proof.
  intros Ha Hb Hab. unfold setslice, clamp.
  destruct (Z.ltb_spec a 0); [lia|]. destruct (Z.ltb_spec b 0); [|lia].
  rewrite (Z.min_l a) by lia. rewrite (Z.max_l (b + len l)) by lia.
  rewrite Nat.max_r by lia. do 3 f_equal. lia.
Qed.

Lemma setslice_inside {A} (l : list A) a b v :
  0 <= a <= b -> b <= len l ->
  setslice l a b v = take (Z.to_nat a) l ++ v ++ drop (Z.to_nat b) l.
Proof.
  intros Ha Hb. unfold setslice, clamp.
  destruct (Z.ltb_spec a 0); [lia|]. destruct (Z.ltb_spec b 0); [lia|].
  rewrite (Z.min_l a), (Z.min_l b) by lia.
  rewrite Nat.max_r by lia. reflexivity.
Qed.

Lemma insert_at_end {A} (l : list A) i x y rest :
  i = length l -> <[i := y]> (l ++ x :: rest) = l ++ y :: rest.
Proof.
  intros ->. rewrite insert_app_r_alt by lia.
  rewrite Nat.sub_diag. reflexivity.
Qed.

Lemma land_255 x : Z.land x 255 = x mod 256.
Proof. change 255 with (Z.ones 8). rewrite Z.land_ones by lia. reflexivity. Qed.

Lemma lnot_eq x : Z.lnot x = - x - 1.
Proof. unfold Z.lnot. lia. Qed.

Lemma unicode_raises {A} (o : option A) e :
  Codec.unicode o = Raise e -> e = UnicodeError.
Proof. destruct o; cbn; intros ?; simplify_eq; reflexivity. Qed.

Lemma unicode_pair_raises {A B} (x : option A) (y : A -> option B) e :
  (let* a := Codec.unicode x in let* b := Codec.unicode (y a) in Ok (a, b)) = Raise e ->
  e = UnicodeError.
Proof.
  destruct x as [a|]; cbn; [|intros ?; simplify_eq; reflexivity].
  destruct (y a); cbn; intros ?; simplify_eq; reflexivity.
Qed.

End Runtime.

(** ** The frame codec of [NFC_PN532.py] *)

Section FrameCodec.
Import PN532.

(** A property of all bytes that holds on each of the 256 values. *)
Lemma byte_cases (f : Z -> bool) :
  forallb f (seqZ 0 256) = true -> forall b, is_byte b -> f b = true.
Proof.
  intros Hall b Hb. rewrite forallb_forall in Hall. apply Hall.
  apply list_elem_of_In, elem_of_seqZ. unfold is_byte in Hb. lia.
Qed.

Lemma bit_cases (f : Z -> Z -> bool) :
  forallb (fun b => forallb (f b) (seqZ 0 8)) (seqZ 0 256) = true ->
  forall b k, is_byte b -> 0 <= k < 8 -> f b k = true.
Proof.
  intros Hall b k Hb Hk.
  pose proof (byte_cases _ Hall b Hb) as Hrow. cbv beta in Hrow.
  rewrite forallb_forall in Hrow. apply Hrow.
  apply list_elem_of_In, elem_of_seqZ. lia.
Qed.

(** Reversing the bits of a byte twice gives the byte back. *)
Lemma reverse_bit_involutive b : is_byte b -> reverse_bit (reverse_bit b) = b.
Proof.
  intros Hb. apply Z.eqb_eq.
  apply (byte_cases (fun b => reverse_bit (reverse_bit b) =? b)); [|done].
  vm_compute. reflexivity.
Qed.

Lemma reverse_bit_byte b : is_byte b -> is_byte (reverse_bit b).
Proof.
  intros Hb.
  assert (H : ((0 <=? reverse_bit b) && (reverse_bit b <? 256)) = true).
  { apply (byte_cases (fun b => (0 <=? reverse_bit b) && (reverse_bit b <? 256))); [|done].
    vm_compute. reflexivity. }
  unfold is_byte. lia.
Qed.

Lemma fmap_reverse_bit_involutive f :
  Forall is_byte f -> reverse_bit <$> (reverse_bit <$> f) = f.
Proof.
  induction 1 as [|b f Hb _ IH]; [reflexivity|].
  cbn [fmap list_fmap]. rewrite reverse_bit_involutive by done.
  f_equal. exact IH.
Qed.

Lemma flip_bit_byte b k : is_byte b -> 0 <= k < 8 -> is_byte (flip_bit k b).
Proof.
  intros Hb Hk.
  pose proof (bit_cases (fun b k => (0 <=? flip_bit k b) && (flip_bit k b <? 256))
                eq_refl b k Hb Hk) as H.
  cbv beta in H. unfold is_byte. lia.
Qed.

Lemma flip_bit_changes b k :
  is_byte b -> 0 <= k < 8 -> (flip_bit k b - b) mod 256 <> 0.
Proof.
  intros Hb Hk.
  pose proof (bit_cases (fun b k => negb ((flip_bit k b - b) mod 256 =? 0))
                eq_refl b k Hb Hk) as H.
  cbv beta in H. destruct (Z.eqb_spec ((flip_bit k b - b) mod 256) 0); [discriminate|done].
Qed.

Lemma reverse_flip_reverse b k :
  is_byte b -> 0 <= k < 8 ->
  reverse_bit (flip_bit k (reverse_bit b)) = flip_bit (7 - k) b.
Proof.
  intros Hb Hk.
  pose proof (bit_cases
                (fun b k => reverse_bit (flip_bit k (reverse_bit b)) =? flip_bit (7 - k) b)
                eq_refl b k Hb Hk) as H.
  cbv beta in H. lia.
Qed.

(** What [_write_frame] sends is the frame of its data, behind the command
    byte and with every byte bit-reversed. *)
Lemma frame_sent data :
  1 < len data < 255 -> _write_frame data = Ok (_write_data (frame_of data)).
Proof.
  intros Hlen. unfold _write_frame.
  destruct (Z.ltb_spec 1 (len data)); [|lia].
  destruct (Z.ltb_spec (len data) 255); [|lia]. cbn [andb negb].
  unfold bytearray.
  replace (Z.to_nat (len data + 8)) with (5 + (3 + length data))%nat
    by (unfold len; lia).
  rewrite replicate_add.
  set (tail := replicate (3 + length data) 0).
  assert (Htail : length tail = (3 + length data)%nat) by apply length_replicate.
  change (replicate 5 0 ++ tail) with (0 :: 0 :: 0 :: 0 :: 0 :: tail).
  rewrite setitem_nonneg by store_tac. cbn [bind].
  change (<[Z.to_nat 0:=_PREAMBLE]> (0 :: 0 :: 0 :: 0 :: 0 :: tail))
    with (0 :: 0 :: 0 :: 0 :: 0 :: tail).
  rewrite setitem_nonneg by store_tac. cbn [bind].
  change (<[Z.to_nat 1:=_STARTCODE1]> (0 :: 0 :: 0 :: 0 :: 0 :: tail))
    with (0 :: 0 :: 0 :: 0 :: 0 :: tail).
  rewrite setitem_nonneg by store_tac. cbn [bind].
  change (<[Z.to_nat 2:=_STARTCODE2]> (0 :: 0 :: 0 :: 0 :: 0 :: tail))
    with (0 :: 0 :: 255 :: 0 :: 0 :: tail).
  rewrite slice_nonneg by lia.
  change (sum (take (Z.to_nat (3 - 0)) (drop (Z.to_nat 0) (0 :: 0 :: 255 :: 0 :: 0 :: tail))))
    with 255.
  rewrite setitem_nonneg by store_tac. cbn [bind].
  set (L := Z.land (len data) 255).
  change (<[Z.to_nat 3:=L]> (0 :: 0 :: 255 :: 0 :: 0 :: tail))
    with (0 :: 0 :: 255 :: L :: 0 :: tail).
  rewrite setitem_nonneg by store_tac. cbn [bind].
  set (LC := Z.land (Z.lnot (len data) + 1) 255).
  change (<[Z.to_nat 4:=LC]> (0 :: 0 :: 255 :: L :: 0 :: tail))
    with ([0; 0; 255; L; LC] ++ tail).
  set (C := Z.land (Z.lnot (255 + sum data)) 255).
  assert (Hslice : setslice ([0; 0; 255; L; LC] ++ tail) 5 (-2) data
                   = ([0; 0; 255; L; LC] ++ data) ++ [0; 0]).
  { rewrite setslice_to_end by len_tac.
    rewrite take_app_length' by reflexivity.
    replace (Z.to_nat (len ([0; 0; 255; L; LC] ++ tail) + -2))
      with (5 + (1 + length data))%nat by len_tac.
    rewrite drop_app_add' by reflexivity. unfold tail. rewrite drop_replicate.
    replace (3 + length data - (1 + length data))%nat with 2%nat by lia.
    rewrite <- app_assoc. reflexivity. }
  rewrite Hslice.
  rewrite setitem_neg by store_tac. cbn [bind].
  rewrite insert_at_end by len_tac.
  rewrite setitem_neg by store_tac. cbn [bind].
  change (([0; 0; 255; L; LC] ++ data) ++ [C; 0])
    with (([0; 0; 255; L; LC] ++ data) ++ [C] ++ [0]).
  rewrite (app_assoc _ [C] [0]).
  rewrite insert_at_end by len_tac.
  do 2 f_equal. unfold frame_of. rewrite <- !app_assoc. reflexivity.
Qed.

Lemma frame_of_bytes data :
  Forall is_byte data -> Forall is_byte (frame_of data).
Proof.
  intros Hd. unfold frame_of.
  assert (Hland : forall x, is_byte (Z.land x 255)).
  { intros x. rewrite land_255. unfold is_byte. apply Z.mod_pos_bound. lia. }
  repeat first [apply Forall_cons_2 | apply Forall_app_2 | apply Forall_nil_2
               | apply Hland | exact Hd
               | (unfold is_byte, _PREAMBLE, _STARTCODE1, _STARTCODE2, _POSTAMBLE; lia)].
Qed.

Lemma imap_index {A B} (f : nat -> B) (l : list A) :
  imap (fun i _ => f i) l = f <$> seq 0 (length l).
Proof.
  revert f. induction l as [|x l IH]; intros f; [reflexivity|].
  cbn [imap length seq fmap list_fmap]. f_equal.
  rewrite <- fmap_S_seq, <- list_fmap_compose. apply (IH (f ∘ S)).
Qed.

Lemma read_data_eq miso count :
  0 <= count ->
  _read_data miso count = (fun i => reverse_bit (miso i)) <$> seq 1 (Z.to_nat count).
Proof.
  intros Hc. unfold _read_data, write_readinto, bytearray.
  rewrite slice_from_nonneg by lia.
  rewrite imap_index, length_insert, length_replicate.
  replace (Z.to_nat (count + 1)) with (S (Z.to_nat count)) by lia.
  cbn [seq fmap list_fmap]. change (Z.to_nat 1) with 1%nat. cbn [drop].
  rewrite <- list_fmap_compose. reflexivity.
Qed.

Lemma response_of_echo miso mosi count :
  echoes miso mosi -> (1 <= length mosi)%nat -> Z.of_nat (length mosi) <= count + 1 ->
  exists tail, _read_data miso count = (reverse_bit <$> drop 1 mosi) ++ tail.
Proof.
  intros Hecho Hm Hc.
  exists (drop (length mosi - 1) (_read_data miso count)).
  rewrite <- (take_drop (length mosi - 1) (_read_data miso count)) at 1.
  f_equal. rewrite read_data_eq by lia.
  apply list_eq. intros j.
  rewrite lookup_take, !list_lookup_fmap, lookup_drop.
  destruct (decide (j < length mosi - 1)%nat) as [Hj|Hj].
  - rewrite Hecho by lia. rewrite lookup_seq_lt by lia. reflexivity.
  - rewrite (lookup_ge_None_2 mosi) by lia. reflexivity.
Qed.

Lemma parse_frame_header L LC rest :
  parse_frame (0 :: 0 :: 255 :: L :: LC :: rest) =
    if negb (Z.land (L + LC) 0xFF =? 0) then Raise length_error
    else
      let checksum := Z.land (sum (slice (0 :: 0 :: 255 :: L :: LC :: rest) 5 (5 + L + 1))) 0xFF in
      if negb (checksum =? 0) then
        Raise (RuntimeError "Response checksum did not match expected value: " [checksum])
      else Ok (slice (0 :: 0 :: 255 :: L :: LC :: rest) 5 (5 + L)).
Proof.
  unfold parse_frame.
  set (response := 0 :: 0 :: 255 :: L :: LC :: rest).
  assert (Hlen : len response = 5 + len rest) by (unfold response; len_tac).
  pose proof (len_nonneg rest) as Hrest.
  assert (Hsw : swallow_zeros response (len response) 0 = Ok 2).
  { unfold response at 1. cbn [swallow_zeros]. change (0 =? 0) with true. cbn iota.
    destruct (Z.geb_spec (0 + 1) (len response)); [lia|].
    destruct (Z.geb_spec (0 + 1 + 1) (len response)); [lia|].
    reflexivity. }
  rewrite Hsw. cbn [bind].
  rewrite (getitem_nonneg response 2 255) by (done || reflexivity). cbn [bind].
  change (negb (255 =? 255)) with false. cbn iota.
  destruct (Z.geb_spec (2 + 1) (len response)); [lia|].
  rewrite (getitem_nonneg response (2 + 1) L) by (done || reflexivity). cbn [bind].
  rewrite (getitem_nonneg response (2 + 1 + 1) LC) by (done || reflexivity). cbn [bind].
  reflexivity.
Qed.

Lemma parse_frame_length_mismatch L LC rest :
  Z.land (L + LC) 0xFF <> 0 ->
  parse_frame (0 :: 0 :: 255 :: L :: LC :: rest) = Raise length_error.
Proof.
  intros H. rewrite parse_frame_header.
  destruct (Z.eqb_spec (Z.land (L + LC) 255) 0); [done|reflexivity].
Qed.

Lemma parse_frame_body L LC body rest :
  0 <= L -> len body = L + 1 ->
  Z.land (L + LC) 0xFF = 0 ->
  parse_frame ([0; 0; 255; L; LC] ++ body ++ rest) =
    if Z.land (sum body) 0xFF =? 0 then Ok (take (Z.to_nat L) body)
    else Raise (RuntimeError "Response checksum did not match expected value: "
                  [Z.land (sum body) 0xFF]).
Proof.
  intros HL Hbody Hchk. cbn [app]. rewrite parse_frame_header.
  rewrite Hchk. cbn [negb Z.eqb]. cbv zeta.
  rewrite <- Z.add_assoc, !slice_prefix5 by lia.
  rewrite take_app_length' by len_tac.
  rewrite take_app_le by len_tac.
  destruct (Z.land (sum body) 255 =? 0); reflexivity.
Qed.

Lemma length_checksum_ok n :
  0 <= n < 256 ->
  Z.land (Z.land n 255 + Z.land (Z.lnot n + 1) 255) 255 = 0.
Proof.
  intros Hn. rewrite !land_255, lnot_eq.
  rewrite Z.add_mod_idemp_l, Z.add_mod_idemp_r by lia.
  replace (n + (- n - 1 + 1)) with 0 by lia. reflexivity.
Qed.

Lemma data_checksum_ok s :
  Z.land (s + Z.land (Z.lnot (255 + s)) 255) 255 = 0.
Proof.
  rewrite !land_255, lnot_eq.
  rewrite Z.add_mod_idemp_r by lia.
  replace (s + (- (255 + s) - 1)) with ((-1) * 256) by lia.
  apply Z.mod_mul. lia.
Qed.

(** Decoding what the chip received, followed by anything. *)
Lemma parse_frame_of data tail :
  0 < len data < 256 ->
  parse_frame (frame_of data ++ tail) = Ok data.
Proof.
  intros Hlen. unfold frame_of, _PREAMBLE, _STARTCODE1, _STARTCODE2.
  assert (HL : Z.land (len data) 255 = len data).
  { rewrite land_255. apply Z.mod_small. lia. }
  set (C := Z.land (Z.lnot (255 + sum data)) 255).
  replace (([0; 0; 255; Z.land (len data) 255; Z.land (Z.lnot (len data) + 1) 255]
              ++ data ++ [C; _POSTAMBLE]) ++ tail)
    with ([0; 0; 255; Z.land (len data) 255; Z.land (Z.lnot (len data) + 1) 255]
              ++ (data ++ [C]) ++ (_POSTAMBLE :: tail))
    by (rewrite <- !app_assoc; reflexivity).
  rewrite parse_frame_body.
  - rewrite sum_app. unfold C. cbn [sum foldr]. rewrite Z.add_0_r.
    rewrite data_checksum_ok. cbn [Z.eqb]. rewrite HL.
    rewrite take_app_length' by len_tac. reflexivity.
  - rewrite HL. lia.
  - rewrite HL. len_tac.
  - apply length_checksum_ok. lia.
Qed.

(** Frame round trip: a payload that [_write_frame] accepts comes back from
    [_read_frame] when the chip echoes the frame. *)
Lemma frame_roundtrip data mosi miso :
  Forall is_byte data ->
  _write_frame data = Ok mosi ->
  echoes miso mosi ->
  _read_frame miso (len data) = Ok data.
Proof.
  intros Hbytes Hw Hecho.
  assert (Hlen : 1 < len data < 255).
  { unfold _write_frame in Hw.
    destruct (Z.ltb_spec 1 (len data)); destruct (Z.ltb_spec (len data) 255);
      cbn in Hw; try discriminate; lia. }
  rewrite frame_sent in Hw by done. injection Hw as <-.
  unfold _read_frame.
  destruct (response_of_echo miso (_write_data (frame_of data)) (len data + 8))
    as [tail ->]; [done| | |].
  - unfold _write_data. len_tac.
  - unfold _write_data, frame_of. len_tac.
  - change (drop 1 (_write_data (frame_of data)))
      with (reverse_bit <$> frame_of data).
    rewrite fmap_reverse_bit_involutive by (apply frame_of_bytes; done).
    apply parse_frame_of. lia.
Qed.

(** C2: a payload of one byte is within the range that the message of the
    assertion of [_write_frame] announces ("1 to 255 bytes"), and the
    assertion rejects it: it is never encoded, so it cannot make the round
    trip through a frame. *)
Theorem one_byte_payload_rejected (b : Z) :
  _write_frame [b] = Raise (AssertionError "Data must be array of 1 to 255 bytes.").
Proof. reflexivity. Qed.

(** A frame with one bit of its LEN, LCS, DATA or DCS byte flipped does not
    decode. *)
Lemma parse_flipped_frame data j k b tail :
  Forall is_byte data -> 1 < len data < 255 ->
  (3 <= j < length data + 6)%nat -> 0 <= k < 8 ->
  frame_of data !! j = Some b ->
  exists e, parse_frame (<[j := flip_bit k b]> (frame_of data) ++ tail) = Raise e
            /\ checksum_error e.
Proof.
  intros Hbytes Hlen Hj Hk Hb.
  assert (Hbyte : is_byte b).
  { pose proof (frame_of_bytes data Hbytes) as Hall.
    rewrite Forall_lookup in Hall. exact (Hall j b Hb). }
  pose proof (flip_bit_changes b k Hbyte Hk) as Hchange.
  assert (HL : Z.land (len data) 255 = len data).
  { rewrite land_255. apply Z.mod_small. lia. }
  assert (HLC : Z.land (Z.lnot (len data) + 1) 255 = 256 - len data).
  { rewrite land_255, lnot_eq.
    replace (- len data - 1 + 1) with ((256 - len data) + (-1) * 256) by lia.
    rewrite Z_mod_plus_full. apply Z.mod_small. lia. }
  unfold frame_of, _PREAMBLE, _STARTCODE1, _STARTCODE2 in *.
  rewrite HL, HLC in *.
  set (C := Z.land (Z.lnot (255 + sum data)) 255) in *.
  destruct j as [|[|[|[|[|j]]]]]; try lia.
  - (* LEN *)
    injection Hb as <-. cbn [app list_insert insert].
    exists length_error. split; [|left; reflexivity].
    apply parse_frame_length_mismatch. rewrite land_255.
    replace (flip_bit k (len data) + (256 - len data))
      with ((flip_bit k (len data) - len data) + 1 * 256) by lia.
    rewrite Z_mod_plus_full. exact Hchange.
  - (* LCS *)
    injection Hb as <-. cbn [app list_insert insert].
    exists length_error. split; [|left; reflexivity].
    apply parse_frame_length_mismatch. rewrite land_255.
    replace (len data + flip_bit k (256 - len data))
      with ((flip_bit k (256 - len data) - (256 - len data)) + 1 * 256) by lia.
    rewrite Z_mod_plus_full. exact Hchange.
  - (* DATA or DCS *)
    change (([0; 0; 255; len data; 256 - len data] ++ data ++ [C; _POSTAMBLE]) !! (5 + j)%nat
            = Some b) in Hb.
    rewrite lookup_app_r in Hb by (cbn [length]; lia).
    cbn [length] in Hb. replace (5 + j - 5)%nat with j in Hb by lia.
    assert (Hbody : (data ++ [C]) !! j = Some b).
    { destruct (decide (j < length data)%nat).
      - rewrite lookup_app_l in Hb |- * by lia. exact Hb.
      - assert (j = length data) as -> by lia.
        rewrite lookup_app_r in Hb |- * by lia.
        rewrite Nat.sub_diag in *. exact Hb. }
    replace (<[S (S (S (S (S j)))) := flip_bit k b]>
               ([0; 0; 255; len data; 256 - len data] ++ data ++ [C; _POSTAMBLE]) ++ tail)
      with ([0; 0; 255; len data; 256 - len data]
              ++ <[j := flip_bit k b]> (data ++ [C]) ++ (_POSTAMBLE :: tail)).
    2:{ cbn [app list_insert insert]. do 5 f_equal.
        change (insert j (flip_bit k b) ?l) with (<[j := flip_bit k b]> l).
        replace (data ++ [C; _POSTAMBLE]) with ((data ++ [C]) ++ [_POSTAMBLE])
          by (rewrite <- app_assoc; reflexivity).
        rewrite (insert_app_l (data ++ [C]) [_POSTAMBLE]) by len_tac.
        rewrite <- app_assoc. reflexivity. }
    rewrite parse_frame_body; [| lia | len_tac |].
    2:{ rewrite land_255. replace (len data + (256 - len data)) with (1 * 256) by lia.
        apply Z.mod_mul. lia. }
    assert (Hsum : Z.land (sum (<[j := flip_bit k b]> (data ++ [C]))) 255
                   = (flip_bit k b - b) mod 256).
    { rewrite (sum_insert _ _ _ _ Hbody), sum_app. cbn [sum foldr].
      rewrite Z.add_0_r. fold (sum data). rewrite land_255.
      pose proof (data_checksum_ok (sum data)) as H0.
      rewrite (land_255 (sum data + _)) in H0. fold C in H0.
      rewrite <- Z.add_mod_idemp_l by lia. rewrite H0. reflexivity. }
    rewrite Hsum.
    destruct (Z.eqb_spec ((flip_bit k b - b) mod 256) 0) as [|Hne]; [done|].
    eexists. split; [reflexivity|]. right. eexists. split; [exact Hne|reflexivity].
Qed.

(** C9: whenever [_write_frame] accepts [data], flipping one bit [k] of one
    byte [i] of what it sent, within the LEN, length checksum, data or data
    checksum bytes (places [4] to [length mosi - 2] on the wire, behind the
    command byte and the three bytes of preamble and start code), makes
    [_read_frame] fail with the length-checksum error or with the checksum
    error, whatever the chip sends after the frame. *)
Theorem checksum_sensitivity data mosi miso i k w :
  Forall is_byte data ->
  _write_frame data = Ok mosi ->
  (4 <= i < length mosi - 1)%nat ->
  0 <= k < 8 ->
  mosi !! i = Some w ->
  echoes miso (<[i := flip_bit k w]> mosi) ->
  exists e, _read_frame miso (len data) = Raise e /\ checksum_error e.
Proof.
  intros Hbytes Hw Hi Hk Hwi Hecho.
  assert (Hlen : 1 < len data < 255).
  { unfold _write_frame in Hw.
    destruct (Z.ltb_spec 1 (len data)); destruct (Z.ltb_spec (len data) 255);
      cbn in Hw; try discriminate; lia. }
  rewrite frame_sent in Hw by done. injection Hw as <-.
  assert (Hfl : length (frame_of data) = (length data + 7)%nat)
    by (unfold frame_of; len_tac).
  assert (Hml : length (_write_data (frame_of data)) = (length data + 8)%nat)
    by (unfold _write_data; len_tac).
  rewrite Hml in Hi.
  destruct i as [|j]; [lia|].
  change (_write_data (frame_of data))
    with (reverse_bit _SPI_DATAWRITE :: (reverse_bit <$> frame_of data)) in Hwi, Hecho.
  change ((reverse_bit <$> frame_of data) !! j = Some w) in Hwi.
  rewrite list_lookup_fmap in Hwi.
  destruct (frame_of data !! j) as [b|] eqn:Hb; [|discriminate].
  injection Hwi as <-.
  assert (Hbyte : is_byte b).
  { pose proof (frame_of_bytes data Hbytes) as Hall.
    rewrite Forall_lookup in Hall. exact (Hall j b Hb). }
  unfold _read_frame.
  destruct (response_of_echo miso _ (len data + 8) Hecho) as [tail ->].
  - rewrite length_insert. cbn [length]. lia.
  - rewrite length_insert. cbn [length]. rewrite length_fmap, Hfl. len_tac.
  - change (drop 1 (<[S j := flip_bit k (reverse_bit b)]>
                      (reverse_bit _SPI_DATAWRITE :: (reverse_bit <$> frame_of data))))
      with (<[j := flip_bit k (reverse_bit b)]> (reverse_bit <$> frame_of data)).
    rewrite list_fmap_insert, fmap_reverse_bit_involutive by (apply frame_of_bytes; done).
    rewrite reverse_flip_reverse by done.
    apply parse_flipped_frame; try done; lia.
Qed.

Lemma checksum_sensitivity_witness :
  exists e,
    _read_frame
      (fun i => default 0 (<[4%nat := flip_bit 0 64]> [128; 0; 0; 255; 64; 127; 43; 64; 84; 0] !! i))
      2 = Raise e
    /\ checksum_error e.
Proof.
  apply (checksum_sensitivity [0xD4; 0x02] [128; 0; 0; 255; 64; 127; 43; 64; 84; 0]
           _ 4 0 64).
  - repeat (apply Forall_cons_2; [unfold is_byte; lia|]). apply Forall_nil_2.
  - reflexivity.
  - cbn [length]. lia.
  - lia.
  - reflexivity.
  - intros i Hi. cbn [length list_insert insert] in Hi.
    do 10 (destruct i as [|i]; [try reflexivity; lia|]). cbn in Hi. lia.
Defined.

End FrameCodec.

(** ** Passive target detection *)

Section PassiveTarget.
Import PN532.

(** C6, as amended: let the response of the detection command be
    [response], with target count [nb = response[0]].  When [nb] is not 1
    (no target, or more than one) the call raises "More than one card
    detected!" and returns no UID.  When [nb] is 1 and the UID-length field
    [n = response[5]] exceeds 7 it raises "Found card with unexpectedly long
    UID!".  When [nb] is 1, [n] is at most 7 and the response holds the
    [6 + n] bytes it announces, it returns the UID [response[6:6+n]], of
    exactly [n] bytes. *)
Theorem passive_target_uid bus card_baud response nb :
  call_function bus _COMMAND_INLISTPASSIVETARGET 19 [0x01; card_baud] = Ok (Some response) ->
  response !! 0%nat = Some nb ->
  (nb <> 1 -> read_passive_target bus card_baud = Raise multiple_targets)
  /\
  (nb = 1 -> forall n, response !! 5%nat = Some n ->
     (7 < n -> read_passive_target bus card_baud = Raise long_uid)
     /\
     (0 <= n <= 7 -> 6 + n <= len response ->
        exists uid,
          read_passive_target bus card_baud = Ok (Some uid)
          /\ len uid = n
          /\ uid = take (Z.to_nat n) (drop 6 response))).
Proof.
  intros Hcall Hnb. unfold read_passive_target. rewrite Hcall.
  unfold uid_of_response.
  rewrite (getitem_nonneg response 0 nb) by (done || lia). cbn [bind].
  split.
  - intros Hne. destruct (Z.eqb_spec nb 1); [done|]. reflexivity.
  - intros -> n Hn. cbn [Z.eqb Pos.eqb negb].
    rewrite (getitem_nonneg response 5 n) by (done || lia). cbn [bind].
    split.
    + intros Hlong. destruct (Z.gtb_spec n 7); [reflexivity|lia].
    + intros Hshort Hlen. destruct (Z.gtb_spec n 7); [lia|].
      eexists. split; [reflexivity|].
      rewrite slice_nonneg by lia.
      replace (6 + n - 6) with n by lia. change (Z.to_nat 6) with 6%nat.
      split; [len_tac|reflexivity].
Qed.

Lemma passive_target_uid_witness :
  read_passive_target (answering_bus one_card) 0 = Ok (Some [0xDE; 0xAD; 0xBE; 0xEF]).
Proof.
  destruct (passive_target_uid (answering_bus one_card) 0
              [0x01; 0x01; 0x00; 0x04; 0x08; 0x04; 0xDE; 0xAD; 0xBE; 0xEF] 1
              eq_refl eq_refl) as [_ H].
  destruct (H eq_refl 4 eq_refl) as [_ H'].
  destruct (H' ltac:(lia) ltac:(vm_compute; congruence)) as (uid & Hread & _ & Huid).
  rewrite Hread, Huid. reflexivity.
Defined.

(** Two responses that report neither more than one target nor a UID longer
    than 7 bytes, and for which no UID of the reported length comes back:
    with a target count of 0 the call raises, and with a response that ends
    after two of the four UID bytes it reports the call returns those two. *)
Lemma passive_target_counterexample :
  (exists response,
     call_function (answering_bus no_card) _COMMAND_INLISTPASSIVETARGET 19 [0x01; 0]
       = Ok (Some response)
     /\ response !! 0%nat = Some 0 /\ response !! 5%nat = Some 4
     /\ read_passive_target (answering_bus no_card) 0 = Raise multiple_targets)
  /\
  (exists response uid,
     call_function (answering_bus short_card) _COMMAND_INLISTPASSIVETARGET 19 [0x01; 0]
       = Ok (Some response)
     /\ response !! 0%nat = Some 1 /\ response !! 5%nat = Some 4
     /\ read_passive_target (answering_bus short_card) 0 = Ok (Some uid)
     /\ len uid = 2).
Proof.
  split.
  - exists [0x00; 0x01; 0x00; 0x04; 0x08; 0x04; 0xDE; 0xAD; 0xBE; 0xEF].
    repeat split; vm_compute; reflexivity.
  - exists [0x01; 0x01; 0x00; 0x04; 0x08; 0x04; 0xDE; 0xAD], [0xDE; 0xAD].
    repeat split; vm_compute; reflexivity.
Qed.

End PassiveTarget.

(** ** The memory image of a tag *)

Section TagMemory.
Import NFCTag.

(** the window of block [number] *)
(** the window of block [number] *)
Lemma blocks_window number :
  0 <= number < 64 -> _blocks number = Ok (16 * number, 16 * number + 16).
Proof.
  intros H. unfold _blocks, _nblocks, _nsectors.
  destruct (Z.leb_spec 0 number); [|lia].
  destruct (Z.ltb_spec number 64); [|lia].
  cbn [andb]. do 2 f_equal; lia.
Qed.

Lemma view_length self number :
  len (_memory self) = 1024 -> 0 <= number < 64 ->
  len (view self (16 * number, 16 * number + 16)) = 16.
Proof.
  intros Hm Hn. unfold view. cbn [fst snd].
  rewrite slice_nonneg by lia. len_tac.
Qed.

(** C7: for a tag with a 1024-byte image and a device, and a block index
    [number] in [0..63]: when the live read returns nothing, or data that is
    not 16 bytes long, [get_block] leaves the tag as it was and returns the
    16 cached bytes of the block; when the read returns 16 bytes,
    [get_block] returns them, the image keeps its length, holds them at the
    place of the block, and every byte outside this place, hence every
    other block, is as before. *)
Theorem get_block_frame self device number :
  len (_memory self) = 1024 ->
  _device self = Some device ->
  0 <= number < 64 ->
  (stale (read_mifare_classic device number) ->
     get_block self number
       = Ok (slice (_memory self) (16 * number) (16 * number + 16), self)
     /\ len (slice (_memory self) (16 * number) (16 * number + 16)) = 16)
  /\
  (forall data, read_mifare_classic device number = Some data -> len data = 16 ->
     exists self',
       get_block self number = Ok (data, self')
       /\ len (_memory self') = 1024
       /\ slice (_memory self') (16 * number) (16 * number + 16) = data
       /\ (forall i : nat, ~ (16 * number <= Z.of_nat i < 16 * number + 16) ->
             _memory self' !! i = _memory self !! i)
       /\ (forall other, 0 <= other < 64 -> other <> number ->
             block self' other = block self other)).
Proof.
  intros Hm Hdev Hn. split.
  - intros Hstale. split; [|apply (view_length self number Hm Hn)].
    unfold get_block, _nblocks. destruct (Z.gtb_spec number (64 - 1)); [lia|].
    rewrite Hdev.
    destruct Hstale as [-> | (data & -> & Hlen)].
    + cbn [bind]. unfold block. rewrite blocks_window by done. reflexivity.
    + unfold _blen. destruct (Z.eqb_spec (len data) 16); [done|].
      rewrite andb_false_r. cbn [bind]. unfold block.
      rewrite blocks_window by done. reflexivity.
  - intros data Hread Hlen.
    set (memory' := take (Z.to_nat (16 * number)) (_memory self) ++ data
                    ++ drop (Z.to_nat (16 * number + 16)) (_memory self)).
    exists (with_memory self memory').
    assert (Hget : get_block self number = Ok (view (with_memory self memory') (16 * number, 16 * number + 16), with_memory self memory')).
    { unfold get_block, _nblocks. destruct (Z.gtb_spec number (64 - 1)); [lia|].
      rewrite Hdev, Hread. unfold _blen.
      rewrite bool_decide_eq_false_2 by (intros ->; discriminate Hlen).
      rewrite Hlen. cbn [negb andb Z.eqb Pos.eqb].
      rewrite blocks_window by done. cbn [bind].
      unfold assign. rewrite view_length, Hlen by done. cbn [negb Z.eqb Pos.eqb fst snd].
      rewrite setslice_inside by lia. fold memory'. cbn [bind].
      unfold block. rewrite blocks_window by done. reflexivity. }
    assert (Hview : view (with_memory self memory') (16 * number, 16 * number + 16) = data).
    { unfold view, with_memory. cbn [_memory fst snd].
      rewrite slice_nonneg by lia. unfold memory'.
      rewrite drop_app_length' by len_tac.
      rewrite take_app_length' by len_tac. reflexivity. }
    rewrite Hget, Hview. split; [reflexivity|].
    assert (Hother : forall i : nat, ~ (16 * number <= Z.of_nat i < 16 * number + 16) ->
               memory' !! i = _memory self !! i).
    { intros i Hi. unfold memory'.
      destruct (decide (Z.of_nat i < 16 * number)).
      - rewrite lookup_app_l by len_tac. rewrite lookup_take_lt by lia. reflexivity.
      - rewrite lookup_app_r by len_tac. rewrite lookup_app_r by len_tac.
        rewrite lookup_drop. f_equal. len_tac. }
    split; [cbn [with_memory _memory]; unfold memory'; len_tac|].
    split; [exact Hview|]. split; [exact Hother|].
    intros other Ho Hne. unfold block. rewrite blocks_window by done. cbn [bind].
    f_equal. unfold view, with_memory. cbn [_memory fst snd].
    rewrite !slice_nonneg by lia.
    apply list_eq. intros i. rewrite !lookup_take, !lookup_drop.
    case_decide; [|reflexivity]. apply Hother. lia.
Qed.

Lemma get_block_frame_witness :
  exists self',
    get_block fresh_tag 4 = Ok (replicate 16 0xAB, self')
    /\ len (_memory self') = 1024.
Proof.
  destruct (get_block_frame fresh_tag fresh_device 4 eq_refl eq_refl ltac:(lia))
    as [_ H].
  destruct (H (replicate 16 0xAB) eq_refl eq_refl) as (self' & Hget & Hlen & _).
  exists self'. split; assumption.
Defined.

End TagMemory.

(** ** The application directory *)

Section Directory.
Import MAD1.

Lemma bytes_check (l : list Z) :
  forallb (fun b => (0 <=? b) && (b <? 256)) l = true -> Forall is_byte l.
Proof.
  intros H. apply Forall_forall. intros b Hb.
  rewrite forallb_forall in H. apply list_elem_of_In in Hb.
  specialize (H b Hb). unfold is_byte. lia.
Qed.

Lemma aids_of_entries mad :
  aids_of mad = (fun s => (s, slice mad (2 * s) (2 * s + 2))) <$> seqZ 1 15.
Proof. reflexivity. Qed.

Lemma entry_two_bytes (mad : list Z) s :
  len mad = 32 -> 1 <= s <= 15 ->
  exists a b, mad !! Z.to_nat (2 * s) = Some a
              /\ mad !! Z.to_nat (2 * s + 1) = Some b
              /\ slice mad (2 * s) (2 * s + 2) = [a; b].
Proof.
  intros Hlen Hs.
  destruct (lookup_lt_is_Some_2 mad (Z.to_nat (2 * s))) as [a Ha]; [len_tac|].
  destruct (lookup_lt_is_Some_2 mad (Z.to_nat (2 * s + 1))) as [b Hb]; [len_tac|].
  exists a, b. split; [done|]. split; [done|].
  rewrite slice_nonneg by lia.
  replace (2 * s + 2 - 2 * s) with 2 by lia. change (Z.to_nat 2) with 2%nat.
  rewrite (drop_S _ a _ Ha).
  replace (S (Z.to_nat (2 * s))) with (Z.to_nat (2 * s + 1)) by lia.
  rewrite (drop_S _ b _ Hb). reflexivity.
Qed.

Lemma aid_code_pair native a b : aid_code native [a; b] = struct.value native [a; b].
Proof. reflexivity. Qed.

Lemma lor_shift_byte hi lo :
  is_byte lo -> Z.lor (Z.shiftl hi 8) lo = hi * 256 + lo.
Proof.
  unfold is_byte. intros Hlo.
  rewrite Z.shiftl_mul_pow2 by lia.
  rewrite <- Z.add_nocarry_lor; [reflexivity|].
  apply Z.bits_inj'. intros n Hn. rewrite Z.land_spec, Z.bits_0.
  destruct (Z.ltb_spec n 8).
  - rewrite Z.mul_pow2_bits_low by lia. reflexivity.
  - rewrite (Z.bits_above_log2 lo n); [apply andb_false_r|lia|].
    destruct (Z.eq_dec lo 0) as [->|]; [cbn; lia|].
    apply Z.log2_lt_pow2; [lia|].
    apply Z.lt_le_trans with (2 ^ 8); [lia|]. apply Z.pow_le_mono_r; lia.
Qed.

Lemma value_little a b :
  is_byte a -> is_byte b ->
  struct.value struct.Little [a; b] = _MAD_AID_NFC <-> a = 0x03 /\ b = 0xE1.
Proof.
  intros Ha Hb.
  change (struct.value struct.Little [a; b])
    with (Z.lor (Z.shiftl (Z.lor (Z.shiftl 0 8) b) 8) a).
  rewrite Z.shiftl_0_l, Z.lor_0_l, lor_shift_byte by done.
  unfold is_byte, _MAD_AID_NFC in *. lia.
Qed.

Lemma value_big a b :
  is_byte a -> is_byte b ->
  struct.value struct.Big [a; b] = _MAD_AID_NFC <-> a = 0xE1 /\ b = 0x03.
Proof.
  intros Ha Hb.
  change (struct.value struct.Big [a; b])
    with (Z.lor (Z.shiftl (Z.lor (Z.shiftl 0 8) a) 8) b).
  rewrite Z.shiftl_0_l, Z.lor_0_l, lor_shift_byte by done.
  unfold is_byte, _MAD_AID_NFC in *. lia.
Qed.

(** The sectors that [NFCSectors] lists after [set_mad_data]. *)
Lemma nfc_sectors_after_set native self data self' :
  set_mad_data native self data = Ok self' ->
  forall s, s ∈ (NFCSectors native self').1 <->
            1 <= s <= 15 /\ aid_code native (slice data (2 * s) (2 * s + 2)) = _MAD_AID_NFC.
Proof.
  intros Hset s. unfold set_mad_data in Hset.
  destruct (getitem data 0) as [crc|]; [|discriminate].
  destruct (getitem data 1) as [info|]; [|discriminate].
  cbn [bind] in Hset. injection Hset as <-.
  unfold NFCSectors, _get_nfc_sectors. cbn [_aids _nfc_sectors _mad _crc _info fst].
  rewrite bool_decide_eq_false_2 by (rewrite aids_of_entries; discriminate).
  cbn [_aids _nfc_sectors fst].
  rewrite aids_of_entries, list_elem_of_fmap. split.
  - intros ([s' aid] & -> & Hin). cbn [fst].
    apply list_elem_of_filter in Hin as [Hcode Hin]. cbn [snd] in Hcode.
    apply list_elem_of_fmap in Hin as (k & Heq & Hk). injection Heq as -> ->.
    apply elem_of_seqZ in Hk. split; [lia|exact Hcode].
  - intros [Hs Hcode]. exists (s, slice data (2 * s) (2 * s + 2)). split; [reflexivity|].
    apply list_elem_of_filter. split; [exact Hcode|].
    apply list_elem_of_fmap. exists s. split; [reflexivity|].
    apply elem_of_seqZ. lia.
Qed.

(** C1, as amended: after [set_mad_data] with a 32-byte directory, sector
    [s] of [1..15], whose AID entry holds the bytes [a] then [b], is in
    [NFCSectors] exactly when the 16-bit value of the entry in the byte
    order of the host is [0xE103]: on a little-endian host exactly when the
    entry holds [03 E1] (byte [03] first), on a big-endian host exactly when
    it holds [E1 03].  Every sector whose AID value is not [0xE103] is left
    out. *)
Theorem mad1_nfc_sectors native self data self' :
  len data = 32 ->
  Forall is_byte data ->
  set_mad_data native self data = Ok self' ->
  forall s a b,
    1 <= s <= 15 ->
    data !! Z.to_nat (2 * s) = Some a ->
    data !! Z.to_nat (2 * s + 1) = Some b ->
    (s ∈ (NFCSectors native self').1 <-> struct.value native [a; b] = _MAD_AID_NFC)
    /\ (native = struct.Little ->
          (s ∈ (NFCSectors native self').1 <-> a = 0x03 /\ b = 0xE1))
    /\ (native = struct.Big ->
          (s ∈ (NFCSectors native self').1 <-> a = 0xE1 /\ b = 0x03)).
Proof.
  intros Hlen Hbytes Hset s a b Hs Ha Hb.
  pose proof (nfc_sectors_after_set native self data self' Hset s) as Hiff.
  destruct (entry_two_bytes data s Hlen Hs) as (a' & b' & Ha' & Hb' & Hslice).
  rewrite Ha in Ha'. rewrite Hb in Hb'. injection Ha' as <-. injection Hb' as <-.
  rewrite Hslice, aid_code_pair in Hiff.
  rewrite Forall_lookup in Hbytes.
  pose proof (Hbytes _ _ Ha) as Hba. pose proof (Hbytes _ _ Hb) as Hbb.
  split; [|split].
  - rewrite Hiff. tauto.
  - intros ->. rewrite Hiff, value_little by done. tauto.
  - intros ->. rewrite Hiff, value_big by done. tauto.
Qed.

Lemma mad1_nfc_sectors_witness :
  exists self',
    set_mad_data struct.Little blank_mad sample_directory = Ok self'
    /\ 1 ∈ (NFCSectors struct.Little self').1.
Proof.
  eexists. split; [reflexivity|].
  eapply (proj1 (proj2 (mad1_nfc_sectors struct.Little blank_mad sample_directory _
                          eq_refl (bytes_check sample_directory eq_refl) eq_refl
                          1 0x03 0xE1 ltac:(lia) eq_refl eq_refl))).
  - reflexivity.
  - split; reflexivity.
Defined.

(** On a little-endian host, the directory whose entry 3 holds the bytes
    [E1 03] does not list sector 3. *)
Lemma mad1_counterexample :
  exists self',
    set_mad_data struct.Little blank_mad sample_directory = Ok self'
    /\ sample_directory !! 6%nat = Some 0xE1
    /\ sample_directory !! 7%nat = Some 0x03
    /\ (NFCSectors struct.Little self').1 = [1; 2]
    /\ 3 ∉ (NFCSectors struct.Little self').1.
Proof.
  eexists. split; [reflexivity|]. split; [reflexivity|]. split; [reflexivity|].
  split; [reflexivity|].
  change (3 ∉ [1; 2]). rewrite !not_elem_of_cons. split; [lia|]. split; [lia|].
  apply not_elem_of_nil.
Qed.

End Directory.

(** ** URI records *)

Section UriRecord.
Import NDEFBase MicroUri.

(** [_decode_payload] up to the table lookup *)
Lemma uri_decode_steps code data :
  _decode_payload (code :: data) =
    (let* prefix := getitem _prefix_strings code in
     let* encoded := Codec.str_encode Codec.utf8 (str_of_string prefix) in
     __init__ (Some (VBytes (encoded ++ data)))).
Proof.
  unfold _decode_payload, BytesIO.read_all, BytesIO.read, BytesIO.new.
  cbn [BytesIO.pos BytesIO.buf drop take Z.to_nat Pos.to_nat Pos.iter_op Init.Nat.add
       Z.ltb Z.compare length].
  reflexivity.
Qed.

Lemma prefixes_are_ascii :
  Forall (fun p => Codec.utf8_encode (str_of_string p) = Some (str_of_string p)
                   /\ forallb Codec.is_ascii (str_of_string p) = true)
         _prefix_strings.
Proof. repeat (apply Forall_cons_2; [split; reflexivity|]). apply Forall_nil_2. Qed.

(** C10: for a payload that starts with the prefix code [code]: when [code]
    is greater than 35 the lookup in [_prefix_strings] raises [IndexError],
    and the record decoder hands this error on as it is, neither as an
    [NDEFdecodeError] nor as a URI without prefix; when [code] is in
    [0..35] the decoder builds the record from the bytes of the table entry
    number [code] (the empty string for code 0) followed by the rest of the
    payload, which gives the URI made of both when the rest is ASCII. *)
Theorem uri_prefix_lookup code data :
  (35 < code ->
     _decode_payload (code :: data) = Raise IndexError
     /\ forall utf16 self out MB ME CF,
          (NDEFRecord.dispatch utf16 self out _type (code :: data) MB ME CF).1.1
            = Raise IndexError)
  /\
  (0 <= code <= 35 ->
     exists prefix,
       _prefix_strings !! Z.to_nat code = Some prefix
       /\ (code = 0 -> prefix = EmptyString)
       /\ _decode_payload (code :: data)
            = __init__ (Some (VBytes (str_of_string prefix ++ data)))
       /\ (forallb Codec.is_ascii data = true ->
             _decode_payload (code :: data)
               = Ok {| _url := str_of_string prefix ++ data |})).
Proof.
  assert (Htable : length _prefix_strings = 36%nat) by reflexivity.
  split.
  - intros Hcode.
    assert (Hraise : _decode_payload (code :: data) = Raise IndexError).
    { rewrite uri_decode_steps, getitem_beyond by len_tac. reflexivity. }
    split; [exact Hraise|].
    intros utf16 self out MB ME CF. unfold NDEFRecord.dispatch.
    change (NDEFRecord.lookup_type _type) with (Some NDEFRecord.UriCls).
    unfold NDEFRecord._decode_payload. rewrite Hraise. reflexivity.
  - intros Hcode. rewrite uri_decode_steps.
    destruct (lookup_lt_is_Some_2 _prefix_strings (Z.to_nat code)) as [prefix Hp];
      [lia|].
    exists prefix. split; [exact Hp|].
    pose proof prefixes_are_ascii as Hall. rewrite Forall_lookup in Hall.
    destruct (Hall _ _ Hp) as [Henc Hascii].
    rewrite (getitem_nonneg _ code prefix) by (lia || done). cbn [bind].
    unfold Codec.str_encode. cbn [Codec.encode Codec.utf8]. rewrite Henc.
    cbn [Codec.unicode bind].
    split; [|split].
    + intros ->. cbn in Hp. injection Hp as <-. reflexivity.
    + reflexivity.
    + intros Hdata. unfold __init__, _value_to_unicode, Codec.bytes_decode.
      cbn [from_option id Codec.decode Codec.ascii]. unfold Codec.ascii_decode.
      rewrite forallb_app, Hascii, Hdata. reflexivity.
Qed.

Lemma uri_prefix_lookup_witness :
  _decode_payload (0x01 :: str_of_string "example.com")
    = Ok {| _url := str_of_string "http://www.example.com" |}.
Proof.
  destruct (proj2 (uri_prefix_lookup 0x01 (str_of_string "example.com")) ltac:(lia))
    as (prefix & Hp & _ & _ & Hok).
  rewrite (Hok eq_refl). cbn in Hp. injection Hp as <-. reflexivity.
Defined.

End UriRecord.

(** ** Text records *)

Section TextRecord.
Import NDEFBase NDEFTextRecord.

(** C3: the text record is not encoded.  The constructor accepts the text
    "hello" with the language "en" and the encoding "UTF-8", and the
    payload [02 "en" "hello"] is decoded to that record; but on that record
    [_encode_payload] raises [AttributeError], with the strict codec for
    the name "ascii" and with UTF-8 in its place alike: the flag byte is
    asked of [_encode_struct], which the base record does not have.  So
    [_encode_payload] returns a payload for no record at all, whatever
    the codecs of the platform. *)
Theorem text_record_not_encoded (utf16 : Codec.codec) :
  __init__ (Some (str_of_string "hello")) (Some (str_of_string "en")) (Some "UTF-8")
    = Ok hello_en_utf8
  /\ _decode_payload utf16 (2 :: str_of_string "enhello") = Ok hello_en_utf8
  /\ _encode_payload utf16 Codec.ascii hello_en_utf8
     = Raise (AttributeError "_encode_struct")
  /\ _encode_payload utf16 Codec.utf8 hello_en_utf8
     = Raise (AttributeError "_encode_struct")
  /\ (forall named_ascii self payload,
        _encode_payload utf16 named_ascii self <> Ok payload).
Proof.
  repeat split; try reflexivity.
  intros named_ascii self payload. unfold _encode_payload.
  destruct (Codec.str_encode named_ascii (_lang self)); [|discriminate].
  cbn [bind].
  destruct (Codec.str_encode (codec_of utf16 (_utfx self)) (_text self));
    [|discriminate].
  cbn [bind]. discriminate.
Qed.

End TextRecord.

(** ** The record decoder *)

Section RecordDecoder.
Import NDEFBase NDEFRecord.

Lemma tnf_056 TNF : TNF ∈ [0; 5; 6] <-> TNF = 0 \/ TNF = 5 \/ TNF = 6.
Proof. rewrite !elem_of_cons, elem_of_nil. tauto. Qed.

Lemma tnf_1234 TNF : TNF ∈ [1; 2; 3; 4] <-> TNF = 1 \/ TNF = 2 \/ TNF = 3 \/ TNF = 4.
Proof. rewrite !elem_of_cons, elem_of_nil. tauto. Qed.

Ltac split_checks TNF f0 f1 f2 :=
  unfold check_fields;
  destruct (bool_decide_reflect (TNF ∈ [0; 5; 6]));
  destruct (Z.eqb_spec f0 0);
  destruct (Z.eqb_spec TNF 0);
  destruct (Z.eqb_spec f2 0);
  destruct (Z.eqb_spec f1 0);
  destruct (bool_decide_reflect (TNF ∈ [1; 2; 3; 4]));
  destruct (Z.gtb_spec f0 0);
  cbn [andb negb];
  rewrite ?tnf_056, ?tnf_1234 in *.

Lemma check_fields_violated TNF f0 f1 f2 :
  violates_invariant TNF f0 f1 f2 ->
  exists msg, check_fields TNF f0 f1 f2 = Some msg.
Proof.
  intros Hv. unfold violates_invariant in Hv.
  split_checks TNF f0 f1 f2; try (eexists; reflexivity); exfalso; lia.
Qed.

Lemma check_fields_satisfied TNF f0 f1 f2 :
  satisfies_invariants TNF f0 f1 f2 -> check_fields TNF f0 f1 f2 = None.
Proof.
  intros (H1 & H2 & H3).
  split_checks TNF f0 f1 f2; try reflexivity; exfalso; lia.
Qed.

Lemma field_invariant_is_header_error TNF f0 f1 f2 msg :
  0 <= TNF < 7 ->
  check_fields TNF f0 f1 f2 = Some msg ->
  header_error (field_invariant msg TNF) = true.
Proof.
  intros HT. unfold check_fields.
  assert (TNF = 0 \/ TNF = 1 \/ TNF = 2 \/ TNF = 3 \/ TNF = 4 \/ TNF = 5 \/ TNF = 6)
    as Hcases by lia.
  repeat case_match; intros; simplify_eq;
    repeat (destruct Hcases as [->|Hcases]; [reflexivity|]); subst; reflexivity.
Qed.

(** The errors that [_decode] can raise once the header checks are passed
    are none of the header errors. *)
Lemma text_payload_errors utf16 octets e :
  NDEFTextRecord._decode_payload utf16 octets = Raise e -> header_error e = false.
Proof.
  unfold NDEFTextRecord._decode_payload, _decode_struct_B.
  destruct octets as [|FLAG octets]; cbn [bind].
  { intros ?; simplify_eq; reflexivity. }
  destruct (Z.land FLAG 63 =? 0); [intros ?; simplify_eq; reflexivity|].
  destruct (Z.land FLAG 63 >=? _); [intros ?; simplify_eq; reflexivity|].
  unfold Codec.bytes_decode.
  match goal with
  | |- match ?d with _ => _ end = _ -> _ => destruct d as [[LANG TEXT]|e'] eqn:Hd
  end.
  - unfold NDEFTextRecord.__init__, NDEFTextRecord.check_language,
      NDEFTextRecord.check_encoding.
    repeat case_match; cbn [bind]; intros ?; simplify_eq; reflexivity.
  - apply (unicode_pair_raises _ (fun LANG => Codec.decode _ (slice_from _ (1 + len LANG))))
      in Hd as ->.
    destruct (negb (Z.shiftr FLAG 7 =? 0)); intros ?; simplify_eq; reflexivity.
Qed.

Lemma uri_payload_errors octets e :
  MicroUri._decode_payload octets = Raise e -> header_error e = false.
Proof.
  unfold MicroUri._decode_payload.
  destruct (BytesIO.read (BytesIO.new octets) 1) as [first stream].
  destruct (getitem first 0) as [code|e1] eqn:H1; cbn [bind].
  2:{ apply getitem_raises in H1 as ->. intros ?; simplify_eq; reflexivity. }
  destruct (BytesIO.read_all stream) as [data stream'].
  destruct (getitem MicroUri._prefix_strings code) as [prefix|e2] eqn:H2; cbn [bind].
  2:{ apply getitem_raises in H2 as ->. intros ?; simplify_eq; reflexivity. }
  unfold Codec.str_encode.
  destruct (Codec.unicode _) as [encoded|e3] eqn:H3; cbn [bind].
  2:{ apply unicode_raises in H3 as ->. intros ?; simplify_eq; reflexivity. }
  unfold MicroUri.__init__, _value_to_unicode, Codec.bytes_decode.
  cbn [from_option id].
  destruct (Codec.unicode (Codec.decode Codec.ascii _)) as [s|e4] eqn:H4; cbn [bind].
  - discriminate.
  - apply unicode_raises in H4 as ->. cbn [bind]. intros ?; simplify_eq; reflexivity.
Qed.

Lemma decode_type_errors TNF TYPE e :
  _decode_type TNF TYPE = Raise e -> header_error e = false.
Proof.
  unfold _decode_type.
  destruct (negb _); [intros ?; simplify_eq; reflexivity|].
  destruct (getitem prefix TNF) as [p|e1] eqn:H1; cbn [bind].
  2:{ apply getitem_raises in H1 as ->. intros ?; simplify_eq; reflexivity. }
  unfold Codec.bytes_decode.
  destruct (Codec.unicode _) as [t|e2] eqn:H2; cbn [bind]; [discriminate|].
  apply unicode_raises in H2 as ->. intros ?; simplify_eq; reflexivity.
Qed.

Lemma dispatch_errors utf16 self out record_type PAYLOAD MB ME CF e :
  (dispatch utf16 self out record_type PAYLOAD MB ME CF).1.1 = Raise e ->
  header_error e = false.
Proof.
  unfold dispatch, _decode_payload.
  destruct (lookup_type record_type) as [[|]|]; cbn [fst].
  - destruct (NDEFTextRecord._decode_payload utf16 PAYLOAD) eqn:Hp; cbn [bind];
      [discriminate|].
    intros ?; simplify_eq. eapply text_payload_errors; eassumption.
  - destruct (MicroUri._decode_payload PAYLOAD) eqn:Hp; cbn [bind]; [discriminate|].
    intros ?; simplify_eq. eapply uri_payload_errors; eassumption.
  - discriminate.
Qed.

Lemma check_read_errors f0 f1 f2 TYPE ID PAYLOAD error :
  check_read f0 f1 f2 TYPE ID PAYLOAD = Some error ->
  header_error (_decode_error "buffer underflow at reading {}" (ErrExcp error)) = false.
Proof.
  unfold check_read. repeat case_match; intros ?; simplify_eq; reflexivity.
Qed.

Lemma tnf_range octet0 : 0 <= Z.land octet0 0x07 < 8.
Proof.
  change 0x07 with (Z.ones 3). rewrite Z.land_ones by lia.
  change (2 ^ 3) with 8. apply Z.mod_pos_bound. lia.
Qed.

(** C5, as amended: for a record object with the payload limit of 512 and a
    first octet [octet0], with [TNF] its low three bits: when [TNF] is 7,
    [_decode] raises the invalid-TNF error.  Otherwise, with [f0], [f1] and
    [f2] the TYPE_LENGTH, PAYLOAD_LENGTH and ID_LENGTH that it unpacks: when
    they break an invariant ([TNF] in 0, 5, 6 and [f0] not 0; [TNF] 0 and
    [f2] or [f1] not 0; [TNF] in 1..4 and [f0] 0), it raises a
    field-invariant error; when they keep the invariants and [f1] exceeds
    512, it raises the payload-too-large error; when they keep the
    invariants and [f1] is at most 512, whatever it raises is none of these
    errors. *)
Theorem record_header_checks utf16 self out octet0 s1 :
  MAX_PAYLOAD_SIZE self = 512 ->
  BytesIO.read (_data self) 1 = ([octet0], s1) ->
  let TNF := Z.land octet0 0x07 in
  let SR := negb (Z.land octet0 0x10 =? 0) in
  let IL := negb (Z.land octet0 0x08 =? 0) in
  let outcome := (_decode utf16 self out).1.1 in
  (TNF = 7 -> outcome = Raise invalid_tnf)
  /\
  (TNF <> 7 ->
   forall lengths s2 unpacked f0 f1 f2 more,
     BytesIO.read s1 (struct.calcsize (structfmt SR IL)) = (lengths, s2) ->
     struct.unpack struct.Big (structfmt SR IL) lengths = Ok unpacked ->
     unpacked ++ [0] = f0 :: f1 :: f2 :: more ->
     (violates_invariant TNF f0 f1 f2 ->
        exists msg, outcome = Raise (field_invariant msg TNF)
                    /\ header_error (field_invariant msg TNF) = true)
     /\ (satisfies_invariants TNF f0 f1 f2 -> 512 < f1 ->
           outcome = Raise payload_too_large)
     /\ (satisfies_invariants TNF f0 f1 f2 -> f1 <= 512 ->
           forall e, outcome = Raise e -> header_error e = false)).
Proof.
  intros Hmax Hread1 TNF SR IL outcome.
  pose proof (tnf_range octet0) as Hrange. fold TNF in Hrange.
  assert (Hstart : _decode utf16 self out =
    let self1 := with_header (with_data self s1)
        {| _TNF := TNF; _IL := IL; _SR := SR;
           _CF := negb (Z.land octet0 0x20 =? 0);
           _ME := negb (Z.land octet0 0x40 =? 0);
           _MB := negb (Z.land octet0 0x80 =? 0) |} in
    if TNF =? 7 then (Raise invalid_tnf, self1, out)
    else
      let '(data, stream) := BytesIO.read s1 (struct.calcsize (structfmt SR IL)) in
      let self2 := with_data self1 stream in
      match struct.unpack struct.Big (structfmt SR IL) data with
      | Raise _ =>
          (Raise (_decode_error "buffer underflow at reading length fields" NoExcp),
           self2, out)
      | Ok unpacked =>
          match unpacked ++ [0] with
          | f0 :: f1 :: f2 :: _ =>
              match check_fields TNF f0 f1 f2 with
              | Some error => (Raise (field_invariant error TNF), self2, out)
              | None =>
                  if f1 >? 512 then (Raise payload_too_large, self2, out)
                  else
                    let '(TYPE, stream) := BytesIO.read (_data self2) f0 in
                    let '(ID, stream) := BytesIO.read stream f2 in
                    let '(PAYLOAD, stream) := BytesIO.read stream f1 in
                    let self3 := with_data self2 stream in
                    match check_read f0 f1 f2 TYPE ID PAYLOAD with
                    | Some error =>
                        (Raise (_decode_error "buffer underflow at reading {}"
                                  (ErrExcp error)), self3, out)
                    | None =>
                        match _decode_type TNF TYPE with
                        | Raise e => (Raise e, self3, out)
                        | Ok record_type =>
                            dispatch utf16 self3 out record_type PAYLOAD
                              (negb (Z.land octet0 0x80 =? 0))
                              (negb (Z.land octet0 0x40 =? 0))
                              (negb (Z.land octet0 0x20 =? 0))
                        end
                    end
              end
          | _ => (Raise IndexError, self2, out)
          end
      end).
  { unfold _decode. rewrite Hread1. cbn [ord].
    cbn [with_header with_data _data MAX_PAYLOAD_SIZE]. rewrite Hmax. reflexivity. }
  subst outcome. rewrite Hstart. clear Hstart. cbv zeta. split.
  - intros ->. reflexivity.
  - intros Hne lengths s2 unpacked f0 f1 f2 more Hread2 Hunpack Hfields.
    destruct (Z.eqb_spec TNF 7); [done|].
    rewrite Hread2, Hunpack, Hfields. split; [|split].
    + intros Hv. destruct (check_fields_violated _ _ _ _ Hv) as [msg Hmsg].
      rewrite Hmsg. exists msg. split; [reflexivity|].
      eapply field_invariant_is_header_error; [|exact Hmsg]. lia.
    + intros Hs Hbig. rewrite (check_fields_satisfied _ _ _ _ Hs).
      destruct (Z.gtb_spec f1 512); [reflexivity|lia].
    + intros Hs Hsmall e. rewrite (check_fields_satisfied _ _ _ _ Hs).
      destruct (Z.gtb_spec f1 512); [lia|].
      cbn [with_header with_data _data].
      destruct (BytesIO.read s2 f0) as [TYPE s3].
      destruct (BytesIO.read s3 f2) as [ID s4].
      destruct (BytesIO.read s4 f1) as [PAYLOAD s5].
      destruct (check_read f0 f1 f2 TYPE ID PAYLOAD) as [error|] eqn:Hcr.
      { cbn [fst]. intros ?; simplify_eq. eapply check_read_errors; eassumption. }
      destruct (_decode_type TNF TYPE) as [record_type|e'] eqn:Hty.
      * apply dispatch_errors.
      * cbn [fst]. intros ?; simplify_eq. eapply decode_type_errors; eassumption.
Qed.

Lemma record_header_checks_witness :
  (_decode Codec.utf8 (__init__ [0xC5; 0; 0; 0; 3; 232]) []).1.1
    = Raise payload_too_large.
Proof.
  destruct (record_header_checks Codec.utf8 (__init__ [0xC5; 0; 0; 0; 3; 232]) [] 0xC5
              {| BytesIO.buf := [0xC5; 0; 0; 0; 3; 232]; BytesIO.pos := 1 |}
              eq_refl eq_refl) as [_ H].
  destruct (H ltac:(vm_compute; discriminate) [0; 0; 0; 3; 232]
              {| BytesIO.buf := [0xC5; 0; 0; 0; 3; 232]; BytesIO.pos := 6 |}
              [0; 1000] 0 1000 0 [] eq_refl eq_refl eq_refl) as (_ & Hbig & _).
  apply Hbig; [|lia].
  unfold satisfies_invariants. change (Z.land 197 7) with 5.
  rewrite tnf_056, tnf_1234. lia.
Defined.

(** A header with TNF 0 and a PAYLOAD_LENGTH of 1000, above 512: the error
    is the field-invariant one, not the payload-too-large one. *)
Lemma record_header_counterexample :
  struct.unpack struct.Big (structfmt false false) [0; 0; 0; 3; 232] = Ok [0; 1000]
  /\ (_decode Codec.utf8 (__init__ [0xC0; 0; 0; 0; 3; 232]) []).1.1
       = Raise (field_invariant "PAYLOAD_LENGTH must be 0" 0)
  /\ field_invariant "PAYLOAD_LENGTH must be 0" 0 <> payload_too_large.
Proof. split; [reflexivity|]. split; [reflexivity|discriminate]. Qed.

(** The last part of [_decode] logs a length outside the bounds of the
    class and goes on to the payload decoder. *)
Lemma dispatch_logs utf16 self out record_type PAYLOAD MB ME CF cls :
  lookup_type record_type = Some cls ->
  len PAYLOAD < min_payload_length cls \/ max_payload_length cls < len PAYLOAD ->
  exists warnings,
    dispatch utf16 self out record_type PAYLOAD MB ME CF
      = (let* record := _decode_payload utf16 cls PAYLOAD in
         Ok (Some record, MB, ME, CF), self, out ++ warnings)
    /\ warnings <> []
    /\ (len PAYLOAD < min_payload_length cls -> warn_short ∈ warnings)
    /\ (max_payload_length cls < len PAYLOAD -> warn_long ∈ warnings).
Proof.
  intros Hcls Hlen. unfold dispatch. rewrite Hcls.
  assert (Hbounds : min_payload_length cls = 1 /\ max_payload_length cls = 512)
    by (destruct cls; split; reflexivity).
  destruct Hbounds as [Hmin Hmax]. rewrite Hmin, Hmax in *.
  destruct (Z.ltb_spec (len PAYLOAD) 1); destruct (Z.gtb_spec (len PAYLOAD) 512);
    try lia.
  - exists [warn_short]. split; [reflexivity|]. split; [done|].
    split; intros; [apply list_elem_of_here|lia].
  - exists [warn_long]. split; [reflexivity|]. split; [done|].
    split; intros; [lia|apply list_elem_of_here].
Qed.

(** C8: when [_decode] has read a record whose header passes the checks,
    whose fields have the announced lengths and whose type string is the key
    of a known class (Text or URI), and the length of its payload is below
    the minimum or above the maximum of that class, the call prints the
    warning of the violated bound and its outcome is the outcome of the
    payload decoder of the class: the length check itself raises nothing. *)
Theorem length_violation_logged utf16 self out octet0 f0 f1 f2 TYPE ID PAYLOAD s5
    record_type cls :
  let TNF := Z.land octet0 0x07 in
  reads_record self octet0 f0 f1 f2 TYPE ID PAYLOAD s5 ->
  TNF <> 7 ->
  satisfies_invariants TNF f0 f1 f2 ->
  f1 <= MAX_PAYLOAD_SIZE self ->
  f0 = len TYPE /\ f2 = len ID /\ f1 = len PAYLOAD ->
  _decode_type TNF TYPE = Ok record_type ->
  lookup_type record_type = Some cls ->
  len PAYLOAD < min_payload_length cls \/ max_payload_length cls < len PAYLOAD ->
  exists warnings self',
    _decode utf16 self out
      = (let* record := _decode_payload utf16 cls PAYLOAD in
         Ok (Some record,
             negb (Z.land octet0 0x80 =? 0),
             negb (Z.land octet0 0x40 =? 0),
             negb (Z.land octet0 0x20 =? 0)),
         self', out ++ warnings)
    /\ warnings <> []
    /\ (len PAYLOAD < min_payload_length cls -> warn_short ∈ warnings)
    /\ (max_payload_length cls < len PAYLOAD -> warn_long ∈ warnings).
Proof.
  intros TNF (s1 & lengths & s2 & unpacked & more & s3 & s4
              & Hr1 & Hr2 & Hunpack & Hfields & Hr3 & Hr4 & Hr5)
    Htnf Hinv Hmax (Hf0 & Hf2 & Hf1) Htype Hcls Hlen.
  unfold _decode. rewrite Hr1. cbn [ord]. fold TNF.
  destruct (Z.eqb_spec TNF 7); [done|].
  cbn [with_header with_data _data MAX_PAYLOAD_SIZE].
  rewrite Hr2, Hunpack, Hfields.
  rewrite (check_fields_satisfied _ _ _ _ Hinv).
  destruct (Z.gtb_spec f1 (MAX_PAYLOAD_SIZE self)); [lia|].
  rewrite Hr3, Hr4, Hr5.
  assert (Hread : check_read f0 f1 f2 TYPE ID PAYLOAD = None).
  { unfold check_read. rewrite Hf0, Hf1, Hf2, !Z.eqb_refl. reflexivity. }
  rewrite Hread, Htype.
  match goal with
  | |- context [dispatch utf16 ?self' out record_type PAYLOAD ?MB ?ME ?CF] =>
      destruct (dispatch_logs utf16 self' out record_type PAYLOAD MB ME CF cls Hcls Hlen)
        as (warnings & Hd & Hw);
      exists warnings, self'; split; [exact Hd|exact Hw]
  end.
Qed.

Lemma length_violation_logged_witness :
  exists warnings self',
    _decode Codec.utf8 (__init__ [0xD1; 1; 0; 0x54]) []
      = (Raise (NDEFdecodeError "buffer too small"), self', warnings)
    /\ warn_short ∈ warnings.
Proof.
  destruct (length_violation_logged Codec.utf8 (__init__ [0xD1; 1; 0; 0x54]) []
              0xD1 1 0 0 [0x54] [] []
              {| BytesIO.buf := [0xD1; 1; 0; 0x54]; BytesIO.pos := 4 |}
              NDEFTextRecord._type TextCls)
    as (warnings & self' & Hdecode & _ & Hshort & _).
  - exists {| BytesIO.buf := [0xD1; 1; 0; 0x54]; BytesIO.pos := 1 |}, [1; 0],
      {| BytesIO.buf := [0xD1; 1; 0; 0x54]; BytesIO.pos := 3 |}, [1; 0], [],
      {| BytesIO.buf := [0xD1; 1; 0; 0x54]; BytesIO.pos := 4 |},
      {| BytesIO.buf := [0xD1; 1; 0; 0x54]; BytesIO.pos := 4 |}.
    repeat split; reflexivity.
  - vm_compute. discriminate.
  - unfold satisfies_invariants. change (Z.land 209 7) with 1.
    rewrite tnf_056, tnf_1234. lia.
  - vm_compute. discriminate.
  - repeat split; reflexivity.
  - reflexivity.
  - reflexivity.
  - left. reflexivity.
  - exists warnings, self'. split; [rewrite Hdecode; reflexivity|].
    apply Hshort. reflexivity.
Defined.

(** A URI record of 513 bytes, above the maximum of the class, given to an
    object that accepts it: the warning is printed and the record is
    decoded. *)
Example long_payload_is_logged :
  let outcome :=
    _decode Codec.utf8
      (roomy_record ([0xC1; 1; 0; 0; 2; 1; 0x55; 0x00] ++ replicate 512 0x61)) [] in
  outcome.1.1
    = Ok (Some (Uri {| MicroUri._url := replicate 512 0x61 |}), true, true, false)
  /\ outcome.2 = [warn_long].
Proof. split; vm_compute; reflexivity. Qed.

End RecordDecoder.

(** ** The TLV scanner *)

Section TlvScan.
Import NFCTag.

Lemma index_found datablock b i :
  index datablock b = Ok i <-> exists n, i = Z.of_nat n /\ first_at b datablock n.
Proof.
  unfold index, first_at.
  destruct (list_find (fun x => x = b) datablock) as [[n x]|] eqn:Hfind.
  - apply list_find_Some in Hfind as (Hn & -> & Hfirst). split.
    + intros ?; simplify_eq. exists n. split; [reflexivity|]. split; [done|].
      intros j Hj Hjb. exact (Hfirst j b Hjb Hj eq_refl).
    + intros (m & -> & Hm & Hbefore). f_equal. f_equal.
      destruct (Nat.lt_trichotomy n m) as [Hlt|[->|Hgt]]; [|reflexivity|].
      * exfalso. exact (Hbefore n Hlt Hn).
      * exfalso. exact (Hfirst m b Hm Hgt eq_refl).
  - split; [discriminate|]. intros (m & -> & Hm & _). exfalso.
    apply list_find_None in Hfind. rewrite Forall_lookup in Hfind.
    exact (Hfind m b Hm eq_refl).
Qed.

Lemma index_missing datablock b :
  (forall i, datablock !! i <> Some b) ->
  index datablock b = Raise (ValueError "substring not found").
Proof.
  intros Hnone. unfold index.
  destruct (list_find (fun x => x = b) datablock) as [[n x]|] eqn:Hfind; [|reflexivity].
  apply list_find_Some in Hfind as (Hn & -> & _). exfalso. exact (Hnone n Hn).
Qed.

Lemma first_at_unique b l i j : first_at b l i -> first_at b l j -> i = j.
Proof.
  intros [Hi Hbi] [Hj Hbj].
  destruct (Nat.lt_trichotomy i j) as [Hlt|[->|Hgt]]; [|reflexivity|].
  - exfalso. exact (Hbj i Hlt Hi).
  - exfalso. exact (Hbi j Hgt Hj).
Qed.

(** The scan of a bytes object *)
Lemma find_tlvblock_bytes_ok datablock payload :
  Forall is_byte datablock ->
  find_tlvblock_bytes datablock = Ok payload ->
  exists (i : nat) (n : Z),
    first_at 0x03 datablock i
    /\ datablock !! S i = Some n
    /\ payload = take (Z.to_nat n) (drop (S (S i)) datablock)
    /\ len payload = n
    /\ datablock !! (S (S i) + Z.to_nat n)%nat = Some 0xFE
    /\ first_at 0xFE datablock (S (S i) + Z.to_nat n).
Proof.
  intros Hbytes. unfold find_tlvblock_bytes.
  destruct (index datablock 3) as [start|] eqn:Hstart; [|discriminate].
  destruct (index datablock 254) as [stop|] eqn:Hstop; [|discriminate].
  cbn [bind].
  apply index_found in Hstart as (i & -> & Hi).
  apply index_found in Hstop as (k & -> & Hk).
  destruct (getitem datablock (Z.of_nat i + 1)) as [n|] eqn:Hn; [|discriminate].
  cbn [bind]. apply getitem_ok in Hn; [|lia].
  replace (Z.to_nat (Z.of_nat i + 1)) with (S i) in Hn by lia.
  assert (Hnb : is_byte n).
  { rewrite Forall_lookup in Hbytes. exact (Hbytes _ _ Hn). }
  unfold is_byte in Hnb.
  destruct (Z.eqb_spec (Z.of_nat i + 1 + 1 + n) (Z.of_nat k)) as [Hend|]; [|discriminate].
  cbn [negb].
  destruct (getitem datablock (Z.of_nat i + 1 + 1 + n)) as [ender|] eqn:He; [|discriminate].
  cbn [bind]. apply getitem_ok in He; [|lia].
  unfold _NDEF_Terminator_int.
  destruct (Z.eqb_spec ender 254) as [->|]; [|discriminate].
  cbn [negb]. intros ?; simplify_eq.
  replace (Z.to_nat (Z.of_nat i + 1 + 1 + n)) with (S (S i) + Z.to_nat n)%nat in He by lia.
  assert (k = (S (S i) + Z.to_nat n)%nat) as -> by lia.
  exists i, n. split; [done|]. split; [done|].
  rewrite slice_nonneg by lia.
  replace (Z.to_nat (Z.of_nat i + 1 + 1 + n - (Z.of_nat i + 1 + 1))) with (Z.to_nat n) by lia.
  replace (Z.to_nat (Z.of_nat i + 1 + 1)) with (S (S i)) by lia.
  split; [reflexivity|].
  pose proof (lookup_lt_Some _ _ _ He).
  split; [len_tac|]. split; done.
Qed.

Lemma read_remaining s n :
  0 <= n ->
  let '(data, s') := BytesIO.read s n in
  data = take (Z.to_nat n) (remaining s)
  /\ remaining s' = drop (Z.to_nat n) (remaining s).
Proof.
  intros Hn. unfold BytesIO.read, remaining.
  destruct (Z.ltb_spec n 0); [lia|]. cbn [BytesIO.pos BytesIO.buf].
  split; [reflexivity|].
  rewrite drop_drop. rewrite length_take, length_drop.
  destruct (decide (Z.to_nat n <= length (BytesIO.buf s) - BytesIO.pos s)%nat).
  - rewrite Nat.min_l by lia. reflexivity.
  - rewrite Nat.min_r by lia. rewrite !drop_ge by lia. reflexivity.
Qed.

Lemma read_one s :
  BytesIO.read s 1 =
    match remaining s with
    | [] => ([], s)
    | x :: _ => ([x], {| BytesIO.buf := BytesIO.buf s; BytesIO.pos := S (BytesIO.pos s) |})
    end.
Proof.
  unfold BytesIO.read, remaining. cbn [Z.ltb Z.compare]. change (Z.to_nat 1) with 1%nat.
  destruct (drop (BytesIO.pos s) (BytesIO.buf s)) as [|x more]; cbn [take length].
  - rewrite Nat.add_0_r. destruct s; reflexivity.
  - rewrite Nat.add_1_r. reflexivity.
Qed.

Lemma remaining_next s x more :
  remaining s = x :: more ->
  remaining {| BytesIO.buf := BytesIO.buf s; BytesIO.pos := S (BytesIO.pos s) |} = more.
Proof.
  unfold remaining. cbn [BytesIO.pos BytesIO.buf]. intros H.
  replace (S (BytesIO.pos s)) with (BytesIO.pos s + 1)%nat by lia.
  rewrite <- drop_drop, H. reflexivity.
Qed.

(** The scan stops at the first tag byte, after reading everything before it. *)
Lemma scan_tlv_finds_tag self before :
  forall fuel s after,
    remaining s = before ++ 0x03 :: after ->
    0x03 ∉ before ->
    (length before < fuel)%nat ->
    exists s', scan_tlv fuel self s = Some (read_tlv self s') /\ remaining s' = after.
Proof.
  induction before as [|x before IH]; intros fuel s after Hrem Hfree Hfuel.
  - destruct fuel as [|fuel]; [cbn in Hfuel; lia|].
    cbn [scan_tlv]. rewrite read_one, Hrem. cbn [app].
    rewrite bool_decide_eq_true_2 by reflexivity. cbn [negb].
    eexists. split; [reflexivity|]. eapply remaining_next. exact Hrem.
  - destruct fuel as [|fuel]; [cbn in Hfuel; lia|].
    cbn [scan_tlv]. rewrite read_one, Hrem. cbn [app].
    rewrite bool_decide_eq_false_2.
    2:{ intros Heq. apply Hfree. injection Heq as ->. apply list_elem_of_here. }
    cbn [negb]. apply IH.
    + eapply remaining_next. exact Hrem.
    + intros Hin. apply Hfree. apply list_elem_of_further. exact Hin.
    + cbn [length] in Hfuel. lia.
Qed.

(** Without a tag byte the loop never ends: whatever the number of rounds
    allowed, the call has neither returned nor raised. *)
Lemma scan_tlv_without_tag self fuel :
  forall s, 0x03 ∉ remaining s -> scan_tlv fuel self s = None.
Proof.
  induction fuel as [|fuel IH]; intros s Hfree; [reflexivity|].
  cbn [scan_tlv]. rewrite read_one.
  destruct (remaining s) as [|x more] eqn:Hrem.
  - rewrite bool_decide_eq_false_2 by discriminate. cbn [negb]. apply IH.
    rewrite Hrem. exact Hfree.
  - rewrite bool_decide_eq_false_2.
    2:{ intros Heq. apply Hfree. injection Heq as ->. apply list_elem_of_here. }
    cbn [negb]. apply IH. rewrite (remaining_next s x more Hrem).
    intros Hin. apply Hfree. apply list_elem_of_further. exact Hin.
Qed.

Lemma be_value_pair_nonneg hi lo :
  is_byte hi -> is_byte lo -> 0 <= struct.be_value [hi; lo].
Proof.
  unfold is_byte. intros Hhi Hlo.
  change (struct.be_value [hi; lo]) with (Z.lor (Z.shiftl (Z.lor (Z.shiftl 0 8) hi) 8) lo).
  rewrite Z.shiftl_0_l, Z.lor_0_l.
  apply Z.lor_nonneg. split; [|lia]. apply Z.shiftl_nonneg. lia.
Qed.

Lemma take_full_before_more {A} (l : list A) k x more :
  drop k l = x :: more -> length (take k l) = k.
Proof.
  intros Hdrop. rewrite length_take.
  assert (k < length l)%nat; [|lia].
  destruct (decide (k < length l)%nat); [done|].
  rewrite drop_ge in Hdrop by lia. discriminate.
Qed.

(** The payload and the terminator, once the length is known *)
Lemma store_payload self s dlen r self' s' :
  0 <= dlen ->
  (let '(buff, _, datablock) := BytesIO.readinto s (_payload_buff self) dlen in
   let self := with_payload_buff self buff in
   let '(ender, datablock) := BytesIO.read datablock 1 in
   if negb (bool_decide (ender = _NDEF_Terminator)) then
     (Raise (AssertionError "Block ender missmatch"), self, datablock)
   else (Ok dlen, self, datablock)) = (Ok r, self', s') ->
  exists payload after,
    r = dlen
    /\ remaining s = payload ++ 0xFE :: after
    /\ len payload = Z.min dlen (len (_payload_buff self))
    /\ _payload_buff self' = payload ++ drop (length payload) (_payload_buff self)
    /\ remaining s' = after.
Proof.
  intros Hdlen. unfold BytesIO.readinto.
  pose proof (len_nonneg_buff := Zle_0_nat (length (_payload_buff self))).
  fold (len (_payload_buff self)) in len_nonneg_buff.
  set (n := Z.min dlen (len (_payload_buff self))).
  assert (Hn : 0 <= n) by (unfold n; lia).
  rewrite Z.max_l by lia.
  pose proof (read_remaining s n Hn) as Hread.
  destruct (BytesIO.read s n) as [data s1]. destruct Hread as [Hdata Hrem1].
  rewrite read_one.
  destruct (remaining s1) as [|x after] eqn:Hafter.
  { rewrite bool_decide_eq_false_2 by discriminate. discriminate. }
  destruct (bool_decide_reflect ([x] = _NDEF_Terminator)) as [Hx|]; [|discriminate].
  cbn [negb]. intros ?; simplify_eq. injection Hx as ->.
  symmetry in Hrem1.
  exists (take (Z.to_nat n) (remaining s)), after.
  split; [reflexivity|]. split; [|split; [|split]].
  - rewrite <- Hrem1. symmetry. apply take_drop.
  - unfold len. rewrite (take_full_before_more _ _ _ _ Hrem1). lia.
  - reflexivity.
  - eapply remaining_next. exact Hafter.
Qed.

Lemma read_tlv_ok self s dlen self' s' :
  Forall is_byte (remaining s) ->
  read_tlv self s = (Ok dlen, self', s') ->
  exists header payload after,
    remaining s = header ++ payload ++ 0xFE :: after
    /\ (header = [dlen] /\ dlen < 0xFF
        \/ exists hi lo, header = [0xFF; hi; lo] /\ dlen = struct.be_value [hi; lo])
    /\ len payload = Z.min dlen (len (_payload_buff self))
    /\ _payload_buff self' = payload ++ drop (length payload) (_payload_buff self)
    /\ remaining s' = after.
Proof.
  intros Hbytes. unfold read_tlv. rewrite read_one.
  destruct (remaining s) as [|n rest] eqn:Hrem; [discriminate|].
  cbn [ord].
  apply Forall_cons in Hbytes as [Hn Hrest].
  pose proof (remaining_next s n rest Hrem) as Hrem1.
  set (s1 := {| BytesIO.buf := BytesIO.buf s; BytesIO.pos := S (BytesIO.pos s) |}) in *.
  destruct (Z.ltb_spec n 255) as [Hshort|Hlong].
  - intros Hstore. apply store_payload in Hstore; [|unfold is_byte in Hn; lia].
    destruct Hstore as (payload & after & -> & Hsplit & Hlen & Hbuff & Hs').
    exists [n], payload, after. rewrite Hrem1 in Hsplit. rewrite Hsplit.
    split; [reflexivity|]. split; [left; split; [reflexivity|lia]|]. done.
  - pose proof (read_remaining s1 2 ltac:(lia)) as Hread.
    destruct (BytesIO.read s1 2) as [two s2]. destruct Hread as [Htwo Hrem2].
    rewrite Hrem1 in Htwo, Hrem2. change (Z.to_nat 2) with 2%nat in *.
    unfold struct.unpack.
    destruct (Z.eqb_spec (len two) (struct.calcsize [struct.H])) as [Hlen2|];
      [|discriminate].
    cbn [negb struct.unpack_fields].
    destruct rest as [|hi [|lo rest2]]; subst two; try discriminate Hlen2.
    cbn [take drop struct.field_size] in *.
    apply Forall_cons in Hrest as [Hhi Hrest]. apply Forall_cons in Hrest as [Hlo _].
    intros Hstore. apply store_payload in Hstore;
      [|apply be_value_pair_nonneg; done].
    destruct Hstore as (payload & after & -> & Hsplit & Hlen & Hbuff & Hs').
    exists [n; hi; lo], payload, after. rewrite Hrem2, drop_0 in Hsplit.
    rewrite Hsplit.
    assert (n = 255) as -> by (unfold is_byte in Hn; lia).
    split; [reflexivity|]. split; [right; exists hi, lo; done|]. done.
Qed.

(** C4, as amended.  On a bytes object: without a byte [0x03] the scan
    raises [ValueError]; it returns a payload only when the first byte
    [0x03] is followed by a length byte [n], the payload is the [n] bytes
    after it and the byte right after the payload is [0xFE]; and when that
    byte is not [0xFE] it raises.  On a stream that holds a byte [0x03]
    (the first one after [before]) the call ends, with an error or with the
    length [dlen]; it ends with [dlen] only when what follows the tag is a
    length (the byte [dlen] itself when below [0xFF], else the marker
    [0xFF] and the two bytes of [dlen], big-endian), a payload of [dlen]
    bytes (of as many as [_payload_buff] can take, when that is fewer),
    which is then at the start of [_payload_buff], and the byte [0xFE]. *)
Theorem tlv_scan_outcome datablock self s before after fuel :
  Forall is_byte datablock ->
  BytesIO.buf s = before ++ 0x03 :: after ->
  0x03 ∉ before ->
  Forall is_byte after ->
  (length before < fuel)%nat ->
  ((forall i, datablock !! i <> Some 0x03) ->
     find_tlvblock_bytes datablock = Raise (ValueError "substring not found"))
  /\
  (forall payload,
     find_tlvblock_bytes datablock = Ok payload ->
     exists (i : nat) (n : Z),
       first_at 0x03 datablock i
       /\ datablock !! S i = Some n
       /\ payload = take (Z.to_nat n) (drop (S (S i)) datablock)
       /\ len payload = n
       /\ datablock !! (S (S i) + Z.to_nat n)%nat = Some 0xFE)
  /\
  (forall (i : nat) (n : Z),
     first_at 0x03 datablock i ->
     datablock !! S i = Some n ->
     datablock !! (S (S i) + Z.to_nat n)%nat <> Some 0xFE ->
     exists e, find_tlvblock_bytes datablock = Raise e)
  /\
  (exists outcome self' s',
     find_tlvblock_stream fuel self s = Some (outcome, self', s')
     /\ ((exists e, outcome = Raise e)
         \/ exists dlen header payload rest,
              outcome = Ok dlen
              /\ after = header ++ payload ++ 0xFE :: rest
              /\ (header = [dlen] /\ dlen < 0xFF
                  \/ exists hi lo, header = [0xFF; hi; lo]
                                   /\ dlen = struct.be_value [hi; lo])
              /\ len payload = Z.min dlen (len (_payload_buff self))
              /\ _payload_buff self'
                 = payload ++ drop (length payload) (_payload_buff self))).
Proof.
  intros Hbytes Hbuf Hfree Hafter Hfuel.
  assert (Hok : forall payload,
     find_tlvblock_bytes datablock = Ok payload ->
     exists (i : nat) (n : Z),
       first_at 0x03 datablock i
       /\ datablock !! S i = Some n
       /\ payload = take (Z.to_nat n) (drop (S (S i)) datablock)
       /\ len payload = n
       /\ datablock !! (S (S i) + Z.to_nat n)%nat = Some 0xFE).
  { intros payload Hfind.
    destruct (find_tlvblock_bytes_ok datablock payload Hbytes Hfind)
      as (i & n & H1 & H2 & H3 & H4 & H5 & _).
    exists i, n. done. }
  split; [|split; [exact Hok|split]].
  - intros Hnone. unfold find_tlvblock_bytes.
    rewrite index_missing by exact Hnone. reflexivity.
  - intros i n Hi Hn Hender.
    destruct (find_tlvblock_bytes datablock) as [payload|e] eqn:Hfind; [|by exists e].
    exfalso. destruct (Hok payload eq_refl) as (i' & n' & Hi' & Hn' & _ & _ & Hender').
    pose proof (first_at_unique _ _ _ _ Hi Hi') as <-.
    rewrite Hn in Hn'. injection Hn' as <-. exact (Hender Hender').
  - unfold find_tlvblock_stream.
    destruct (scan_tlv_finds_tag self before fuel (BytesIO.seek s 0) after)
      as (s1 & Hscan & Hrem); [exact Hbuf|exact Hfree|exact Hfuel|].
    rewrite Hscan.
    destruct (read_tlv self s1) as [[outcome self'] s'] eqn:Htlv.
    exists outcome, self', s'. split; [reflexivity|].
    destruct outcome as [dlen|e]; [right|left; by exists e].
    rewrite <- Hrem in Hafter.
    destruct (read_tlv_ok self s1 dlen self' s' Hafter Htlv)
      as (header & payload & rest & Hsplit & Hform & Hlen & Hbuff & _).
    exists dlen, header, payload, rest. rewrite <- Hrem. done.
Qed.

Lemma tlv_scan_outcome_witness :
  exists e, find_tlvblock_bytes [0x00; 0x03; 0x02; 0xAA; 0xBB; 0xFF] = Raise e.
Proof.
  destruct (tlv_scan_outcome [0x00; 0x03; 0x02; 0xAA; 0xBB; 0xFF] fresh_tag
              (BytesIO.new [0x00; 0x03; 0x02; 0xAA; 0xBB; 0xFF])
              [0x00] [0x02; 0xAA; 0xBB; 0xFF] 5)
    as (_ & _ & H & _).
  - apply bytes_check. reflexivity.
  - reflexivity.
  - rewrite not_elem_of_cons. split; [lia|apply not_elem_of_nil].
  - apply bytes_check. reflexivity.
  - cbn [length]. lia.
  - apply (H 1%nat 2).
    + split; [reflexivity|]. intros [|j] Hj; [discriminate|lia].
    + reflexivity.
    + discriminate.
Defined.

(** A stream whose tag byte is followed by the long form of the length
    ([FF 00 02]): the scan returns the length 2 with the payload stored.
    A stream without a tag byte: whatever the number of rounds allowed, the
    scan has not ended, so it never fails with an error. *)
Lemma tlv_scan_counterexample :
  (exists self' s',
     find_tlvblock_stream 8 fresh_tag
       (BytesIO.new [0x03; 0xFF; 0x00; 0x02; 0xAA; 0xBB; 0xFE])
       = Some (Ok 2, self', s')
     /\ take 2 (_payload_buff self') = [0xAA; 0xBB])
  /\
  (forall fuel,
     find_tlvblock_stream fuel fresh_tag (BytesIO.new [0x00; 0x00; 0xFE]) = None).
Proof.
  split.
  - eexists _, _. split; vm_compute; reflexivity.
  - intros fuel. apply scan_tlv_without_tag.
    change (3 ∉ [0; 0; 254]). rewrite !not_elem_of_cons.
    repeat split; try lia. apply not_elem_of_nil.
Qed.

End TlvScan.

(** * Further properties of the sources *)

(** ** [NFC_PN532.py]: bit order and frames *)

Section DriverFrames.
Import PN532.

Lemma reverse_bit_loop_range rounds result num :
  0 <= result ->
  0 <= reverse_bit_loop rounds result num < (result + 1) * 2 ^ Z.of_nat rounds.
Proof.
  revert result num. induction rounds as [|rounds IH]; intros result num Hr.
  - cbn [reverse_bit_loop]. change (2 ^ Z.of_nat 0) with 1. lia.
  - cbn [reverse_bit_loop].
    assert (Hbit : 0 <= Z.land num 1 < 2).
    { change 1 with (Z.ones 1). rewrite Z.land_ones by lia. apply Z.mod_pos_bound. lia. }
    rewrite Z.shiftl_mul_pow2 by lia. change (2 ^ 1) with 2.
    specialize (IH (result * 2 + Z.land num 1) (Z.shiftr num 1) ltac:(lia)).
    rewrite Nat2Z.inj_succ, Z.pow_succ_r by lia.
    assert (0 < 2 ^ Z.of_nat rounds) by (apply Z.pow_pos_nonneg; lia).
    nia.
Qed.

(** Only the low bits of [num] that the rounds look at matter. *)
Lemma reverse_bit_loop_low rounds result num :
  reverse_bit_loop rounds result (num mod 2 ^ Z.of_nat rounds)
  = reverse_bit_loop rounds result num.
Proof.
  revert result num. induction rounds as [|rounds IH]; intros result num.
  - reflexivity.
  - cbn [reverse_bit_loop].
    rewrite Nat2Z.inj_succ.
    assert (Hpos : 0 < 2 ^ Z.of_nat rounds) by (apply Z.pow_pos_nonneg; lia).
    assert (Hland : Z.land (num mod 2 ^ Z.succ (Z.of_nat rounds)) 1 = Z.land num 1).
    { change 1 with (Z.ones 1). rewrite !Z.land_ones by lia. change (2 ^ 1) with 2.
      rewrite Z.pow_succ_r by lia.
      apply Z.mod_mod_divide. exists (2 ^ Z.of_nat rounds). lia. }
    assert (Hshift : Z.shiftr (num mod 2 ^ Z.succ (Z.of_nat rounds)) 1
                     = (Z.shiftr num 1) mod 2 ^ Z.of_nat rounds).
    { rewrite !Z.shiftr_div_pow2 by lia. change (2 ^ 1) with 2.
      rewrite Z.pow_succ_r by lia.
      rewrite Z.rem_mul_r by lia.
      rewrite (Z.mul_comm 2), Z.div_add by lia.
      rewrite (Z.div_small (num mod 2) 2) by (apply Z.mod_pos_bound; lia).
      lia. }
    rewrite Hland, Hshift. apply IH.
Qed.

Lemma reverse_bit_low num : reverse_bit (num mod 256) = reverse_bit num.
Proof. apply (reverse_bit_loop_low 8). Qed.

Lemma reverse_bit_range num : is_byte (reverse_bit num).
Proof. apply (reverse_bit_loop_range 8 0 num). lia. Qed.

(** X1: for every integer [num], [reverse_bit num] is a byte whose bit [k]
    is bit [7 - k] of [num], for [k] in [0..7]; bits 8 and above of [num]
    are ignored, so that reversing twice gives [num mod 256], which is
    [num] itself for a byte. *)
Theorem reverse_bit_mirrors num :
  is_byte (reverse_bit num)
  /\ (forall k, 0 <= k < 8 -> Z.testbit (reverse_bit num) k = Z.testbit num (7 - k))
  /\ reverse_bit (reverse_bit num) = num mod 256.
Proof.
  assert (Hb : is_byte (num mod 256)) by (apply Z.mod_pos_bound; lia).
  split; [apply reverse_bit_range|]. split.
  - intros k Hk. rewrite <- (reverse_bit_low num).
    pose proof (bit_cases
                  (fun b k => Bool.eqb (Z.testbit (reverse_bit b) k) (Z.testbit b (7 - k)))
                  eq_refl (num mod 256) k Hb Hk) as H.
    cbv beta in H. apply Bool.eqb_prop in H. rewrite H.
    change 256 with (2 ^ 8). apply Z.mod_pow2_bits_low. lia.
  - rewrite <- (reverse_bit_low num). apply reverse_bit_involutive. exact Hb.
Qed.

Lemma reverse_bit_mirrors_witness :
  Z.testbit (reverse_bit 0x01) 7 = Z.testbit 0x01 (7 - 7)
  /\ reverse_bit (reverse_bit 0x1D4) = 0xD4.
Proof.
  split.
  - apply (proj1 (proj2 (reverse_bit_mirrors 0x01)) 7). lia.
  - apply (proj2 (proj2 (reverse_bit_mirrors 0x1D4))).
Defined.

(** The bytes of the frame in plain arithmetic *)
Lemma frame_of_plain data :
  0 < len data < 256 ->
  frame_of data
  = [0x00; 0x00; 0xFF; len data; 256 - len data] ++ data ++ [(- sum data) mod 256; 0x00].
Proof.
  intros Hlen. unfold frame_of, _PREAMBLE, _STARTCODE1, _STARTCODE2, _POSTAMBLE.
  assert (HL : Z.land (len data) 255 = len data).
  { rewrite land_255. apply Z.mod_small. lia. }
  assert (HLC : Z.land (Z.lnot (len data) + 1) 255 = 256 - len data).
  { rewrite land_255, lnot_eq.
    replace (- len data - 1 + 1) with ((256 - len data) + (-1) * 256) by lia.
    rewrite Z_mod_plus_full. apply Z.mod_small. lia. }
  assert (HC : Z.land (Z.lnot (255 + sum data)) 255 = (- sum data) mod 256).
  { rewrite land_255, lnot_eq.
    replace (- (255 + sum data) - 1) with (- sum data + (-1) * 256) by lia.
    apply Z_mod_plus_full. }
  rewrite HL, HLC, HC. reflexivity.
Qed.

(** X2: [_write_frame] accepts exactly the payloads of 2 to 254 bytes; an
    empty payload, one byte, or 255 bytes and more fail its assertion and
    nothing is sent.  For an accepted payload it puts [len data + 8] bytes
    on the bus, each with its bits reversed: the write command [0x01], the
    preamble [00], the start code [00 FF], the length, the length
    checksum [256 - len], the payload, the checksum [(- sum data) mod 256]
    and the postamble [00]; length and checksum add up to [0] modulo 256,
    and so do the payload and its checksum. *)
Theorem write_frame_wire_format data :
  Forall is_byte data ->
  (len data <= 1 \/ 255 <= len data ->
     _write_frame data = Raise (AssertionError "Data must be array of 1 to 255 bytes."))
  /\
  (1 < len data < 255 ->
     exists mosi,
       _write_frame data = Ok mosi
       /\ mosi = reverse_bit <$>
                   ([0x01; 0x00; 0x00; 0xFF; len data; 256 - len data]
                      ++ data ++ [(- sum data) mod 256; 0x00])
       /\ len mosi = len data + 8
       /\ (len data + (256 - len data)) mod 256 = 0
       /\ (sum data + (- sum data) mod 256) mod 256 = 0).
Proof.
  intros _. split.
  - intros Hlen. unfold _write_frame.
    destruct (Z.ltb_spec 1 (len data)); destruct (Z.ltb_spec (len data) 255);
      try reflexivity; lia.
  - intros Hlen. eexists. split; [apply frame_sent; exact Hlen|].
    unfold _write_data. rewrite frame_of_plain by lia.
    split; [reflexivity|]. split; [len_tac|]. split.
    + replace (len data + (256 - len data)) with (1 * 256) by lia. apply Z.mod_mul. lia.
    + rewrite Z.add_mod_idemp_r by lia.
      replace (sum data + - sum data) with 0 by lia. reflexivity.
Qed.

Lemma write_frame_wire_format_witness :
  exists mosi,
    _write_frame [0xD4; 0x02] = Ok mosi
    /\ mosi = reverse_bit <$> [0x01; 0x00; 0x00; 0xFF; 0x02; 0xFE; 0xD4; 0x02; 0x2A; 0x00].
Proof.
  assert (Hbytes : Forall is_byte [0xD4; 0x02]).
  { repeat (apply Forall_cons_2; [unfold is_byte; lia|]). apply Forall_nil_2. }
  destruct (proj2 (write_frame_wire_format [0xD4; 0x02] Hbytes)
              ltac:(vm_compute; split; reflexivity))
    as (mosi & Hw & Hm & _).
  exists mosi. split; [exact Hw|]. rewrite Hm. reflexivity.
Defined.

(** What [_read_data] returns is made of bytes, whatever is on the bus. *)
Lemma read_data_bytes miso count : 0 <= count -> Forall is_byte (_read_data miso count).
Proof.
  intros Hc. rewrite read_data_eq by done. apply Forall_fmap, Forall_forall.
  intros i _. apply reverse_bit_range.
Qed.

Lemma read_data_len miso count : 0 <= count -> len (_read_data miso count) = count.
Proof. intros Hc. rewrite read_data_eq by done. len_tac. Qed.

(** X3: a payload that [_write_frame] accepts comes back from [_read_frame]
    when the chip shifts out the frame that was written to it, for every
    read length that is at least the length of the payload. *)
Theorem frame_loopback data mosi miso length :
  Forall is_byte data ->
  _write_frame data = Ok mosi ->
  echoes miso mosi ->
  len data <= length ->
  _read_frame miso length = Ok data.
Proof.
  intros Hbytes Hw Hecho Hfit.
  assert (Hlen : 1 < len data < 255).
  { unfold _write_frame in Hw.
    destruct (Z.ltb_spec 1 (len data)); destruct (Z.ltb_spec (len data) 255);
      cbn in Hw; try discriminate; lia. }
  rewrite frame_sent in Hw by done. injection Hw as <-.
  unfold _read_frame.
  destruct (response_of_echo miso (_write_data (frame_of data)) (length + 8))
    as [tail ->]; [done| | |].
  - unfold _write_data. len_tac.
  - unfold _write_data, frame_of. len_tac.
  - change (drop 1 (_write_data (frame_of data)))
      with (reverse_bit <$> frame_of data).
    rewrite fmap_reverse_bit_involutive by (apply frame_of_bytes; done).
    apply parse_frame_of. lia.
Qed.

Lemma frame_loopback_witness :
  _read_frame
    (fun i => default 0 ([128; 0; 0; 255; 64; 127; 43; 64; 84; 0] !! i)) 6
  = Ok [0xD4; 0x02].
Proof.
  apply (frame_loopback [0xD4; 0x02] [128; 0; 0; 255; 64; 127; 43; 64; 84; 0]).
  - repeat (apply Forall_cons_2; [unfold is_byte; lia|]). apply Forall_nil_2.
  - reflexivity.
  - intros i Hi. cbn [length] in Hi.
    do 10 (destruct i as [|i]; [try reflexivity; lia|]). lia.
  - vm_compute. discriminate.
Defined.

(** The loop that skips the zeros stops at the first byte that is not [0]. *)
Lemma swallow_zeros_ok rest n offset o :
  swallow_zeros rest n offset = Ok o ->
  exists zeros x tail,
    rest = zeros ++ x :: tail /\ Forall (fun b => b = 0) zeros /\ x <> 0
    /\ o = offset + len zeros.
Proof.
  revert offset. induction rest as [|b rest IH]; intros offset H; [discriminate|].
  cbn [swallow_zeros] in H. destruct (Z.eqb_spec b 0) as [->|Hb].
  - destruct (offset + 1 >=? n); [discriminate|].
    destruct (IH _ H) as (zeros & x & tail & -> & Hz & Hx & ->).
    exists (0 :: zeros), x, tail. split; [reflexivity|].
    split; [apply Forall_cons_2; done|]. split; [done|]. len_tac.
  - injection H as <-. exists [], b, rest. split; [reflexivity|].
    split; [apply Forall_nil_2|]. split; [done|]. len_tac.
Qed.

Lemma swallow_zeros_stops zeros x tail n offset :
  Forall (fun b => b = 0) zeros -> x <> 0 -> offset + len zeros < n ->
  swallow_zeros (zeros ++ x :: tail) n offset = Ok (offset + len zeros).
Proof.
  revert offset. induction zeros as [|z zeros IH]; intros offset Hz Hx Hn.
  - cbn [app swallow_zeros]. destruct (Z.eqb_spec x 0); [done|].
    f_equal. len_tac.
  - apply Forall_cons in Hz as [-> Hz]. cbn [app swallow_zeros].
    change (0 =? 0) with true. cbn iota.
    rewrite len_cons in Hn. pose proof (len_nonneg zeros).
    destruct (Z.geb_spec (offset + 1) n); [lia|].
    rewrite IH by (done || lia). f_equal. len_tac.
Qed.

Lemma swallow_zeros_only zeros n offset :
  Forall (fun b => b = 0) zeros -> zeros <> [] -> n <= offset + len zeros ->
  swallow_zeros zeros n offset = Raise preamble_error.
Proof.
  revert offset. induction zeros as [|z zeros IH]; intros offset Hz Hne Hn; [done|].
  apply Forall_cons in Hz as [-> Hz]. cbn [swallow_zeros].
  change (0 =? 0) with true. cbn iota. rewrite len_cons in Hn.
  destruct (Z.geb_spec (offset + 1) n); [reflexivity|].
  apply IH; [done| |lia]. intros ->. unfold len in Hn. cbn in Hn. lia.
Qed.

Lemma lookup_middle {A} (zeros : list A) x tail :
  (zeros ++ x :: tail) !! Z.to_nat (len zeros) = Some x.
Proof.
  unfold len. rewrite Nat2Z.id. rewrite lookup_app_r by lia.
  rewrite Nat.sub_diag. reflexivity.
Qed.

(** [_read_frame], from the bytes read: what a frame that is handed back
    looks like. *)
Lemma parse_frame_sound response data :
  Forall is_byte response ->
  parse_frame response = Ok data ->
  exists zeros L LC rest,
    response = zeros ++ 0xFF :: L :: LC :: rest
    /\ Forall (fun b => b = 0) zeros
    /\ (L + LC) mod 256 = 0
    /\ data = take (Z.to_nat L) rest
    /\ sum (take (Z.to_nat (L + 1)) rest) mod 256 = 0.
Proof.
  intros Hbytes. unfold parse_frame.
  destruct (swallow_zeros response (len response) 0) as [o|] eqn:Hsw; [|discriminate].
  apply swallow_zeros_ok in Hsw as (zeros & x & tail & -> & Hz & Hx & ->).
  cbn [bind]. rewrite Z.add_0_l.
  pose proof (len_nonneg zeros) as Hzl.
  rewrite (getitem_nonneg _ _ x) by (done || apply lookup_middle). cbn [bind].
  destruct (Z.eqb_spec x 255) as [->|]; [|discriminate]. cbn [negb].
  destruct (len zeros + 1 >=? _); [discriminate|].
  destruct tail as [|L tail].
  { rewrite getitem_beyond by len_tac. discriminate. }
  rewrite (getitem_nonneg _ _ L).
  2: lia.
  2:{ replace (Z.to_nat (len zeros + 1)) with (length zeros + 1)%nat by len_tac.
      rewrite lookup_app_r by lia.
      replace (length zeros + 1 - length zeros)%nat with 1%nat by lia. reflexivity. }
  cbn [bind].
  destruct tail as [|LC rest].
  { rewrite getitem_beyond by len_tac. discriminate. }
  rewrite (getitem_nonneg _ _ LC).
  2: lia.
  2:{ replace (Z.to_nat (len zeros + 1 + 1)) with (length zeros + 2)%nat by len_tac.
      rewrite lookup_app_r by lia.
      replace (length zeros + 2 - length zeros)%nat with 2%nat by lia. reflexivity. }
  cbn [bind].
  assert (HL : is_byte L).
  { rewrite Forall_app in Hbytes. destruct Hbytes as [_ Hb].
    apply Forall_cons in Hb as [_ Hb]. apply Forall_cons in Hb as [Hb _]. exact Hb. }
  unfold is_byte in HL.
  destruct (Z.eqb_spec (Z.land (L + LC) 255) 0) as [Hlc|]; [|discriminate]. cbn [negb].
  assert (Hdrop : drop (Z.to_nat (len zeros + 1 + 2)) (zeros ++ 255 :: L :: LC :: rest) = rest).
  { replace (Z.to_nat (len zeros + 1 + 2)) with (length zeros + 3)%nat by len_tac.
    rewrite drop_app_add'; reflexivity. }
  rewrite !slice_nonneg by lia. rewrite Hdrop.
  replace (len zeros + 1 + 2 + L + 1 - (len zeros + 1 + 2)) with (L + 1) by lia.
  replace (len zeros + 1 + 2 + L - (len zeros + 1 + 2)) with L by lia.
  destruct (Z.eqb_spec (Z.land (sum (take (Z.to_nat (L + 1)) rest)) 255) 0) as [Hs|];
    [|discriminate].
  cbn [negb]. intros H. injection H as <-.
  exists zeros, L, LC, rest. rewrite land_255 in Hlc, Hs. done.
Qed.

(** X4: what [_read_frame] hands back was framed on the bus.  Whenever
    [_read_frame(length)] returns [data], the bytes read are a run of
    zeros (it may be empty), the start byte [0xFF], a length [L], a length
    checksum [LC] with [L + LC = 0] modulo 256, and then the bytes [rest];
    [data] is the first [L] bytes of [rest] (all of [rest] when it is
    shorter), the first [L + 1] bytes of [rest], that is [data] and its
    checksum, add up to [0] modulo 256, and [data] has at most
    [length + 5] bytes, all in [0..255]. *)
Theorem read_frame_sound miso length data :
  0 <= length ->
  _read_frame miso length = Ok data ->
  exists zeros L LC rest,
    _read_data miso (length + 8) = zeros ++ 0xFF :: L :: LC :: rest
    /\ Forall (fun b => b = 0) zeros
    /\ (L + LC) mod 256 = 0
    /\ data = take (Z.to_nat L) rest
    /\ sum (take (Z.to_nat (L + 1)) rest) mod 256 = 0
    /\ len data <= length + 5
    /\ Forall is_byte data.
Proof.
  intros Hlen Hread. unfold _read_frame in Hread.
  pose proof (read_data_bytes miso (length + 8) ltac:(lia)) as Hbytes.
  pose proof (read_data_len miso (length + 8) ltac:(lia)) as Hcount.
  destruct (parse_frame_sound _ _ Hbytes Hread) as (zeros & L & LC & rest & Heq & Hz & Hlc & -> & Hs).
  exists zeros, L, LC, rest. rewrite Heq in Hbytes, Hcount.
  repeat split; try done.
  - revert Hcount. len_tac.
  - apply Forall_take. rewrite Forall_app in Hbytes. destruct Hbytes as [_ Hb].
    do 3 apply Forall_cons in Hb as [_ Hb]. exact Hb.
Qed.

Lemma read_frame_sound_witness :
  exists zeros L LC rest,
    _read_data (chip_sends (frame_of [0xD5; 0x03])) (2 + 8)
      = zeros ++ 0xFF :: L :: LC :: rest
    /\ [0xD5; 0x03] = take (Z.to_nat L) rest.
Proof.
  destruct (read_frame_sound (chip_sends (frame_of [0xD5; 0x03])) 2 [0xD5; 0x03]
              ltac:(lia) eq_refl)
    as (zeros & L & LC & rest & Heq & _ & _ & Hdata & _).
  exists zeros, L, LC, rest. split; assumption.
Defined.

(** X5: what [_read_frame] does with bytes that hold no frame.  When all
    the bytes read are zero, or when the first byte that is not zero is
    not [0xFF], it raises the preamble error; when the start byte [0xFF]
    is the last byte read it raises "Response contains no data!"; and
    when only the length follows the start byte, the look at the length
    checksum raises [IndexError], which no handler turns into a
    [RuntimeError]. *)
Theorem read_frame_without_frame miso length zeros :
  0 <= length ->
  Forall (fun b => b = 0) zeros ->
  (_read_data miso (length + 8) = zeros -> _read_frame miso length = Raise preamble_error)
  /\ (forall x tail,
        _read_data miso (length + 8) = zeros ++ x :: tail -> x <> 0 -> x <> 0xFF ->
        _read_frame miso length = Raise preamble_error)
  /\ (_read_data miso (length + 8) = zeros ++ [0xFF] ->
        _read_frame miso length = Raise (RuntimeError "Response contains no data!" []))
  /\ (forall L,
        _read_data miso (length + 8) = zeros ++ [0xFF; L] ->
        _read_frame miso length = Raise IndexError).
Proof.
  intros Hlen Hz. unfold _read_frame.
  pose proof (read_data_len miso (length + 8) ltac:(lia)) as Hcount.
  pose proof (len_nonneg zeros) as Hzl.
  split; [|split; [|split]].
  - intros Heq. rewrite Heq in *. unfold parse_frame.
    rewrite swallow_zeros_only; [reflexivity|done| |lia].
    intros ->. unfold len in Hcount. cbn in Hcount. lia.
  - intros x tail Heq Hx Hff. rewrite Heq in *. unfold parse_frame.
    rewrite swallow_zeros_stops by (done || revert Hcount; len_tac).
    cbn [bind]. rewrite Z.add_0_l.
    rewrite (getitem_nonneg _ _ x) by (done || apply lookup_middle). cbn [bind].
    destruct (Z.eqb_spec x 255); [done|]. reflexivity.
  - intros Heq. rewrite Heq in *. unfold parse_frame.
    rewrite swallow_zeros_stops by (done || revert Hcount; len_tac).
    cbn [bind]. rewrite Z.add_0_l.
    rewrite (getitem_nonneg _ _ 255) by (done || apply lookup_middle). cbn [bind].
    change (negb (255 =? 255)) with false. cbn iota.
    destruct (Z.geb_spec (len zeros + 1) (len (zeros ++ [255]))) as [|Hlt];
      [reflexivity|]. revert Hlt. len_tac.
  - intros L Heq. rewrite Heq in *. unfold parse_frame.
    rewrite swallow_zeros_stops by (done || revert Hcount; len_tac).
    cbn [bind]. rewrite Z.add_0_l.
    rewrite (getitem_nonneg _ _ 255) by (done || apply lookup_middle). cbn [bind].
    change (negb (255 =? 255)) with false. cbn iota.
    destruct (Z.geb_spec (len zeros + 1) (len (zeros ++ [255; L]))) as [Hge|_].
    { revert Hge. len_tac. }
    rewrite (getitem_nonneg _ _ L).
    2: lia.
    2:{ replace (Z.to_nat (len zeros + 1)) with (Datatypes.length zeros + 1)%nat
          by len_tac.
        rewrite lookup_app_r by lia.
        replace (Datatypes.length zeros + 1 - Datatypes.length zeros)%nat with 1%nat
          by lia.
        reflexivity. }
    cbn [bind]. rewrite getitem_beyond by len_tac. reflexivity.
Qed.

Lemma read_frame_without_frame_witness :
  _read_frame (fun _ => 0) 2 = Raise preamble_error.
Proof.
  apply (proj1 (read_frame_without_frame (fun _ => 0) 2 (replicate 10 0)
                  ltac:(lia) ltac:(apply Forall_replicate; reflexivity))).
  reflexivity.
Defined.

End DriverFrames.

(** ** [NFC_PN532.py]: commands and responses *)

Section DriverCommands.
Import PN532.

(** What is read from a chip that shifts out a status byte and [frame]:
    the frame, followed by zeros. *)
Lemma read_data_chip_sends frame count :
  Forall is_byte frame -> len frame <= count ->
  _read_data (chip_sends frame) count
  = frame ++ replicate (Z.to_nat (count - len frame)) 0.
Proof.
  intros Hbytes Hfit. pose proof (len_nonneg frame) as Hnn.
  rewrite read_data_eq by lia. apply list_eq. intros j.
  rewrite list_lookup_fmap.
  destruct (decide (j < Z.to_nat count)%nat) as [Hj|Hj].
  - rewrite lookup_seq_lt by lia. cbn [fmap option_fmap option_map chip_sends Nat.add].
    destruct (frame !! j) as [b|] eqn:Hb.
    + rewrite lookup_app_l by (apply lookup_lt_Some in Hb; lia). rewrite Hb.
      cbn [default from_option id]. rewrite reverse_bit_involutive; [reflexivity|].
      rewrite Forall_lookup in Hbytes. exact (Hbytes _ _ Hb).
    + apply lookup_ge_None in Hb. rewrite lookup_app_r by lia.
      rewrite lookup_replicate_2 by len_tac. reflexivity.
  - rewrite lookup_seq_ge by lia. symmetry. apply lookup_ge_None. len_tac.
Qed.

Ltac bytes_tac :=
  repeat first [ assumption | apply Forall_nil_2 | apply Forall_app_2
               | apply Forall_cons_2 | apply Forall_replicate | apply land_byte
               | (unfold is_byte; lia)
               | (unfold is_byte; vm_compute; split; [discriminate | reflexivity]) ].

Ltac side_tac :=
  first [ solve [bytes_tac] | done | len_tac | (vm_compute; discriminate) ].

Lemma fill_params_ok pre params :
  2 <= len pre -> Forall is_byte params ->
  fill_params (pre ++ replicate (length params) 0) (len pre - 2) params
  = Ok (pre ++ params).
Proof.
  revert pre. induction params as [|val params IH]; intros pre Hpre Hbytes.
  - cbn [fill_params length replicate]. reflexivity.
  - cbn [fill_params length replicate].
    apply Forall_cons_1 in Hbytes as [Hval Hbytes].
    rewrite setitem_nonneg by store_tac. cbn [bind].
    replace (Z.to_nat (2 + (len pre - 2))) with (length pre) by len_tac.
    rewrite insert_at_end by reflexivity.
    replace (pre ++ val :: replicate (length params) 0)
      with ((pre ++ [val]) ++ replicate (length params) 0)
      by (rewrite <- app_assoc; reflexivity).
    replace (len pre - 2 + 1) with (len (pre ++ [val]) - 2) by len_tac.
    rewrite IH by (assumption || len_tac). rewrite <- app_assoc. reflexivity.
Qed.

(** The frame data that [call_function] builds: [D4], the command, the
    parameters. *)
Lemma call_function_data bus command response_length params :
  Forall is_byte params ->
  call_function bus command response_length params =
    match (let* mosi := _write_frame ([_HOSTTOPN532; Z.land command 0xFF] ++ params) in
           if write_fault bus then Raise OSError else Ok mosi) with
    | Raise OSError => if wakeup_fault bus then Raise OSError else Ok None
    | Raise e => Raise e
    | Ok _ =>
        if negb (ack_ready bus) then Ok None
        else if negb (bool_decide (_ACK = _read_data (ack_miso bus) (len _ACK))) then
          Raise (RuntimeError "Did not receive expected ACK from PN532!" [])
        else if negb (response_ready bus) then Ok None
        else
          let* response := _read_frame (response_miso bus) (response_length + 2) in
          let* r0 := getitem response 0 in
          let* for_command :=
            if r0 =? _PN532TOHOST then
              let* r1 := getitem response 1 in Ok (r1 =? command + 1)
            else Ok false in
          if negb for_command then
            Raise (RuntimeError "Received unexpected command response!" [])
          else Ok (Some (slice_from response 2))
    end.
Proof.
  intros Hbytes. pose proof (len_nonneg params) as Hnn. unfold call_function.
  assert (Hdata : bytearray (2 + len params) = [0; 0] ++ replicate (length params) 0).
  { unfold bytearray. replace (Z.to_nat (2 + len params)) with (2 + length params)%nat
      by len_tac. reflexivity. }
  rewrite Hdata. cbn [app].
  rewrite setitem_nonneg by store_tac. cbn [bind].
  change (<[Z.to_nat 0 := _HOSTTOPN532]> (0 :: 0 :: replicate (length params) 0))
    with (_HOSTTOPN532 :: 0 :: replicate (length params) 0).
  rewrite setitem_nonneg by store_tac. cbn [bind].
  change (<[Z.to_nat 1 := Z.land command 255]>
            (_HOSTTOPN532 :: 0 :: replicate (length params) 0))
    with ([_HOSTTOPN532; Z.land command 255] ++ replicate (length params) 0).
  pose proof (fill_params_ok [_HOSTTOPN532; Z.land command 255] params
                ltac:(vm_compute; discriminate) Hbytes) as Hfill.
  change (len [_HOSTTOPN532; Z.land command 255] - 2) with 0 in Hfill.
  rewrite Hfill. cbn [bind]. reflexivity.
Qed.

(** [call_function] once the command frame is written: the two waits, the
    acknowledgement and the response. *)
Lemma call_function_written bus command response_length params :
  Forall is_byte params ->
  len params <= 252 ->
  call_function bus command response_length params =
    if write_fault bus then (if wakeup_fault bus then Raise OSError else Ok None)
    else if negb (ack_ready bus) then Ok None
    else if negb (bool_decide (_ACK = _read_data (ack_miso bus) (len _ACK))) then
      Raise (RuntimeError "Did not receive expected ACK from PN532!" [])
    else if negb (response_ready bus) then Ok None
    else
      let* response := _read_frame (response_miso bus) (response_length + 2) in
      let* r0 := getitem response 0 in
      let* for_command :=
        if r0 =? _PN532TOHOST then
          let* r1 := getitem response 1 in Ok (r1 =? command + 1)
        else Ok false in
      if negb for_command then
        Raise (RuntimeError "Received unexpected command response!" [])
      else Ok (Some (slice_from response 2)).
Proof.
  intros Hbytes Hfit. pose proof (len_nonneg params) as Hnn.
  rewrite call_function_data by done.
  rewrite frame_sent by len_tac. cbn [bind].
  destruct (write_fault bus); reflexivity.
Qed.

Lemma ack_is_read : _read_data (chip_sends _ACK) (len _ACK) = _ACK.
Proof. vm_compute. reflexivity. Qed.

(** The response that [call_function] hands back from an answering chip *)
Lemma call_function_answer command response_length params payload :
  0 <= command < 255 ->
  Forall is_byte params ->
  len params <= 252 ->
  Forall is_byte payload ->
  len payload <= response_length + 1 ->
  len payload <= 253 ->
  call_function (answering_bus ([_PN532TOHOST; command + 1] ++ payload))
    command response_length params
  = Ok (Some payload).
Proof.
  intros Hc Hparams Hp Hbytes Hfit Hmax. pose proof (len_nonneg payload) as Hnn.
  rewrite call_function_written by done.
  cbn [answering_bus write_fault ack_ready ack_miso response_ready response_miso negb].
  rewrite ack_is_read. rewrite bool_decide_eq_true_2 by reflexivity. cbn [negb].
  set (response := [_PN532TOHOST; command + 1] ++ payload).
  assert (Hresp : Forall is_byte response).
  { unfold response. apply Forall_app_2; [|done].
    repeat apply Forall_cons_2; try apply Forall_nil_2;
      unfold is_byte, _PN532TOHOST; lia. }
  assert (Hlen : len response = len payload + 2) by (unfold response; len_tac).
  assert (Hframe : len (frame_of response) = len response + 7)
    by (unfold frame_of; len_tac).
  unfold _read_frame.
  rewrite read_data_chip_sends by (try apply frame_of_bytes; done || lia).
  rewrite parse_frame_of by lia. cbn [bind].
  unfold response. cbn [app].
  rewrite (getitem_nonneg _ 0 _PN532TOHOST) by (lia || reflexivity). cbn [bind].
  rewrite Z.eqb_refl.
  rewrite (getitem_nonneg _ 1 (command + 1)) by (lia || reflexivity). cbn [bind].
  rewrite Z.eqb_refl. cbn [negb].
  rewrite slice_from_nonneg by lia. reflexivity.
Qed.


(** X6: a command that the chip acknowledges and answers.  When the
    parameters are bytes that fit a frame (at most 252), the chip sends the
    acknowledgement and then the frame of [D5], [command + 1] and a
    payload of bytes that fits the response length asked for (at most
    [response_length + 1] bytes), [call_function] returns the payload,
    without the two leading bytes. *)
Theorem call_function_answered command response_length params payload :
  0 <= command < 255 ->
  Forall is_byte params ->
  len params <= 252 ->
  Forall is_byte payload ->
  len payload <= response_length + 1 ->
  len payload <= 253 ->
  call_function (answering_bus ([_PN532TOHOST; command + 1] ++ payload))
    command response_length params
  = Ok (Some payload).
Proof. apply call_function_answer. Qed.

Lemma call_function_answered_witness :
  call_function (answering_bus [0xD5; 0x03; 0x32; 0x01; 0x06; 0x07]) 0x02 4 []
  = Ok (Some [0x32; 0x01; 0x06; 0x07]).
Proof.
  apply (call_function_answered 0x02 4 [] [0x32; 0x01; 0x06; 0x07]).
  - lia.
  - apply Forall_nil_2.
  - vm_compute. discriminate.
  - repeat (apply Forall_cons_2; [unfold is_byte; lia|]). apply Forall_nil_2.
  - vm_compute. discriminate.
  - vm_compute. discriminate.
Defined.

Lemma call_function_silent bus command response_length params :
  Forall is_byte params -> len params <= 252 -> silent bus ->
  call_function bus command response_length params = Ok None.
Proof.
  intros Hbytes Hfit Hs. rewrite call_function_written by done.
  unfold silent in Hs. destruct (write_fault bus); rewrite Hs; reflexivity.
Qed.

Lemma call_function_dead bus command response_length params :
  Forall is_byte params -> len params <= 252 -> dead bus ->
  call_function bus command response_length params = Raise OSError.
Proof.
  intros Hbytes Hfit [Hw Hk]. rewrite call_function_written by done.
  rewrite Hw, Hk. reflexivity.
Qed.



(** X8: [get_firmware_version] returns the four bytes (IC, Ver, Rev,
    Support) that the chip sends behind [D5 03].  It raises "Failed to
    detect the PN532" when the write of the frame fails and the wake-up
    after it goes through, or when the chip does not get ready for the
    acknowledgement in time; when the write and the wake-up both fail, the
    [OSError] of the wake-up comes out instead.  It raises "Received
    unexpected command response!" when the chip answers with the frame of
    another command. *)
Theorem firmware_version_read ic ver rev support :
  is_byte ic -> is_byte ver -> is_byte rev -> is_byte support ->
  get_firmware_version (answering_bus [0xD5; 0x03; ic; ver; rev; support])
    = Ok [ic; ver; rev; support]
  /\ (forall bus, silent bus ->
        get_firmware_version bus = Raise (RuntimeError "Failed to detect the PN532" []))
  /\ (forall bus, dead bus -> get_firmware_version bus = Raise OSError)
  /\ (forall code, is_byte code -> code <> 0x03 ->
        get_firmware_version (answering_bus [0xD5; code; ic; ver; rev; support])
        = Raise (RuntimeError "Received unexpected command response!" [])).
Proof.
  intros Hic Hver Hrev Hsup.
  assert (Hbytes : Forall is_byte [ic; ver; rev; support]).
  { repeat (apply Forall_cons_2; [done|]). apply Forall_nil_2. }
  split; [|split; [|split]].
  - unfold get_firmware_version.
    pose proof (call_function_answer 0x02 4 [] [ic; ver; rev; support]
                  ltac:(lia) ltac:(apply Forall_nil_2)
                  ltac:(vm_compute; discriminate) Hbytes
                  ltac:(vm_compute; discriminate) ltac:(vm_compute; discriminate))
      as Hcall.
    change (call_function (answering_bus [0xD5; 0x03; ic; ver; rev; support])
              _COMMAND_GETFIRMWAREVERSION 4 []
            = Ok (Some [ic; ver; rev; support])) in Hcall.
    rewrite Hcall. reflexivity.
  - intros bus Hs. unfold get_firmware_version.
    rewrite call_function_silent by side_tac. reflexivity.
  - intros bus Hd. unfold get_firmware_version.
    rewrite call_function_dead by side_tac. reflexivity.
  - intros code Hcode Hne. unfold get_firmware_version.
    set (response := [0xD5; code; ic; ver; rev; support]).
    assert (Hresp : Forall is_byte response).
    { unfold response. repeat (apply Forall_cons_2; [done || (unfold is_byte; lia)|]).
      apply Forall_nil_2. }
    rewrite call_function_written by side_tac.
    cbn [answering_bus write_fault ack_ready ack_miso response_ready response_miso negb].
    rewrite ack_is_read. rewrite bool_decide_eq_true_2 by reflexivity. cbn [negb].
    unfold _read_frame.
    rewrite read_data_chip_sends by (try apply frame_of_bytes; done || vm_compute; discriminate).
    rewrite parse_frame_of by (vm_compute; split; reflexivity). cbn [bind].
    unfold response.
    rewrite (getitem_nonneg _ 0 0xD5) by (lia || reflexivity). cbn [bind].
    change (213 =? _PN532TOHOST) with true. cbn iota.
    rewrite (getitem_nonneg _ 1 code) by (lia || reflexivity). cbn [bind].
    unfold _COMMAND_GETFIRMWAREVERSION.
    destruct (Z.eqb_spec code (2 + 1)); [lia|]. reflexivity.
Qed.

Lemma firmware_version_read_witness :
  get_firmware_version (answering_bus [0xD5; 0x03; 0x32; 0x01; 0x06; 0x07])
  = Ok [0x32; 0x01; 0x06; 0x07].
Proof.
  apply (proj1 (firmware_version_read 0x32 0x01 0x06 0x07
                  ltac:(unfold is_byte; lia) ltac:(unfold is_byte; lia)
                  ltac:(unfold is_byte; lia) ltac:(unfold is_byte; lia))).
Defined.

(** X9: reading a block from a card that answers.  When the chip answers
    the read command with [D5 41], a status byte and the bytes of the
    block, [mifare_classic_read_block] returns all the bytes behind the
    status when the status is [00] and [None] otherwise;
    [ntag2xx_read_block] returns the first four of them when the status
    is [00], and with any other status it raises [TypeError], since it
    subscripts the [None] that it got. *)
Theorem read_block_answered block_number status block :
  is_byte status -> Forall is_byte block -> len block <= 17 ->
  let bus := answering_bus ([0xD5; 0x41; status] ++ block) in
  (status = 0 ->
     mifare_classic_read_block bus block_number = Ok (Some block)
     /\ ntag2xx_read_block bus block_number = Ok (take 4 block))
  /\ (status <> 0 ->
        mifare_classic_read_block bus block_number = Ok None
        /\ ntag2xx_read_block bus block_number = Raise none_subscript).
Proof.
  intros Hstatus Hbytes Hfit bus.
  assert (Hcall : call_function bus _COMMAND_INDATAEXCHANGE 17
                    [0x01; MIFARE_CMD_READ; Z.land block_number 0xFF]
                  = Ok (Some (status :: block))).
  { apply (call_function_answer 0x40 17 _ (status :: block)).
    - lia.
    - bytes_tac.
    - vm_compute. discriminate.
    - apply Forall_cons_2; done.
    - rewrite len_cons. lia.
    - rewrite len_cons. lia. }
  assert (Hread : mifare_classic_read_block bus block_number
                  = if status =? 0 then Ok (Some block) else Ok None).
  { unfold mifare_classic_read_block. rewrite Hcall. cbn [bind].
    rewrite (getitem_nonneg _ 0 status) by (lia || reflexivity). cbn [bind].
    rewrite slice_from_nonneg by lia. change (Z.to_nat 1) with 1%nat. cbn [drop].
    destruct (status =? 0); reflexivity. }
  unfold ntag2xx_read_block. rewrite Hread. split.
  - intros ->. cbn [Z.eqb bind]. split; [reflexivity|].
    rewrite slice_nonneg by lia. reflexivity.
  - intros Hne. destruct (Z.eqb_spec status 0); [done|]. split; reflexivity.
Qed.

Lemma read_block_answered_witness :
  mifare_classic_read_block
    (answering_bus ([0xD5; 0x41; 0x00] ++ replicate 16 0xAB)) 4
  = Ok (Some (replicate 16 0xAB)).
Proof.
  apply (proj1 (read_block_answered 4 0x00 (replicate 16 0xAB)
                  ltac:(unfold is_byte; lia)
                  ltac:(apply Forall_replicate; unfold is_byte; lia)
                  ltac:(vm_compute; discriminate))).
  reflexivity.
Defined.

Lemma authenticate_params_eq uid block_number key_number key :
  authenticate_params uid block_number key_number key
  = Ok ([0x01; Z.land key_number 0xFF; Z.land block_number 0xFF] ++ key ++ uid).
Proof.
  unfold authenticate_params, bytearray.
  pose proof (len_nonneg uid). pose proof (len_nonneg key).
  replace (Z.to_nat (3 + len uid + len key))
    with (3 + (length key + length uid))%nat by len_tac.
  rewrite replicate_add, replicate_add. cbn [replicate app].
  rewrite setitem_nonneg by store_tac. cbn [bind].
  rewrite setitem_nonneg by store_tac. cbn [bind].
  rewrite setitem_nonneg by store_tac. cbn [bind].
  change (Z.to_nat 0) with 0%nat. change (Z.to_nat 1) with 1%nat.
  change (Z.to_nat 2) with 2%nat. cbn [list_insert insert].
  set (head := [1; Z.land key_number 255; Z.land block_number 255]).
  change (1 :: Z.land key_number 255 :: Z.land block_number 255
            :: replicate (length key) 0 ++ replicate (length uid) 0)
    with (head ++ replicate (length key) 0 ++ replicate (length uid) 0).
  rewrite setslice_inside by (unfold head; len_tac).
  replace (Z.to_nat 3) with (length head) by reflexivity.
  rewrite take_app_length.
  replace (Z.to_nat (3 + len key)) with (length head + length key)%nat
    by (unfold head; len_tac).
  rewrite drop_app_add' by reflexivity.
  rewrite drop_app_length' by len_tac.
  unfold setslice_from, clamp.
  destruct (Z.ltb_spec (3 + len key) 0); [lia|].
  rewrite Z.min_l by (unfold head; len_tac).
  replace (Z.to_nat (3 + len key)) with (length (head ++ key))
    by (unfold head; len_tac).
  rewrite (app_assoc head key), take_app_length. rewrite <- app_assoc. reflexivity.
Qed.

Ltac unanswered_tac lemma :=
  rewrite lemma; [reflexivity | side_tac ..].

(** The parameters that [ntag2xx_write_block] sends *)
Lemma write_block_params block_number (data : list Z) bus :
  len data = 4 ->
  ntag2xx_write_block bus block_number data
  = let* response :=
      call_function bus _COMMAND_INDATAEXCHANGE 1
        ([0x01; MIFARE_ULTRALIGHT_CMD_WRITE; Z.land block_number 0xFF] ++ data) in
    match response with
    | None => Raise none_subscript
    | Some response => let* status := getitem response 0 in Ok (status =? 0x00)
    end.
Proof.
  intros Hlen. unfold ntag2xx_write_block. rewrite Hlen.
  cbn [Z.eqb Pos.eqb negb Z.add Pos.add].
  destruct data as [|a [|b [|c [|d [|x data]]]]]; try (vm_compute in Hlen; discriminate).
  2:{ exfalso. revert Hlen. len_tac. }
  unfold bytearray.
  rewrite setitem_nonneg by store_tac. cbn [bind].
  rewrite setitem_nonneg by store_tac. cbn [bind].
  rewrite setitem_nonneg by store_tac. cbn [bind].
  reflexivity.
Qed.

(** X10: the card commands on a chip that gives no response.  When the
    write of the frame fails and the wake-up after it goes through, or when
    the chip does not get ready for the acknowledgement in time,
    [read_passive_target] returns [None] and [SAM_configuration] returns as
    after a success, while [mifare_classic_read_block],
    [ntag2xx_read_block], [ntag2xx_write_block] (with four bytes of data)
    and [mifare_classic_authenticate_block] (with a key and a UID of bytes
    that fit a frame) all raise [TypeError], since they subscript the
    [None] that [call_function] returned: none of them returns [None] or
    [False].  When the write of the frame and the wake-up both fail, all
    six raise the [OSError] of the wake-up. *)
Theorem card_commands_unanswered bus block_number :
  (silent bus ->
     (forall card_baud, is_byte card_baud -> read_passive_target bus card_baud = Ok None)
     /\ SAM_configuration bus = Ok tt
     /\ mifare_classic_read_block bus block_number = Raise none_subscript
     /\ ntag2xx_read_block bus block_number = Raise none_subscript
     /\ (forall data, Forall is_byte data -> len data = 4 ->
           ntag2xx_write_block bus block_number data = Raise none_subscript)
     /\ (forall uid key_number key,
           Forall is_byte uid -> Forall is_byte key -> len uid + len key <= 249 ->
           mifare_classic_authenticate_block bus uid block_number key_number key
           = Raise none_subscript))
  /\
  (dead bus ->
     (forall card_baud, is_byte card_baud ->
        read_passive_target bus card_baud = Raise OSError)
     /\ SAM_configuration bus = Raise OSError
     /\ mifare_classic_read_block bus block_number = Raise OSError
     /\ ntag2xx_read_block bus block_number = Raise OSError
     /\ (forall data, Forall is_byte data -> len data = 4 ->
           ntag2xx_write_block bus block_number data = Raise OSError)
     /\ (forall uid key_number key,
           Forall is_byte uid -> Forall is_byte key -> len uid + len key <= 249 ->
           mifare_classic_authenticate_block bus uid block_number key_number key
           = Raise OSError)).
Proof.
  split.
  - intros Hs.
    assert (Hread : mifare_classic_read_block bus block_number = Raise none_subscript).
    { unfold mifare_classic_read_block. unanswered_tac call_function_silent. }
    split; [|split; [|split; [|split; [|split]]]].
    + intros card_baud Hbaud. unfold read_passive_target.
      unanswered_tac call_function_silent.
    + unfold SAM_configuration. unanswered_tac call_function_silent.
    + exact Hread.
    + unfold ntag2xx_read_block. rewrite Hread. reflexivity.
    + intros data Hdata Hlen. rewrite write_block_params by done.
      rewrite call_function_silent; [reflexivity|bytes_tac| |done]. len_tac.
    + intros uid key_number key Huid Hkey Hfit.
      unfold mifare_classic_authenticate_block.
      rewrite authenticate_params_eq. cbn [bind].
      rewrite call_function_silent; [reflexivity|bytes_tac| |done]. len_tac.
  - intros Hd.
    assert (Hread : mifare_classic_read_block bus block_number = Raise OSError).
    { unfold mifare_classic_read_block. unanswered_tac call_function_dead. }
    split; [|split; [|split; [|split; [|split]]]].
    + intros card_baud Hbaud. unfold read_passive_target.
      unanswered_tac call_function_dead.
    + unfold SAM_configuration. unanswered_tac call_function_dead.
    + exact Hread.
    + unfold ntag2xx_read_block. rewrite Hread. reflexivity.
    + intros data Hdata Hlen. rewrite write_block_params by done.
      rewrite call_function_dead; [reflexivity|bytes_tac| |done]. len_tac.
    + intros uid key_number key Huid Hkey Hfit.
      unfold mifare_classic_authenticate_block.
      rewrite authenticate_params_eq. cbn [bind].
      rewrite call_function_dead; [reflexivity|bytes_tac| |done]. len_tac.
Qed.

Lemma card_commands_unanswered_witness :
  read_passive_target
    {| write_fault := true; wakeup_fault := true; ack_ready := true;
       ack_miso := fun _ => 0; response_ready := true; response_miso := fun _ => 0 |} 0
  = Raise OSError
  /\ mifare_classic_read_block
       {| write_fault := false; wakeup_fault := false; ack_ready := false;
          ack_miso := fun _ => 0; response_ready := false; response_miso := fun _ => 0 |} 4
     = Raise none_subscript.
Proof.
  split.
  - apply (proj2 (card_commands_unanswered _ 4)); [split; reflexivity|].
    unfold is_byte. lia.
  - apply (proj1 (card_commands_unanswered _ 4)). reflexivity.
Defined.

(** X11: the commands that the chip answers with a status byte alone.
    [mifare_classic_authenticate_block] sends the parameters [01], the key
    number, the block number (both reduced to a byte), the key and then
    the UID (bytes that fit a frame), and [ntag2xx_write_block] accepts
    four bytes of data and nothing else; with the chip answering [D5 41] and a status, each
    returns [True] when the status is [00] and [False] otherwise. *)
Theorem status_commands uid block_number key_number key data status :
  is_byte status ->
  Forall is_byte uid -> Forall is_byte key ->
  len uid + len key <= 249 ->
  authenticate_params uid block_number key_number key
    = Ok ([0x01; Z.land key_number 0xFF; Z.land block_number 0xFF] ++ key ++ uid)
  /\ mifare_classic_authenticate_block (answering_bus [0xD5; 0x41; status])
       uid block_number key_number key
     = Ok (status =? 0)
  /\ (Forall is_byte data -> len data = 4 ->
        ntag2xx_write_block (answering_bus [0xD5; 0x41; status]) block_number data
        = Ok (status =? 0))
  /\ (len data <> 4 ->
        forall bus,
          ntag2xx_write_block bus block_number data
          = Raise (AssertionError "Data must be an array of 4 bytes!")).
Proof.
  intros Hstatus Huid Hkey Hfit.
  assert (Hcall : forall params, Forall is_byte params -> len params <= 252 ->
            call_function (answering_bus [0xD5; 0x41; status]) _COMMAND_INDATAEXCHANGE 1 params
            = Ok (Some [status])).
  { intros params Hbytes Hp. apply (call_function_answer 0x40 1 params [status]).
    - lia.
    - done.
    - done.
    - apply Forall_cons_2; [done|apply Forall_nil_2].
    - vm_compute. discriminate.
    - vm_compute. discriminate. }
  split; [apply authenticate_params_eq|]. split; [|split].
  - unfold mifare_classic_authenticate_block. rewrite authenticate_params_eq. cbn [bind].
    rewrite Hcall; [reflexivity|bytes_tac|len_tac].
  - intros Hdata Hlen. rewrite write_block_params by done.
    rewrite Hcall; [reflexivity|bytes_tac|len_tac].
  - intros Hlen bus. unfold ntag2xx_write_block.
    destruct (Z.eqb_spec (len data) 4); [done|]. reflexivity.
Qed.

Lemma status_commands_witness :
  mifare_classic_authenticate_block (answering_bus [0xD5; 0x41; 0x00])
    [0xDE; 0xAD; 0xBE; 0xEF] 4 MIFARE_CMD_AUTH_B KEY_DEFAULT_B
  = Ok true.
Proof.
  apply (proj1 (proj2 (status_commands [0xDE; 0xAD; 0xBE; 0xEF] 4 MIFARE_CMD_AUTH_B
                         KEY_DEFAULT_B [] 0x00
                         ltac:(unfold is_byte; lia)
                         ltac:(repeat (apply Forall_cons_2; [unfold is_byte; lia|]);
                               apply Forall_nil_2)
                         ltac:(repeat (apply Forall_cons_2; [unfold is_byte; lia|]);
                               apply Forall_nil_2)
                         ltac:(vm_compute; discriminate)))).
Defined.

End DriverCommands.

(** ** [nfctag/ndefuri.py]: the URI encoder *)

Section UriEncoder.
Import NDEFBase MicroUri.

Lemma utf8_encode_ascii s :
  forallb Codec.is_ascii s = true -> Codec.utf8_encode s = Some s.
Proof.
  induction s as [|c s IH]; [reflexivity|].
  cbn [forallb Codec.utf8_encode]. intros [Hc Hs]%andb_prop.
  rewrite (IH Hs). unfold Codec.utf8_encode_char, Codec.is_ascii in *.
  destruct (Z.ltb_spec c 0); [lia|]. destruct (Z.ltb_spec c 128); [|lia].
  reflexivity.
Qed.

Lemma forallb_take_drop {A} (f : A -> bool) (l : list A) n :
  forallb f l = true -> forallb f (take n l) = true /\ forallb f (drop n l) = true.
Proof.
  intros H. rewrite <- (take_drop n l), forallb_app in H.
  apply andb_prop in H. exact H.
Qed.

Lemma startswith_split uri prefix :
  startswith uri prefix = true -> uri = prefix ++ drop (length prefix) uri.
Proof.
  unfold startswith. intros H%bool_decide_eq_true.
  rewrite <- (take_drop (length prefix) uri) at 1. rewrite H. reflexivity.
Qed.

(** The place of an entry in the table is what [index] finds. *)
Lemma index_of_entry (i : nat) prefix :
  _prefix_strings !! i = Some prefix -> index prefix = Ok (Z.of_nat i).
Proof.
  intros H.
  do 36 (destruct i as [|i]; [injection H as <-; vm_compute; reflexivity|]).
  discriminate.
Qed.

(** The round of the loop of [_encode_payload] that returns: the first
    entry that is not empty and that the URI starts with. *)
Lemma encode_loop_some uri prefixes payload :
  encode_loop uri prefixes = Some payload ->
  exists before prefix after,
    prefixes = before ++ prefix :: after
    /\ Forall (fun p => p = EmptyString \/ startswith uri (str_of_string p) = false) before
    /\ prefix <> EmptyString
    /\ startswith uri (str_of_string prefix) = true
    /\ payload = (let* index := index prefix in
                  let* code := bytes_of [index] in
                  let* rest :=
                    Codec.str_encode Codec.utf8
                      (slice_from uri (len (str_of_string prefix))) in
                  Ok (code ++ rest)).
Proof.
  induction prefixes as [|p prefixes IH]; [discriminate|].
  cbn [encode_loop].
  destruct (bool_decide_reflect (p = EmptyString)) as [Hp|Hp]; cbn [negb andb].
  - intros H. destruct (IH H) as (before & prefix & after & -> & Hb & Hr).
    exists (p :: before), prefix, after. split; [reflexivity|].
    split; [apply Forall_cons_2; [left; exact Hp|exact Hb]|exact Hr].
  - destruct (startswith uri (str_of_string p)) eqn:Hs.
    + intros H. injection H as <-. exists [], p, prefixes.
      split; [reflexivity|]. split; [apply Forall_nil_2|]. done.
    + intros H. destruct (IH H) as (before & prefix & after & -> & Hb & Hr).
      exists (p :: before), prefix, after. split; [reflexivity|].
      split; [apply Forall_cons_2; [right; exact Hs|exact Hb]|exact Hr].
Qed.

Lemma encode_loop_none uri prefixes :
  encode_loop uri prefixes = None ->
  Forall (fun p => p = EmptyString \/ startswith uri (str_of_string p) = false) prefixes.
Proof.
  induction prefixes as [|p prefixes IH]; [intros _; apply Forall_nil_2|].
  cbn [encode_loop].
  destruct (bool_decide_reflect (p = EmptyString)) as [Hp|Hp]; cbn [negb andb].
  - intros H. apply Forall_cons_2; [left; exact Hp|exact (IH H)].
  - destruct (startswith uri (str_of_string p)) eqn:Hs; [discriminate|].
    intros H. apply Forall_cons_2; [right; exact Hs|exact (IH H)].
Qed.

(** What [_encode_payload] returns for a URI of ASCII characters. *)
Lemma encode_payload_ascii uri :
  forallb Codec.is_ascii uri = true ->
  exists (code : nat) prefix,
    _prefix_strings !! code = Some prefix
    /\ uri = str_of_string prefix ++ drop (length (str_of_string prefix)) uri
    /\ _encode_payload {| _url := uri |}
       = Ok (Z.of_nat code :: drop (length (str_of_string prefix)) uri)
    /\ Forall (fun p => p = EmptyString \/ startswith uri (str_of_string p) = false)
         (take code _prefix_strings)
    /\ (code <> 0%nat -> prefix <> EmptyString)
    /\ (code = 0%nat ->
          Forall (fun p => p = EmptyString \/ startswith uri (str_of_string p) = false)
            _prefix_strings).
Proof.
  intros Hascii. unfold _encode_payload. cbn [_url].
  destruct (encode_loop uri _prefix_strings) as [payload|] eqn:Hloop.
  - apply encode_loop_some in Hloop
      as (before & prefix & after & Htable & Hbefore & Hne & Hstart & ->).
    assert (Hat : _prefix_strings !! length before = Some prefix).
    { rewrite Htable. rewrite lookup_app_r by lia. rewrite Nat.sub_diag. reflexivity. }
    exists (length before), prefix. split; [exact Hat|].
    split; [apply startswith_split; exact Hstart|].
    rewrite (index_of_entry _ _ Hat). cbn [bind].
    assert (Hlt : (length before < 36)%nat).
    { apply lookup_lt_Some in Hat. exact Hat. }
    unfold bytes_of. cbn [forallb].
    destruct (Z.leb_spec 0 (Z.of_nat (length before))); [|lia].
    destruct (Z.ltb_spec (Z.of_nat (length before)) 256); [|lia].
    cbn [andb bind]. rewrite slice_from_nonneg by apply len_nonneg.
    unfold len. rewrite Nat2Z.id.
    unfold Codec.str_encode. cbn [Codec.encode Codec.utf8].
    rewrite utf8_encode_ascii by (apply forallb_take_drop; exact Hascii).
    cbn [Codec.unicode bind app]. split; [reflexivity|].
    split; [rewrite Htable, take_app_length; exact Hbefore|].
    split; [intros _; exact Hne|].
    intros Hzero. destruct before; [|discriminate].
    cbn in Hat. injection Hat as <-. done.
  - exists 0%nat, EmptyString. split; [reflexivity|]. split; [reflexivity|].
    unfold Codec.str_encode. cbn [Codec.encode Codec.utf8].
    rewrite utf8_encode_ascii by exact Hascii. cbn [Codec.unicode bind app].
    split; [reflexivity|]. split; [apply Forall_nil_2|]. split; [done|].
    intros _. apply encode_loop_none. exact Hloop.
Qed.

(** Decoding what the encoder produced for a URI of ASCII characters. *)
Lemma uri_payload_read_back uri payload :
  forallb Codec.is_ascii uri = true ->
  _encode_payload {| _url := uri |} = Ok payload ->
  _decode_payload payload = Ok {| _url := uri |}.
Proof.
  intros Hascii Hpayload.
  destruct (encode_payload_ascii uri Hascii)
    as (code & prefix & Hat & Hsplit & Henc & _).
  rewrite Henc in Hpayload. injection Hpayload as <-.
  rewrite uri_decode_steps.
  rewrite (getitem_nonneg _ _ prefix) by (lia || rewrite Nat2Z.id; exact Hat).
  cbn [bind].
  pose proof prefixes_are_ascii as Hall. rewrite Forall_lookup in Hall.
  destruct (Hall _ _ Hat) as [Hutf8 Hp].
  unfold Codec.str_encode. cbn [Codec.encode Codec.utf8]. rewrite Hutf8.
  cbn [Codec.unicode bind]. rewrite <- Hsplit.
  unfold __init__, _value_to_unicode, Codec.bytes_decode.
  cbn [from_option id Codec.decode Codec.ascii]. unfold Codec.ascii_decode.
  rewrite Hascii. reflexivity.
Qed.

(** X12: every URI of ASCII characters makes the round trip: the payload
    that [_encode_payload] produces for it is decoded by [_decode_payload]
    to a record with the same URI. *)
Theorem uri_roundtrip uri :
  forallb Codec.is_ascii uri = true ->
  exists payload,
    _encode_payload {| _url := uri |} = Ok payload
    /\ _decode_payload payload = Ok {| _url := uri |}.
Proof.
  intros Hascii.
  destruct (encode_payload_ascii uri Hascii) as (code & prefix & _ & _ & Henc & _).
  eexists. split; [exact Henc|].
  apply (uri_payload_read_back uri); [exact Hascii|exact Henc].
Qed.

Lemma uri_roundtrip_witness :
  exists payload,
    _encode_payload {| _url := str_of_string "https://www.example.com/a" |} = Ok payload
    /\ _decode_payload payload
       = Ok {| _url := str_of_string "https://www.example.com/a" |}.
Proof. apply (uri_roundtrip (str_of_string "https://www.example.com/a")). reflexivity. Defined.

Lemma startswith_shorter uri (prefix shorter : str) :
  startswith uri prefix = true ->
  take (length shorter) prefix = shorter ->
  startswith uri shorter = true.
Proof.
  unfold startswith. intros H%bool_decide_eq_true Hs. apply bool_decide_eq_true.
  rewrite <- Hs at 2. rewrite <- H.
  rewrite take_take. f_equal.
  assert (length shorter <= length prefix)%nat; [|lia].
  rewrite <- Hs. rewrite length_take. lia.
Qed.

(** X13: the prefix code that [_encode_payload] chooses for a URI of ASCII
    characters.  The payload starts with the place [code] of a table
    entry that the URI starts with, followed by the rest of the URI; no
    entry before it, the empty one apart, is a prefix of the URI (the
    first match wins, not the longest), and [code] is [0] only when no
    entry is.  Since the entry "urn:" at place 19 comes first, the codes
    30 to 35 of the entries "urn:epc:id:" to "urn:nfc:" are never
    chosen. *)
Theorem uri_encoder_code uri :
  forallb Codec.is_ascii uri = true ->
  exists (code : nat) prefix,
    _encode_payload {| _url := uri |}
      = Ok (Z.of_nat code :: drop (length (str_of_string prefix)) uri)
    /\ _prefix_strings !! code = Some prefix
    /\ startswith uri (str_of_string prefix) = true
    /\ (forall (j : nat) p,
          (j < code)%nat -> _prefix_strings !! j = Some p -> p <> EmptyString ->
          startswith uri (str_of_string p) = false)
    /\ (code = 0%nat ->
          forall (j : nat) p,
            _prefix_strings !! j = Some p -> p <> EmptyString ->
            startswith uri (str_of_string p) = false)
    /\ (code < 30)%nat.
Proof.
  intros Hascii.
  destruct (encode_payload_ascii uri Hascii)
    as (code & prefix & Hat & Hsplit & Henc & Hfirst & _ & Hnone).
  exists code, prefix. split; [exact Henc|]. split; [exact Hat|].
  assert (Hstart : startswith uri (str_of_string prefix) = true).
  { unfold startswith. apply bool_decide_eq_true. rewrite Hsplit at 1.
    apply take_app_length. }
  split; [exact Hstart|].
  assert (Hearlier : forall (j : nat) p,
            (j < code)%nat -> _prefix_strings !! j = Some p -> p <> EmptyString ->
            startswith uri (str_of_string p) = false).
  { intros j p Hj Hp Hne. rewrite Forall_lookup in Hfirst.
    destruct (Hfirst j p); [|done|done].
    rewrite lookup_take_lt by lia. exact Hp. }
  split; [exact Hearlier|]. split.
  - intros Hzero j p Hp Hne. specialize (Hnone Hzero).
    rewrite Forall_lookup in Hnone. destruct (Hnone j p Hp); done.
  - destruct (decide (code < 30)%nat) as [|Hge]; [done|]. exfalso.
    assert (Hurn : startswith uri (str_of_string "urn:") = false).
    { apply (Hearlier 19%nat "urn:"%string); [lia|reflexivity|discriminate]. }
    assert (Hlt : (code < 36)%nat) by (apply lookup_lt_Some in Hat; exact Hat).
    assert (Htake : take 4 (str_of_string prefix) = str_of_string "urn:").
    { do 30 (destruct code as [|code]; [lia|]).
      do 6 (destruct code as [|code]; [injection Hat as <-; reflexivity|]). lia. }
    rewrite (startswith_shorter uri (str_of_string prefix) (str_of_string "urn:"))
      in Hurn; [discriminate|exact Hstart|exact Htake].
Qed.

Lemma uri_encoder_code_witness :
  exists (code : nat) prefix,
    _encode_payload {| _url := str_of_string "urn:epc:id:sgtin:0614141" |}
      = Ok (Z.of_nat code
              :: drop (length (str_of_string prefix))
                   (str_of_string "urn:epc:id:sgtin:0614141"))
    /\ (code < 30)%nat.
Proof.
  destruct (uri_encoder_code (str_of_string "urn:epc:id:sgtin:0614141") eq_refl)
    as (code & prefix & Henc & _ & _ & _ & _ & Hlt).
  exists code, prefix. split; assumption.
Defined.

End UriEncoder.

(** ** [nfctag/ndeftext.py]: the payload of a text record *)

Section TextDecoder.
Import NDEFBase NDEFTextRecord.

Variable utf16 : Codec.codec.

Lemma utf8_decode_ascii b :
  forallb Codec.is_ascii b = true -> Codec.utf8_decode b = Some b.
Proof.
  induction b as [|b0 r0 IH]; [reflexivity|].
  cbn [forallb Codec.utf8_decode]. intros [H0 Hr]%andb_prop.
  rewrite H0, (IH Hr). reflexivity.
Qed.

Ltac push_case IH :=
  match goal with
  | H : Codec.push ?c (Codec.utf8_decode ?r) = Some ?s |- _ =>
      let t := fresh "t" in
      let Hr := fresh "Hr" in
      let Hl := fresh "Hl" in
      destruct (Codec.utf8_decode r) as [t|] eqn:Hr; [|discriminate];
      cbn [Codec.push] in H; injection H as <-;
      destruct (IH r t ltac:(cbn [length] in *; lia) Hr) as [Hl _];
      split; [cbn [length] in *; lia|discriminate]
  end.

(** Decoding UTF-8 gives at most one character per byte, and at least one
    from a sequence that is not empty. *)
Lemma utf8_decode_length n :
  forall b s, (length b <= n)%nat -> Codec.utf8_decode b = Some s ->
              (length s <= length b)%nat /\ (b <> [] -> s <> []).
Proof.
  induction n as [|n IH]; intros b s Hn H.
  - destruct b; [|cbn in Hn; lia]. injection H as <-. split; [lia|done].
  - destruct b as [|b0 r0]; [injection H as <-; split; [cbn; lia|done]|].
    cbn [Codec.utf8_decode] in H.
    destruct (Codec.is_ascii b0); [push_case IH|].
    destruct ((0xC0 <=? b0) && (b0 <? 0xE0)).
    { destruct r0 as [|b1 r1]; [discriminate|].
      destruct (_ && _) in H; [push_case IH|discriminate]. }
    destruct ((0xE0 <=? b0) && (b0 <? 0xF0)).
    { destruct r0 as [|b1 [|b2 r2]]; try discriminate.
      destruct (_ && _) in H; [push_case IH|discriminate]. }
    destruct ((0xF0 <=? b0) && (b0 <? 0xF8)); [|discriminate].
    destruct r0 as [|b1 [|b2 [|b3 r3]]]; try discriminate.
    destruct (_ && _) in H; [push_case IH|discriminate].
Qed.

Lemma text_payload_split (flag : Z) (lang text : list Z) :
  slice (flag :: lang ++ text) 1 (1 + len lang) = lang
  /\ slice_from (flag :: lang ++ text) (1 + len lang) = text.
Proof.
  pose proof (len_nonneg lang). split.
  - rewrite slice_nonneg by lia. change (Z.to_nat 1) with 1%nat. cbn [drop].
    replace (Z.to_nat (1 + len lang - 1)) with (length lang) by len_tac.
    apply take_app_length.
  - rewrite slice_from_nonneg by lia.
    replace (Z.to_nat (1 + len lang)) with (S (length lang)) by len_tac.
    cbn [drop]. apply drop_app_length.
Qed.

(** X14: decoding a well-formed text payload.  For a payload made of a
    status byte [flag], a language code [lang] of 1 to 63 ASCII characters
    whose length is in the low six bits of [flag], and then the bytes
    [text]: when the codec that bit 7 of [flag] selects (UTF-8 when it is
    clear, UTF-16 when it is set) decodes [text] to [decoded],
    [_decode_payload] returns the record with the text [decoded], the
    language [lang] and the name of that encoding.  Bit 6 of [flag] is
    not looked at. *)
Theorem text_payload_decoded flag (lang text : list Z) (decoded : str) :
  Z.land flag 0x3F = len lang ->
  lang <> [] ->
  forallb Codec.is_ascii lang = true ->
  let UTFX := if negb (Z.shiftr flag 7 =? 0) then "UTF-16" else "UTF-8" in
  Codec.decode (codec_of utf16 UTFX) text = Some decoded ->
  _decode_payload utf16 (flag :: lang ++ text)
  = Ok {| _text := decoded; _lang := lang; _utfx := UTFX |}.
Proof.
  intros Hflag Hne Hascii UTFX Hdec.
  assert (Hpos : 0 < len lang).
  { destruct lang; [done|]. rewrite len_cons. pose proof (len_nonneg lang). lia. }
  assert (Hlt : len lang < 64).
  { rewrite <- Hflag. change 0x3F with (Z.ones 6). rewrite Z.land_ones by lia.
    apply Z.mod_pos_bound. lia. }
  unfold _decode_payload. cbn [_decode_struct_B bind]. rewrite Hflag.
  destruct (Z.eqb_spec (len lang) 0); [lia|].
  destruct (Z.geb_spec (len lang) (len (flag :: lang ++ text))) as [Hge|_].
  { revert Hge. rewrite len_cons, len_app. pose proof (len_nonneg text). lia. }
  destruct (text_payload_split flag lang text) as [-> Htext].
  unfold Codec.bytes_decode at 1.
  change (Codec.decode (codec_of utf16 "utf-8")) with Codec.utf8_decode.
  rewrite utf8_decode_ascii by exact Hascii. cbn [Codec.unicode bind].
  rewrite Htext. unfold Codec.bytes_decode. fold UTFX. rewrite Hdec.
  cbn [Codec.unicode bind].
  unfold __init__. cbn [from_option id]. unfold check_language.
  destruct (Z.ltb_spec 0 (len lang)); [|lia].
  destruct (Z.ltb_spec (len lang) 64); [|lia]. cbn [andb negb bind].
  unfold check_encoding, UTFX.
  destruct (negb (Z.shiftr flag 7 =? 0)); reflexivity.
Qed.

(** X15: the payloads that [_decode_payload] refuses.  An empty payload,
    a language length of zero in the low six bits of the first byte, and a
    language length that is not below the length of the payload are each
    refused with a decode error of their own.  And the constructor of the
    record never refuses what was decoded: whatever the payload,
    [_decode_payload] does not end in the [AttributeError] of the setters,
    since a language that was decoded has 1 to 63 characters and the
    encoding is one of the two names. *)
Theorem text_payload_refused octets :
  (octets = [] ->
     _decode_payload utf16 octets = Raise (NDEFdecodeError "buffer too small"))
  /\ (forall flag rest, octets = flag :: rest -> Z.land flag 0x3F = 0 ->
        _decode_payload utf16 octets
        = Raise (NDEFdecodeError "language code length can not be zero"))
  /\ (forall flag rest, octets = flag :: rest -> len rest < Z.land flag 0x3F ->
        _decode_payload utf16 octets
        = Raise (NDEFdecodeError "language code length exceeds payload"))
  /\ (forall e msg, _decode_payload utf16 octets = Raise e -> e <> AttributeError msg).
Proof.
  split; [intros ->; reflexivity|]. split; [|split].
  - intros flag rest -> Hzero. unfold _decode_payload. cbn [_decode_struct_B bind].
    rewrite Hzero. reflexivity.
  - intros flag rest -> Hlong. unfold _decode_payload. cbn [_decode_struct_B bind].
    pose proof (len_nonneg rest).
    destruct (Z.eqb_spec (Z.land flag 63) 0); [lia|].
    destruct (Z.geb_spec (Z.land flag 63) (len (flag :: rest))) as [|Hlt];
      [reflexivity|]. rewrite len_cons in Hlt. lia.
  - intros e msg He.
    assert (exists m, e = NDEFdecodeError m) as [m ->]; [|discriminate].
    revert He. unfold _decode_payload, _decode_struct_B.
    destruct octets as [|flag rest]; cbn [bind].
    { intros ?; simplify_eq. eexists. reflexivity. }
    destruct (Z.eqb_spec (Z.land flag 63) 0) as [|Hnz];
      [intros ?; simplify_eq; eexists; reflexivity|].
    destruct (Z.geb_spec (Z.land flag 63) (len (flag :: rest))) as [|Hfit];
      [intros ?; simplify_eq; eexists; reflexivity|].
    assert (Hn : 0 < Z.land flag 63 < 64).
    { change 63 with (Z.ones 6) in *. rewrite Z.land_ones in * by lia.
      pose proof (Z.mod_pos_bound flag (2 ^ 6) ltac:(lia)). lia. }
    set (n := Z.land flag 63) in *.
    unfold Codec.bytes_decode at 1.
    change (Codec.decode (codec_of utf16 "utf-8")) with Codec.utf8_decode.
    destruct (Codec.utf8_decode (slice (flag :: rest) 1 (1 + n))) as [LANG|] eqn:Hlang;
      cbn [Codec.unicode bind].
    2:{ destruct (negb (Z.shiftr flag 7 =? 0)); intros ?; simplify_eq;
          eexists; reflexivity. }
    unfold Codec.bytes_decode.
    destruct (Codec.decode _ (slice_from (flag :: rest) (1 + len LANG))) as [TEXT|];
      cbn [Codec.unicode bind].
    2:{ destruct (negb (Z.shiftr flag 7 =? 0)); intros ?; simplify_eq;
          eexists; reflexivity. }
    assert (Hslice : length (slice (flag :: rest) 1 (1 + n)) = Z.to_nat n).
    { rewrite slice_nonneg by lia. change (Z.to_nat 1) with 1%nat. cbn [drop].
      rewrite drop_0, length_take. rewrite len_cons in Hfit. unfold len in Hfit. lia. }
    destruct (utf8_decode_length _ _ _ (le_n _) Hlang) as [Hle Hnonempty].
    assert (Hlen : 0 < len LANG < 64).
    { unfold len. rewrite Hslice in Hle. split; [|lia].
      destruct LANG; [|cbn [length]; lia]. exfalso. apply Hnonempty; [|reflexivity].
      intros Hnil. rewrite Hnil in Hslice. cbn in Hslice. lia. }
    unfold __init__. cbn [from_option id]. unfold check_language.
    destruct (Z.ltb_spec 0 (len LANG)); [|lia].
    destruct (Z.ltb_spec (len LANG) 64); [|lia]. cbn [andb negb bind].
    unfold check_encoding.
    destruct (negb (Z.shiftr flag 7 =? 0)); cbn; discriminate.
Qed.

End TextDecoder.

Section TextRecords.
Import NDEFBase NDEFTextRecord.

Lemma text_payload_decoded_witness :
  _decode_payload micropython_utf16 (0x42 :: str_of_string "en" ++ str_of_string "hello")
  = Ok {| _text := str_of_string "hello"; _lang := str_of_string "en"; _utfx := "UTF-8" |}.
Proof.
  apply (text_payload_decoded micropython_utf16 0x42 (str_of_string "en")
           (str_of_string "hello") (str_of_string "hello"));
    (reflexivity || discriminate).
Defined.

Lemma text_payload_refused_witness :
  _decode_payload micropython_utf16 [0x05; 0x65; 0x6E]
  = Raise (NDEFdecodeError "language code length exceeds payload").
Proof.
  apply (proj1 (proj2 (proj2 (text_payload_refused micropython_utf16 [0x05; 0x65; 0x6E])))
           0x05 [0x65; 0x6E] eq_refl).
  vm_compute. reflexivity.
Defined.

(** X16: what the constructor of a text record accepts.  With the
    defaults "en" and "UTF-8" for a language or an encoding that is not
    given, the record is built when the language has 1 to 63 characters
    and the encoding is "UTF-8" or "UTF-16"; any other language or
    encoding ends in an [AttributeError], not in the [ValueError] that
    the setters mean to raise, since the class has no [_value_error]. *)
Theorem text_record_arguments text language encoding :
  let lang := default (str_of_string "en") language in
  let utfx := default "UTF-8"%string encoding in
  (0 < len lang < 64 -> utfx = "UTF-8"%string \/ utfx = "UTF-16"%string ->
     __init__ text language encoding
     = Ok {| _text := default [] text; _lang := lang; _utfx := utfx |})
  /\ (len lang = 0 \/ 64 <= len lang
      \/ (utfx <> "UTF-8"%string /\ utfx <> "UTF-16"%string) ->
        __init__ text language encoding = Raise (AttributeError "_value_error")).
Proof.
  intros lang utfx. unfold __init__. fold lang utfx. unfold check_language, check_encoding.
  pose proof (len_nonneg lang) as Hnn.
  destruct (Z.ltb_spec 0 (len lang)); destruct (Z.ltb_spec (len lang) 64);
    cbn [andb negb bind]; (split; [intros ? Hx|intros Hx]); try lia; try reflexivity.
  - destruct Hx as [-> | ->]; reflexivity.
  - destruct Hx as [?|[?|[H8 H16]]]; try lia.
    rewrite !bool_decide_eq_false_2 by done. reflexivity.
Qed.

Lemma text_record_arguments_witness :
  __init__ (Some (str_of_string "hello")) None (Some "latin-1"%string)
  = Raise (AttributeError "_value_error").
Proof.
  apply (proj2 (text_record_arguments (Some (str_of_string "hello")) None
                  (Some "latin-1"%string))).
  right. right. split; discriminate.
Defined.

End TextRecords.

(** ** [nfctag/uNDEF.py]: the layout of a record *)

Section RecordLayout.
Import NDEFBase NDEFRecord.

Lemma read_chunk s chunk rest :
  remaining s = chunk ++ rest ->
  let s' := {| BytesIO.buf := BytesIO.buf s;
               BytesIO.pos := BytesIO.pos s + length chunk |} in
  BytesIO.read s (len chunk) = (chunk, s') /\ remaining s' = rest.
Proof.
  intros Hrem s'. unfold BytesIO.read, remaining in *. rewrite Hrem.
  destruct (Z.ltb_spec (len chunk) 0) as [Hneg|_];
    [pose proof (len_nonneg chunk); lia|].
  unfold len. rewrite Nat2Z.id, take_app_length. split; [reflexivity|].
  unfold s'. cbn [BytesIO.buf BytesIO.pos].
  rewrite <- drop_drop, Hrem. apply drop_app_length.
Qed.

Lemma be_value_byte x : struct.be_value [x] = x.
Proof.
  unfold struct.be_value. cbn [foldl].
  rewrite Z.shiftl_0_l, Z.lor_0_l. reflexivity.
Qed.

Lemma be_value_word n :
  0 <= n <= 512 ->
  struct.be_value [n / 2 ^ 24 mod 256; n / 2 ^ 16 mod 256; n / 2 ^ 8 mod 256; n mod 256]
  = n.
Proof.
  intros Hn. rewrite !(Z.div_small n (2 ^ _)) by lia.
  change (0 mod 256) with 0. unfold struct.be_value. cbn [foldl].
  rewrite !Z.shiftl_0_l, !Z.lor_0_l.
  rewrite lor_shift_byte by (apply Z.mod_pos_bound; lia).
  change (2 ^ 8) with 256.
  assert (Hq : 0 <= n / 256 < 256).
  { split; [apply Z.div_pos; lia|apply Z.div_lt_upper_bound; lia]. }
  rewrite (Z.mod_small (n / 256)) by exact Hq.
  pose proof (Z.div_mod n 256 ltac:(lia)) as Hdm. lia.
Qed.

(** The length fields are unpacked to the lengths that they hold. *)
Lemma length_fields_unpacked SR IL (TYPE PAYLOAD ID : list Z) :
  len PAYLOAD <= 512 ->
  len (length_fields SR IL TYPE PAYLOAD ID) = struct.calcsize (structfmt SR IL)
  /\ struct.unpack struct.Big (structfmt SR IL) (length_fields SR IL TYPE PAYLOAD ID)
     = Ok ([len TYPE; len PAYLOAD] ++ if IL then [len ID] else []).
Proof.
  intros Hp. pose proof (len_nonneg PAYLOAD) as Hnn.
  pose proof (be_value_word (len PAYLOAD) ltac:(lia)) as Hword.
  unfold length_fields, structfmt, struct.unpack.
  destruct SR, IL; (split; [reflexivity|]);
    cbn [app struct.calcsize struct.field_size foldr Nat.add len length Z.of_nat
         Pos.of_succ_nat Pos.succ Z.eqb Pos.eqb negb struct.unpack_fields take drop
         struct.value];
    rewrite ?be_value_byte, ?Hword; reflexivity.
Qed.

(** [_decode] on a stream that holds the fields of a record *)
Lemma decode_layout utf16 octet0 (TYPE ID PAYLOAD rest : list Z) out :
  let TNF := Z.land octet0 0x07 in
  let SR := negb (Z.land octet0 0x10 =? 0) in
  let IL := negb (Z.land octet0 0x08 =? 0) in
  TNF <> 7 ->
  satisfies_invariants TNF (len TYPE) (len PAYLOAD) (len ID) ->
  len PAYLOAD <= 512 ->
  (if IL then True else ID = []) ->
  exists self',
    _decode utf16
      (__init__ (octet0 :: length_fields SR IL TYPE PAYLOAD ID
                   ++ TYPE ++ ID ++ PAYLOAD ++ rest)) out
    = decode_fields utf16 self' out TNF TYPE PAYLOAD
        (negb (Z.land octet0 0x80 =? 0))
        (negb (Z.land octet0 0x40 =? 0))
        (negb (Z.land octet0 0x20 =? 0))
    /\ remaining (_data self') = rest.
Proof.
  intros TNF SR IL Htnf Hinv Hmax Hid.
  set (fields := length_fields SR IL TYPE PAYLOAD ID).
  set (octets := octet0 :: fields ++ TYPE ++ ID ++ PAYLOAD ++ rest).
  destruct (length_fields_unpacked SR IL TYPE PAYLOAD ID Hmax) as [Hsize Hunpack].
  fold fields in Hsize, Hunpack.
  set (s1 := {| BytesIO.buf := octets; BytesIO.pos := 1 |}).
  assert (Hr1 : BytesIO.read (BytesIO.new octets) 1 = ([octet0], s1)) by reflexivity.
  destruct (read_chunk s1 fields (TYPE ++ ID ++ PAYLOAD ++ rest) eq_refl) as [Hr2 Hrem2].
  rewrite Hsize in Hr2. cbv zeta in Hr2, Hrem2.
  set (s2 := {| BytesIO.buf := BytesIO.buf s1;
                BytesIO.pos := BytesIO.pos s1 + length fields |}) in *.
  destruct (read_chunk s2 TYPE (ID ++ PAYLOAD ++ rest) Hrem2) as [Hr3 Hrem3].
  cbv zeta in Hr3, Hrem3.
  set (s3 := {| BytesIO.buf := BytesIO.buf s2;
                BytesIO.pos := BytesIO.pos s2 + length TYPE |}) in *.
  destruct (read_chunk s3 ID (PAYLOAD ++ rest) Hrem3) as [Hr4 Hrem4].
  cbv zeta in Hr4, Hrem4.
  set (s4 := {| BytesIO.buf := BytesIO.buf s3;
                BytesIO.pos := BytesIO.pos s3 + length ID |}) in *.
  destruct (read_chunk s4 PAYLOAD rest Hrem4) as [Hr5 Hrem5].
  cbv zeta in Hr5, Hrem5.
  set (s5 := {| BytesIO.buf := BytesIO.buf s4;
                BytesIO.pos := BytesIO.pos s4 + length PAYLOAD |}) in *.
  assert (Hfields : exists more,
            ([len TYPE; len PAYLOAD] ++ (if IL then [len ID] else [])) ++ [0]
            = len TYPE :: len PAYLOAD :: len ID :: more).
  { destruct IL; [exists [0]; reflexivity|]. rewrite Hid. exists []. reflexivity. }
  destruct Hfields as [more Hfields].
  eexists. unfold _decode. cbn [__init__ _data]. fold octets. rewrite Hr1.
  cbn [ord]. fold TNF SR IL.
  destruct (Z.eqb_spec TNF 7); [done|].
  cbn [with_header with_data _data MAX_PAYLOAD_SIZE].
  rewrite Hr2, Hunpack, Hfields.
  rewrite (check_fields_satisfied _ _ _ _ Hinv).
  change (MAX_PAYLOAD_SIZE (__init__ octets)) with 512.
  destruct (Z.gtb_spec (len PAYLOAD) 512); [lia|].
  rewrite Hr3, Hr4, Hr5.
  unfold check_read. rewrite !Z.eqb_refl. cbn [negb].
  split; [reflexivity|]. exact Hrem5.
Qed.

(** X18: the layout of a record that [_decode] reads.  For a stream that
    holds the first octet, the length fields (TYPE_LENGTH, then
    PAYLOAD_LENGTH as one byte when the SR bit is set and as four bytes
    with the high byte first otherwise, then ID_LENGTH when the IL bit is
    set), the TYPE, the ID, the PAYLOAD in this order, and then [rest]:
    when the type name format is not 7, the lengths keep what it asks of
    them and the payload has at most 512 bytes, [_decode] goes on with
    exactly these fields (the flags MB, ME and CF are bits 7, 6 and 5 of
    the first octet) and leaves the stream in front of [rest], ready for
    the next record. *)
Theorem record_layout utf16 octet0 (TYPE ID PAYLOAD rest : list Z) out :
  let TNF := Z.land octet0 0x07 in
  let SR := negb (Z.land octet0 0x10 =? 0) in
  let IL := negb (Z.land octet0 0x08 =? 0) in
  TNF <> 7 ->
  satisfies_invariants TNF (len TYPE) (len PAYLOAD) (len ID) ->
  len TYPE < 256 ->
  len PAYLOAD <= 512 ->
  (if SR then len PAYLOAD < 256 else True) ->
  (if IL then len ID < 256 else ID = []) ->
  exists self',
    _decode utf16
      (__init__ (octet0 :: length_fields SR IL TYPE PAYLOAD ID
                   ++ TYPE ++ ID ++ PAYLOAD ++ rest)) out
    = decode_fields utf16 self' out TNF TYPE PAYLOAD
        (negb (Z.land octet0 0x80 =? 0))
        (negb (Z.land octet0 0x40 =? 0))
        (negb (Z.land octet0 0x20 =? 0))
    /\ remaining (_data self') = rest.
Proof.
  intros TNF SR IL Htnf Hinv _ Hmax _ Hid.
  apply decode_layout; try done. fold IL. destruct IL; done.
Qed.

Lemma record_layout_witness :
  exists self',
    _decode Codec.utf8
      (__init__ (0xD1 :: length_fields true false [0x55] (0x01 :: str_of_string "a.io") []
                   ++ [0x55] ++ [] ++ (0x01 :: str_of_string "a.io") ++ [0xFE])) []
    = decode_fields Codec.utf8 self' [] 1 [0x55] (0x01 :: str_of_string "a.io")
        true true false
    /\ remaining (_data self') = [0xFE].
Proof.
  apply (record_layout Codec.utf8 0xD1 [0x55] [] (0x01 :: str_of_string "a.io") [0xFE] []).
  - vm_compute. discriminate.
  - unfold satisfies_invariants. change (Z.land 209 7) with 1.
    rewrite tnf_056, tnf_1234. vm_compute. intuition (discriminate || lia).
  - vm_compute. reflexivity.
  - vm_compute. discriminate.
  - vm_compute. reflexivity.
  - reflexivity.
Defined.

(** The fields of a URI record go to the URI decoder. *)
Lemma decode_fields_uri utf16 self out (PAYLOAD : list Z) MB ME CF :
  1 <= len PAYLOAD <= 512 ->
  decode_fields utf16 self out 1 [0x55] PAYLOAD MB ME CF
  = (let* r := MicroUri._decode_payload PAYLOAD in
     Ok (Some (Uri r), MB, ME, CF), self, out).
Proof.
  intros Hlen.
  assert (Hshort : (len PAYLOAD <? 1) = false) by (apply Z.ltb_ge; lia).
  assert (Hlong : (len PAYLOAD >? 512) = false).
  { destruct (Z.gtb_spec (len PAYLOAD) 512); [lia|reflexivity]. }
  unfold decode_fields.
  change (_decode_type 1 [85]) with (@Ok str MicroUri._type).
  unfold dispatch. change (lookup_type MicroUri._type) with (Some UriCls).
  cbn [min_payload_length max_payload_length].
  unfold MicroUri._decode_min_payload_length, MicroUri._decode_max_payload_length.
  rewrite Hshort, Hlong. unfold _decode_payload.
  destruct (MicroUri._decode_payload PAYLOAD); reflexivity.
Qed.

Lemma read_taken s n data s' :
  0 <= n -> BytesIO.read s n = (data, s') ->
  data = take (Z.to_nat n) (remaining s) /\ remaining s' = drop (Z.to_nat n) (remaining s).
Proof.
  intros Hn Hr. pose proof (read_remaining s n Hn) as H. rewrite Hr in H. exact H.
Qed.

(** X29: a record that is cut short is not decoded.  For the bytes of a
    record as [_decode] reads it (first octet, length fields, TYPE, ID,
    PAYLOAD, with a type name format that is not 7, lengths that keep
    what it asks of them and a payload of at most 512 bytes): on every
    proper prefix of these bytes that is not empty, [_decode] raises the
    decode error "buffer underflow at reading ...", whether the cut is in
    the length fields or in one of the fields behind them.  It never
    returns a record made of the bytes that are there. *)
Theorem record_cut_short utf16 octet0 (TYPE ID PAYLOAD : list Z) out (k : nat) :
  let TNF := Z.land octet0 0x07 in
  let SR := negb (Z.land octet0 0x10 =? 0) in
  let IL := negb (Z.land octet0 0x08 =? 0) in
  let octets := octet0 :: length_fields SR IL TYPE PAYLOAD ID ++ TYPE ++ ID ++ PAYLOAD in
  TNF <> 7 ->
  satisfies_invariants TNF (len TYPE) (len PAYLOAD) (len ID) ->
  len TYPE < 256 ->
  len PAYLOAD <= 512 ->
  (if SR then len PAYLOAD < 256 else True) ->
  (if IL then len ID < 256 else ID = []) ->
  (1 <= k < length octets)%nat ->
  exists msg,
    (_decode utf16 (__init__ (take k octets)) out).1.1 = Raise (NDEFdecodeError msg)
    /\ String.prefix "buffer underflow at reading " msg = true.
Proof.
  intros TNF SR IL octets Htnf Hinv _ Hmax _ Hid Hk.
  set (fields := length_fields SR IL TYPE PAYLOAD ID) in *.
  set (body := TYPE ++ ID ++ PAYLOAD) in *.
  destruct (length_fields_unpacked SR IL TYPE PAYLOAD ID Hmax) as [Hsize Hunpack].
  fold fields in Hsize, Hunpack.
  destruct k as [|j]; [lia|].
  assert (Hj : (j < length fields + length body)%nat).
  { unfold octets in Hk. cbn [length] in Hk. rewrite length_app in Hk. lia. }
  change (take (S j) octets) with (octet0 :: take j (fields ++ body)).
  set (cut := octet0 :: take j (fields ++ body)).
  set (s1 := {| BytesIO.buf := cut; BytesIO.pos := 1 |}).
  assert (Hr1 : BytesIO.read (BytesIO.new cut) 1 = ([octet0], s1)) by reflexivity.
  assert (Hrem1 : remaining s1 = take j (fields ++ body)) by reflexivity.
  unfold _decode. cbn [__init__ _data]. rewrite Hr1. cbn [ord]. fold TNF SR IL.
  destruct (Z.eqb_spec TNF 7); [done|].
  cbn [with_header with_data _data MAX_PAYLOAD_SIZE].
  destruct (decide (j < length fields)%nat) as [Hshort|Hlong].
  - destruct (BytesIO.read s1 (struct.calcsize (structfmt SR IL))) as [data s2] eqn:Hr2.
    apply read_taken in Hr2 as [Hdata _]; [|rewrite <- Hsize; apply len_nonneg].
    assert (Hlen : len data <> struct.calcsize (structfmt SR IL)).
    { rewrite Hdata, Hrem1, <- Hsize. unfold len.
      rewrite !length_take, length_app. lia. }
    unfold struct.unpack.
    destruct (Z.eqb_spec (len data) (struct.calcsize (structfmt SR IL))); [done|].
    cbn [negb fst]. eexists. split; reflexivity.
  - assert (Hcut : take j (fields ++ body) = fields ++ take (j - length fields) body).
    { rewrite take_app_ge by lia. reflexivity. }
    rewrite Hcut in Hrem1.
    set (body' := take (j - length fields) body) in *.
    assert (Hbody' : (length body' < length TYPE + length ID + length PAYLOAD)%nat).
    { unfold body', body in *. rewrite length_take. rewrite !length_app in *. lia. }
    destruct (read_chunk s1 fields body' Hrem1) as [Hr2 Hrem2].
    rewrite Hsize in Hr2. cbv zeta in Hr2, Hrem2. rewrite Hr2, Hunpack.
    assert (Hfields : exists more,
              ([len TYPE; len PAYLOAD] ++ (if IL then [len ID] else [])) ++ [0]
              = len TYPE :: len PAYLOAD :: len ID :: more).
    { destruct IL; [exists [0]; reflexivity|]. rewrite Hid. exists []. reflexivity. }
    destruct Hfields as [more ->].
    rewrite (check_fields_satisfied _ _ _ _ Hinv).
    change (MAX_PAYLOAD_SIZE (__init__ cut)) with 512.
    destruct (Z.gtb_spec (len PAYLOAD) 512); [lia|].
    destruct (BytesIO.read _ (len TYPE)) as [TYPE' s3] eqn:Hr3.
    apply read_taken in Hr3 as [HT Hrem3]; [|apply len_nonneg].
    destruct (BytesIO.read s3 (len ID)) as [ID' s4] eqn:Hr4.
    apply read_taken in Hr4 as [HI Hrem4]; [|apply len_nonneg].
    destruct (BytesIO.read s4 (len PAYLOAD)) as [PAYLOAD' s5] eqn:Hr5.
    apply read_taken in Hr5 as [HP _]; [|apply len_nonneg].
    rewrite Hrem2 in HT, Hrem3. rewrite Hrem3 in HI, Hrem4. rewrite Hrem4 in HP.
    unfold len in HT, HI, HP. rewrite Nat2Z.id in HT, HI, HP.
    assert (Hmiss : len TYPE <> len TYPE' \/ len ID <> len ID'
                    \/ len PAYLOAD <> len PAYLOAD').
    { unfold len. rewrite HT, HI, HP. rewrite !length_take, !length_drop. lia. }
    unfold check_read.
    destruct (Z.eqb_spec (len TYPE) (len TYPE')) as [HeT|_];
      [|cbn [negb fst]; eexists; split; reflexivity].
    destruct (Z.eqb_spec (len ID) (len ID')) as [HeI|_];
      [|cbn [negb fst]; eexists; split; reflexivity].
    destruct (Z.eqb_spec (len PAYLOAD) (len PAYLOAD')) as [HeP|_];
      [|cbn [negb fst]; eexists; split; reflexivity].
    exfalso. destruct Hmiss as [?|[?|?]]; done.
Qed.

Lemma record_cut_short_witness :
  exists msg,
    (_decode Codec.utf8 (__init__ [0xD1; 0x01; 0x05; 0x55; 0x01; 0x61]) []).1.1
    = Raise (NDEFdecodeError msg)
    /\ String.prefix "buffer underflow at reading " msg = true.
Proof.
  apply (record_cut_short Codec.utf8 0xD1 [0x55] [] (0x01 :: str_of_string "a.io") [] 6).
  - vm_compute. discriminate.
  - unfold satisfies_invariants. change (Z.land 209 7) with 1.
    rewrite tnf_056, tnf_1234. vm_compute. intuition (discriminate || lia).
  - vm_compute. reflexivity.
  - vm_compute. discriminate.
  - vm_compute. reflexivity.
  - reflexivity.
  - vm_compute. lia.
Defined.

(** X19: how [_decode] chooses the record class from the fields it read,
    for a payload of 1 to 512 bytes.  A well-known type (format 1) with
    the type "T" goes to the text decoder and with the type "U" to the
    URI decoder, and the record they build is what [_decode] returns,
    with the flags, printing nothing.  With the formats 0, 5 and 6 the
    TYPE bytes are not looked at and the string "?" is returned in the
    place of a record. *)
Theorem record_classes utf16 self out TNF (TYPE PAYLOAD : list Z) MB ME CF :
  1 <= len PAYLOAD <= 512 ->
  (TNF = 1 -> TYPE = [0x54] ->
     decode_fields utf16 self out TNF TYPE PAYLOAD MB ME CF
     = (let* r := NDEFTextRecord._decode_payload utf16 PAYLOAD in
        Ok (Some (Text r), MB, ME, CF), self, out))
  /\ (TNF = 1 -> TYPE = [0x55] ->
        decode_fields utf16 self out TNF TYPE PAYLOAD MB ME CF
        = (let* r := MicroUri._decode_payload PAYLOAD in
           Ok (Some (Uri r), MB, ME, CF), self, out))
  /\ (TNF = 0 \/ TNF = 5 \/ TNF = 6 ->
        decode_fields utf16 self out TNF TYPE PAYLOAD MB ME CF
        = (Ok (Some Unknown, MB, ME, CF), self, out)).
Proof.
  intros Hlen.
  assert (Hshort : (len PAYLOAD <? 1) = false) by (apply Z.ltb_ge; lia).
  assert (Hlong : (len PAYLOAD >? 512) = false).
  { destruct (Z.gtb_spec (len PAYLOAD) 512); [lia|reflexivity]. }
  split; [|split].
  - intros -> ->. unfold decode_fields.
    change (_decode_type 1 [84]) with (@Ok str NDEFTextRecord._type).
    unfold dispatch. change (lookup_type NDEFTextRecord._type) with (Some TextCls).
    cbn [min_payload_length max_payload_length].
    unfold NDEFTextRecord._decode_min_payload_length,
      NDEFTextRecord._decode_max_payload_length.
    rewrite Hshort, Hlong. unfold _decode_payload.
    destruct (NDEFTextRecord._decode_payload utf16 PAYLOAD); reflexivity.
  - intros -> ->. apply decode_fields_uri. exact Hlen.
  - intros Htnf. unfold decode_fields.
    destruct Htnf as [-> | [-> | ->]]; reflexivity.
Qed.

Lemma record_classes_witness :
  decode_fields Codec.utf8 (__init__ []) [] 1 [0x55] (0x01 :: str_of_string "a.io")
    true true false
  = (Ok (Some (Uri {| MicroUri._url := str_of_string "http://www.a.io" |}),
         true, true, false), __init__ [], []).
Proof.
  rewrite (proj1 (proj2 (record_classes Codec.utf8 (__init__ []) [] 1 [0x55]
                           (0x01 :: str_of_string "a.io") true true false
                           ltac:(vm_compute; split; discriminate)))
             eq_refl eq_refl).
  reflexivity.
Defined.

(** X17: the end of the data.  On a stream with nothing left to read,
    [_decode] raises [TypeError] (the [ord] of the empty read), which is
    the error that the record loop of [read_nfc_records] waits for; and
    whatever [_decode] returns holds a record or the string "?": the tuple
    [(None, False, False, False)] of its [IndexError] handler is never
    returned. *)
Theorem decode_at_end utf16 self out :
  (remaining (_data self) = [] ->
     (_decode utf16 self out).1.1 = Raise (TypeError "ord() expected a character"))
  /\ (forall r MB ME CF, (_decode utf16 self out).1.1 = Ok (r, MB, ME, CF) -> r <> None).
Proof.
  split.
  - intros Hrem. unfold _decode. rewrite read_one, Hrem. reflexivity.
  - intros r MB ME CF. unfold _decode. rewrite read_one.
    destruct (remaining (_data self)) as [|octet0 more]; [discriminate|].
    cbn [ord]. unfold dispatch, bind.
    repeat case_match; cbn [fst]; intros ?; simplify_eq; discriminate.
Qed.

Lemma decode_at_end_witness :
  (_decode Codec.utf8 (__init__ []) []).1.1 = Raise (TypeError "ord() expected a character").
Proof. apply (proj1 (decode_at_end Codec.utf8 (__init__ []) [])). reflexivity. Defined.

End RecordLayout.

(** ** [nfctag/utag.py]: blocks, sectors and trailers *)

Section TagSectors.
Import NFCTag.

(** X20: [is_st] holds exactly for the sector trailers of a 1k tag: the
    block numbers [4 * s + 3] of the sectors [s] in [0..15].  Numbers
    below 0 or above 63 are no trailers. *)
Theorem is_st_trailers n :
  is_st n = true <-> exists s, 0 <= s < 16 /\ n = s * _bps + (_bps - 1).
Proof.
  unfold is_st, range, _bps. change ((64 - 3 + 4 - 1) / 4) with 16.
  rewrite bool_decide_eq_true, list_elem_of_fmap. split.
  - intros (k & -> & Hk%elem_of_seqZ). exists k. lia.
  - intros (s & Hs & ->). exists s. split; [lia|]. apply elem_of_seqZ. lia.
Qed.

Lemma is_st_trailers_witness : is_st 63 = true /\ is_st 60 = false.
Proof.
  split.
  - apply (proj2 (is_st_trailers 63)). exists 15. vm_compute. repeat split; discriminate.
  - destruct (is_st 60) eqn:H; [|reflexivity].
    apply (proj1 (is_st_trailers 60)) in H as (s & Hs & Heq).
    unfold _bps in Heq. lia.
Defined.

Lemma block_bytes self number :
  len (_memory self) = 1024 -> 0 <= number < 64 ->
  block self number = Ok (slice (_memory self) (16 * number) (16 * number + 16))
  /\ len (slice (_memory self) (16 * number) (16 * number + 16)) = 16.
Proof.
  intros Hm Hn. unfold block. rewrite blocks_window by done. cbn [bind].
  split; [reflexivity|]. apply (view_length self number Hm Hn).
Qed.

Lemma range_unit start n :
  0 <= n -> range start (start + n) 1 = (fun k => start + k) <$> seqZ 0 n.
Proof.
  intros Hn. unfold range.
  replace ((start + n - start + 1 - 1) / 1) with n by (rewrite Z.div_1_r; lia).
  apply list_fmap_ext. intros _ k _. lia.
Qed.

Lemma slices_adjacent {A} (l : list A) a n m :
  0 <= a -> 0 <= n -> 0 <= m ->
  slice l a (a + n) ++ slice l (a + n) (a + n + m) = slice l a (a + n + m).
Proof.
  intros Ha Hn Hm. rewrite !slice_nonneg by lia.
  replace (a + n - a) with n by lia.
  replace (a + n + m - (a + n)) with m by lia.
  replace (a + n + m - a) with (n + m) by lia.
  replace (Z.to_nat (a + n)) with (Z.to_nat a + Z.to_nat n)%nat by lia.
  rewrite <- drop_drop, take_take_drop. f_equal. lia.
Qed.

Lemma sector_items self number :
  len (_memory self) = 1024 -> 0 <= number < 16 ->
  sector self number
  = Ok [(4 * number, slice (_memory self) (16 * (4 * number)) (16 * (4 * number) + 16));
        (4 * number + 1,
         slice (_memory self) (16 * (4 * number + 1)) (16 * (4 * number + 1) + 16));
        (4 * number + 2,
         slice (_memory self) (16 * (4 * number + 2)) (16 * (4 * number + 2) + 16));
        (4 * number + 3,
         slice (_memory self) (16 * (4 * number + 3)) (16 * (4 * number + 3) + 16))].
Proof.
  intros Hm Hn. unfold sector.
  assert (Hs : _sectors number
               = Ok [(16 * (4 * number), 16 * (4 * number) + 16);
                     (16 * (4 * number + 1), 16 * (4 * number + 1) + 16);
                     (16 * (4 * number + 2), 16 * (4 * number + 2) + 16);
                     (16 * (4 * number + 3), 16 * (4 * number + 3) + 16)]).
  { unfold _sectors, _nsectors, _bps.
    destruct (Z.leb_spec 0 number); [|lia].
    destruct (Z.ltb_spec number 16); [|lia]. cbn [andb].
    rewrite range_unit by lia.
    change (seqZ 0 4) with [0; 1; 2; 3]. cbn [fmap list_fmap for_each].
    rewrite !blocks_window by lia.
    replace (number * 4 + 0) with (4 * number) by lia.
    replace (number * 4 + 1) with (4 * number + 1) by lia.
    replace (number * 4 + 2) with (4 * number + 2) by lia.
    replace (number * 4 + 3) with (4 * number + 3) by lia.
    reflexivity. }
  change (range 0 _bps 1) with [0; 1; 2; 3]. cbn [for_each].
  rewrite Hs. cbn [bind getitem norm_index Z.ltb Z.compare orb len length
                     Z.of_nat Pos.of_succ_nat Pos.succ Z.leb Pos.compare
                     Pos.compare_cont Z.to_nat Pos.to_nat Pos.iter_op Nat.add
                     lookup list_lookup].
  unfold _bps, view. cbn [fst snd].
  replace (number * 4 + 0) with (4 * number) by lia.
  replace (number * 4 + 1) with (4 * number + 1) by lia.
  replace (number * 4 + 2) with (4 * number + 2) by lia.
  replace (number * 4 + 3) with (4 * number + 3) by lia.
  reflexivity.
Qed.

(** X21: [sector(number)] of a tag with a 1024-byte image.  For a sector
    number in [0..15] the dict that it returns has four items: its keys
    are the block numbers [4 * number] to [4 * number + 3], and the value
    of each key is what [block] returns for it, the 16 bytes of the image
    from [16 * key] on.  Any other sector number raises [KeyError]. *)
Theorem sector_blocks self number :
  len (_memory self) = 1024 ->
  (0 <= number < 16 ->
     exists items,
       sector self number = Ok items
       /\ length items = 4%nat
       /\ forall k b,
            (k, b) ∈ items <->
            4 * number <= k <= 4 * number + 3
            /\ block self k = Ok b
            /\ b = slice (_memory self) (16 * k) (16 * k + 16)
            /\ len b = 16)
  /\ (number < 0 \/ 16 <= number -> sector self number = Raise KeyError).
Proof.
  intros Hm. split.
  - intros Hn. eexists. split; [apply sector_items; done|]. split; [reflexivity|].
    intros k b. rewrite !elem_of_cons, elem_of_nil. split.
    + intros [H|[H|[H|[H|[]]]]]; injection H as -> ->;
        (split; [lia|]);
        match goal with
        | |- block _ ?k = _ /\ _ =>
            destruct (block_bytes self k Hm ltac:(lia)) as [Hb Hl]
        end; done.
    + intros (Hk & Hb & -> & _).
      assert (k = 4 * number \/ k = 4 * number + 1 \/ k = 4 * number + 2
              \/ k = 4 * number + 3) as [->|[->|[->| ->]]] by lia; tauto.
  - intros Hn. unfold sector. change (range 0 _bps 1) with [0; 1; 2; 3].
    cbn [for_each]. unfold _sectors, _nsectors.
    destruct (Z.leb_spec 0 number); destruct (Z.ltb_spec number 16);
      try lia; reflexivity.
Qed.

Lemma sector_blocks_witness :
  sector fresh_tag 16 = Raise KeyError.
Proof.
  apply (proj2 (sector_blocks fresh_tag 16 eq_refl)). right. lia.
Defined.

(** X28: the bounds of [get_block].  A block number above 63 raises
    [IndexError] before the device is asked; a negative one raises
    [KeyError], whatever the device answers, since no block has such a
    key; and on a tag without a device, with a 1024-byte image, a number
    in [0..63] gives the 16 cached bytes of the block and leaves the tag
    as it is. *)
Theorem get_block_bounds self number :
  (63 < number -> get_block self number = Raise IndexError)
  /\ (number < 0 -> get_block self number = Raise KeyError)
  /\ (0 <= number < 64 -> _device self = None -> len (_memory self) = 1024 ->
        get_block self number
        = Ok (slice (_memory self) (16 * number) (16 * number + 16), self)
        /\ len (slice (_memory self) (16 * number) (16 * number + 16)) = 16).
Proof.
  split; [|split].
  - intros Hn. unfold get_block, _nblocks.
    destruct (Z.gtb_spec number (64 - 1)); [reflexivity|lia].
  - intros Hn. unfold get_block, _nblocks.
    destruct (Z.gtb_spec number (64 - 1)); [lia|].
    assert (Hkey : _blocks number = Raise KeyError).
    { unfold _blocks. destruct (Z.leb_spec 0 number); [lia|]. reflexivity. }
    assert (Hblock : forall tag, block tag number = Raise KeyError).
    { intros tag. unfold block. rewrite Hkey. reflexivity. }
    destruct (_device self) as [device|]; cbn [bind]; [|rewrite Hblock; reflexivity].
    destruct (read_mifare_classic device number) as [block_data|]; cbn [bind];
      [|rewrite Hblock; reflexivity].
    destruct (negb _ && _); [rewrite Hkey; reflexivity|].
    cbn [bind]. rewrite Hblock. reflexivity.
  - intros Hn Hdev Hm. unfold get_block, _nblocks.
    destruct (Z.gtb_spec number (64 - 1)); [lia|]. rewrite Hdev. cbn [bind].
    destruct (block_bytes self number Hm Hn) as [-> Hl]. split; [reflexivity|exact Hl].
Qed.

Lemma get_block_bounds_witness :
  get_block fresh_tag 64 = Raise IndexError /\ get_block fresh_tag (-1) = Raise KeyError.
Proof.
  split.
  - apply (proj1 (get_block_bounds fresh_tag 64)). lia.
  - apply (proj1 (proj2 (get_block_bounds fresh_tag (-1)))). lia.
Defined.

End TagSectors.

(** ** [nfctag/utag.py]: TLV blocks that are found *)

Section TlvBlocks.
Import NFCTag.

Lemma first_at_middle b (before tail : list Z) :
  b ∉ before -> first_at b (before ++ b :: tail) (length before).
Proof.
  intros Hfree. split.
  - rewrite lookup_app_r by lia. rewrite Nat.sub_diag. reflexivity.
  - intros j Hj Hb. rewrite lookup_app_l in Hb by lia.
    apply Hfree. eapply list_elem_of_lookup_2. exact Hb.
Qed.

Lemma first_at_split b (l : list Z) i :
  first_at b l i -> l = take i l ++ b :: drop (S i) l /\ b ∉ take i l.
Proof.
  intros [Hi Hfirst]. split.
  - symmetry. apply take_drop_middle. exact Hi.
  - intros Hin. apply list_elem_of_lookup_1 in Hin as [j Hj].
    pose proof (lookup_lt_Some _ _ _ Hj) as Hlt. rewrite length_take in Hlt.
    rewrite lookup_take_lt in Hj by lia. exact (Hfirst j ltac:(lia) Hj).
Qed.

(** X22: the TLV blocks that [find_tlvblock] accepts in a bytes object.
    It returns [payload] exactly when the bytes are: something without
    the bytes [03] and [FE], then the tag [03], the length [n] of the
    payload, the payload, and the terminator [FE], where neither [n] nor
    any byte of the payload is [FE].  The terminator is looked up as the
    first [FE] of the whole object, so that a block of 254 bytes and a
    payload that holds the byte [FE] are refused. *)
Theorem find_tlvblock_bytes_exact datablock payload :
  Forall is_byte datablock ->
  find_tlvblock_bytes datablock = Ok payload <->
  exists before n rest,
    datablock = before ++ [0x03; n] ++ payload ++ 0xFE :: rest
    /\ (0x03 ∉ before) /\ (0xFE ∉ before)
    /\ n <> 0xFE /\ (0xFE ∉ payload) /\ len payload = n.
Proof.
  intros Hbytes. split.
  - intros Hfound.
    destruct (find_tlvblock_bytes_ok datablock payload Hbytes Hfound)
      as (i & n & Htag & Hn & Hpayload & Hlen & _ & Hend).
    destruct (first_at_split _ _ _ Htag) as [Hsplit Hfree].
    destruct (first_at_split _ _ _ Hend) as [Hsplit' Hfree'].
    assert (Hnn : 0 <= n) by (rewrite <- Hlen; apply len_nonneg).
    assert (Hprefix : take (S (S i) + Z.to_nat n) datablock
                      = take i datablock ++ [3; n] ++ payload).
    { rewrite <- (take_drop i datablock) at 1.
      rewrite take_app_ge by (rewrite length_take; lia).
      rewrite length_take.
      pose proof (lookup_lt_Some _ _ _ (proj1 Htag)) as Hlt.
      rewrite Nat.min_l by lia. f_equal.
      replace (S (S i) + Z.to_nat n - i)%nat with (S (S (Z.to_nat n))) by lia.
      rewrite (drop_S _ 3 i (proj1 Htag)), (drop_S _ n (S i) Hn).
      cbn [take app]. rewrite Hpayload. reflexivity. }
    exists (take i datablock), n, (drop (S (S (S i) + Z.to_nat n)) datablock).
    split.
    { rewrite Hsplit' at 1. rewrite Hprefix. rewrite <- !app_assoc. reflexivity. }
    rewrite Hprefix in Hfree'.
    rewrite !not_elem_of_app, !not_elem_of_cons in Hfree'.
    destruct Hfree' as (Hb & (_ & Hne & _) & Hp).
    repeat split; done.
  - intros (before & n & rest & -> & H3 & Hfe & Hn & Hp & <-).
    pose proof (len_nonneg before) as Hbn. pose proof (len_nonneg payload) as Hpn.
    set (n := len payload) in *.
    assert (Hregroup : before ++ [3; n] ++ payload ++ 254 :: rest
                       = (before ++ [3; n] ++ payload) ++ 254 :: rest)
      by (rewrite <- !app_assoc; reflexivity).
    unfold find_tlvblock_bytes.
    assert (Hstart : index (before ++ [3; n] ++ payload ++ 254 :: rest) 3 = Ok (len before)).
    { apply index_found. exists (length before). split; [reflexivity|].
      apply (first_at_middle 3 before). exact H3. }
    assert (Hstop : index (before ++ [3; n] ++ payload ++ 254 :: rest) 254
                    = Ok (len before + 2 + len payload)).
    { apply index_found. exists (length (before ++ [3; n] ++ payload)).
      split; [len_tac|]. rewrite Hregroup. apply first_at_middle.
      rewrite !not_elem_of_app, !not_elem_of_cons. repeat split; try done.
      apply not_elem_of_nil. }
    rewrite Hstart, Hstop. cbn [bind].
    rewrite (getitem_nonneg _ _ n).
    2: lia.
    2:{ replace (Z.to_nat (len before + 1)) with (length before + 1)%nat by len_tac.
        rewrite lookup_app_r by lia.
        replace (length before + 1 - length before)%nat with 1%nat by lia. reflexivity. }
    cbn [bind].
    destruct (Z.eqb_spec (len before + 1 + 1 + n)
                (len before + 2 + len payload)) as [_|]; [|unfold n in *; lia].
    cbn [negb].
    rewrite (getitem_nonneg _ _ 254).
    2: unfold n; lia.
    2:{ rewrite Hregroup.
        apply (list_lookup_middle (before ++ [3; n] ++ payload) rest 254).
        unfold n. len_tac. }
    cbn [bind]. unfold _NDEF_Terminator_int. cbn [Z.eqb Pos.eqb negb].
    f_equal. rewrite slice_nonneg by (unfold n; lia).
    replace (Z.to_nat (len before + 1 + 1)) with (length before + 2)%nat by len_tac.
    rewrite drop_app_add' by reflexivity. cbn [app drop].
    replace (Z.to_nat (len before + 1 + 1 + n - (len before + 1 + 1)))
      with (length payload) by (unfold n; len_tac).
    apply take_app_length.
Qed.

Lemma find_tlvblock_bytes_exact_witness :
  find_tlvblock_bytes [0x00; 0x03; 0x02; 0xAA; 0xBB; 0xFE; 0x00] = Ok [0xAA; 0xBB].
Proof.
  apply (proj2 (find_tlvblock_bytes_exact [0x00; 0x03; 0x02; 0xAA; 0xBB; 0xFE; 0x00]
                  [0xAA; 0xBB]
                  (bytes_check [0x00; 0x03; 0x02; 0xAA; 0xBB; 0xFE; 0x00] eq_refl))).
  exists [0x00], 2, [0x00]. split; [reflexivity|].
  rewrite !not_elem_of_cons.
  repeat split; try discriminate; try apply not_elem_of_nil.
Defined.

(** X23: a TLV block in a stream is found.  When the stream holds, after
    bytes without the tag [03], the tag, the length of the payload (as one
    byte below [FF], or as [FF] and two bytes with the high byte first),
    the payload and the terminator [FE], and the payload fits
    [_payload_buff], [find_tlvblock] returns the length of the payload
    within [length before + 1] rounds of its loop, with the payload at the
    start of [_payload_buff] and the stream in front of what follows the
    terminator.  Unlike in a bytes object, the payload may hold any
    byte. *)
Theorem find_tlvblock_stream_finds self s before header payload rest fuel :
  BytesIO.buf s = before ++ 0x03 :: header ++ payload ++ 0xFE :: rest ->
  0x03 ∉ before ->
  (length before < fuel)%nat ->
  len payload <= len (_payload_buff self) ->
  (header = [len payload] /\ len payload < 0xFF)
  \/ (exists hi lo, header = [0xFF; hi; lo] /\ struct.be_value [hi; lo] = len payload) ->
  exists self' s',
    find_tlvblock_stream fuel self s = Some (Ok (len payload), self', s')
    /\ _payload_buff self' = payload ++ drop (length payload) (_payload_buff self)
    /\ remaining s' = rest.
Proof.
  intros Hbuf Hfree Hfuel Hfit Hheader.
  pose proof (len_nonneg payload) as Hnn.
  unfold find_tlvblock_stream.
  destruct (scan_tlv_finds_tag self before fuel (BytesIO.seek s 0)
              (header ++ payload ++ 0xFE :: rest)) as (s0 & -> & Hrem0); [|done|done|].
  { unfold remaining, BytesIO.seek. cbn [BytesIO.pos BytesIO.buf drop]. exact Hbuf. }
  assert (Hbody : forall s1, remaining s1 = payload ++ 0xFE :: rest ->
            exists self' s',
              (let '(buff, _, datablock) :=
                 BytesIO.readinto s1 (_payload_buff self) (len payload) in
               let self := with_payload_buff self buff in
               let '(ender, datablock) := BytesIO.read datablock 1 in
               if negb (bool_decide (ender = _NDEF_Terminator)) then
                 (Raise (AssertionError "Block ender missmatch"), self, datablock)
               else (Ok (len payload), self, datablock))
              = (Ok (len payload), self', s')
              /\ _payload_buff self' = payload ++ drop (length payload) (_payload_buff self)
              /\ remaining s' = rest).
  { intros s1 Hrem1. unfold BytesIO.readinto.
    rewrite Z.min_l by lia. rewrite Z.max_l by lia.
    destruct (read_chunk s1 payload (0xFE :: rest) Hrem1) as [Hr Hrem2].
    cbv zeta in Hr, Hrem2. rewrite Hr.
    destruct (read_chunk _ [0xFE] rest Hrem2) as [Hr' Hrem3].
    cbv zeta in Hr', Hrem3. change (len [254]) with 1 in Hr'. rewrite Hr'.
    rewrite bool_decide_eq_true_2 by reflexivity. cbn [negb].
    eexists _, _. split; [reflexivity|]. split; [reflexivity|exact Hrem3]. }
  unfold read_tlv.
  destruct Hheader as [[-> Hshort] | (hi & lo & -> & Hvalue)].
  - destruct (read_chunk s0 [len payload] (payload ++ 0xFE :: rest) Hrem0) as [Hr Hrem1].
    cbv zeta in Hr, Hrem1. change (len [len payload]) with 1 in Hr. rewrite Hr.
    cbn [ord]. destruct (Z.ltb_spec (len payload) 255); [|lia]. cbv beta iota.
    destruct (Hbody _ Hrem1) as (self' & s' & Heq & Hres).
    exists self', s'. split; [f_equal; exact Heq|exact Hres].
  - destruct (read_chunk s0 [0xFF] ([hi; lo] ++ payload ++ 0xFE :: rest) Hrem0)
      as [Hr Hrem1].
    cbv zeta in Hr, Hrem1. change (len [255]) with 1 in Hr. rewrite Hr.
    cbn [ord]. change (255 <? 255) with false. cbn iota.
    destruct (read_chunk _ [hi; lo] (payload ++ 0xFE :: rest) Hrem1) as [Hr2 Hrem2].
    cbv zeta in Hr2, Hrem2. change (len [hi; lo]) with 2 in Hr2. rewrite Hr2.
    change (struct.unpack struct.Big [struct.H] [hi; lo])
      with (@Ok (list Z) [struct.be_value [hi; lo]]).
    cbv beta iota. rewrite Hvalue.
    destruct (Hbody _ Hrem2) as (self' & s' & Heq & Hres).
    exists self', s'. split; [f_equal; exact Heq|exact Hres].
Qed.

Lemma find_tlvblock_stream_finds_witness :
  exists self' s',
    find_tlvblock_stream 2 fresh_tag (BytesIO.new [0x00; 0x03; 0x02; 0xFE; 0x03; 0xFE])
      = Some (Ok 2, self', s')
    /\ remaining s' = [].
Proof.
  destruct (find_tlvblock_stream_finds fresh_tag
              (BytesIO.new [0x00; 0x03; 0x02; 0xFE; 0x03; 0xFE])
              [0x00] [0x02] [0xFE; 0x03] [] 2 eq_refl)
    as (self' & s' & Hfound & _ & Hrem).
  - rewrite not_elem_of_cons. split; [discriminate|apply not_elem_of_nil].
  - cbn [length]. lia.
  - vm_compute. discriminate.
  - left. split; [reflexivity|reflexivity].
  - exists self', s'. split; assumption.
Defined.

End TlvBlocks.

(** ** [nfctag/utag.py]: the directory and the written sectors *)

Section WrittenSectors.
Import NFCTag.

Variable native : struct.byteorder.

Lemma slice_slice {A} (l : list A) a b c d :
  0 <= a <= b -> 0 <= c <= d -> d <= b - a ->
  slice (slice l a b) c d = slice l (a + c) (a + d).
Proof.
  intros Hab Hcd Hd. rewrite !slice_nonneg by lia.
  replace (a + d - (a + c)) with (d - c) by lia.
  apply list_eq. intros i. rewrite !lookup_take, !lookup_drop.
  destruct (decide (i < Z.to_nat (d - c))%nat); [|reflexivity].
  rewrite lookup_take_lt by lia. rewrite lookup_drop. f_equal. lia.
Qed.

Lemma get_nfc_sectors_again (mad : MAD1.T) :
  MAD1._get_nfc_sectors native (MAD1._get_nfc_sectors native mad)
  = MAD1._get_nfc_sectors native mad.
Proof. reflexivity. Qed.

(** Looking at [NFCSectors] a second time gives the same list and leaves
    the directory object as it is. *)
Lemma nfc_sectors_again (mad : MAD1.T) :
  MAD1.NFCSectors native (MAD1.NFCSectors native mad).2
  = MAD1.NFCSectors native mad.
Proof.
  unfold MAD1.NFCSectors.
  destruct (bool_decide_reflect (MAD1._aids mad = [])) as [Hnil|Hne]; cbn [snd].
  - rewrite bool_decide_eq_true_2 by exact Hnil. reflexivity.
  - change (MAD1._aids (MAD1._get_nfc_sectors native mad)) with (MAD1._aids mad).
    rewrite bool_decide_eq_false_2 by exact Hne. reflexivity.
Qed.

Lemma nfc_only_filter wr_sectors :
  forall mad,
    (nfc_only native mad wr_sectors).1
    = filter (fun s => s ∈ (MAD1.NFCSectors native mad).1) wr_sectors.
Proof.
  induction wr_sectors as [|sec wr IH]; intros mad; [reflexivity|].
  cbn [nfc_only].
  destruct (MAD1.NFCSectors native mad) as [nfc mad1] eqn:Hnfc.
  specialize (IH mad1).
  assert (Hagain : MAD1.NFCSectors native mad1 = (nfc, mad1)).
  { pose proof (nfc_sectors_again mad) as H. rewrite Hnfc in H. exact H. }
  rewrite Hagain in IH. cbn [fst] in IH.
  destruct (nfc_only native mad1 wr) as [kept mad2]. cbn [fst] in *. subst kept.
  destruct (bool_decide_reflect (sec ∈ nfc)) as [Hin|Hout].
  - rewrite filter_cons_True by exact Hin. reflexivity.
  - rewrite filter_cons_False by exact Hout. reflexivity.
Qed.

Lemma wr_sectors_loop_cached stop self sectors :
  len (_memory self) = 1024 ->
  Forall (fun s => 0 <= s < 16) sectors ->
  forall wr,
    wr_sectors_loop stop true self ((fun s => 4 * s) <$> sectors) wr
    = Ok (wr ++ (if stop then leading (written self) sectors
                 else filter (fun s => written self s = true) sectors),
          self).
Proof.
  intros Hm. induction 1 as [|s sectors Hs _ IH]; intros wr.
  - cbn [fmap list_fmap wr_sectors_loop]. destruct stop; cbn [leading];
      rewrite ?filter_nil, app_nil_r; reflexivity.
  - cbn [fmap list_fmap wr_sectors_loop].
    destruct (block_bytes self (4 * s) Hm ltac:(lia)) as [-> _]. cbn [bind].
    replace (16 * (4 * s)) with (64 * s) by lia.
    unfold _bps. replace (4 * s / 4) with s by (rewrite Z.mul_comm, Z.div_mul; lia).
    fold (written self s).
    destruct (written self s) eqn:Hw.
    + rewrite IH. rewrite <- app_assoc. cbn [app leading]. rewrite Hw.
      rewrite filter_cons_True by exact Hw. destruct stop; reflexivity.
    + cbn [leading]. rewrite Hw. destruct stop; [rewrite app_nil_r; reflexivity|].
      rewrite IH. rewrite filter_cons_False by (rewrite Hw; discriminate). reflexivity.
Qed.

(** X24: [find_wr_sectors] on the cached image ([cache=True]) of a tag with
    1024 bytes.  It raises nothing.  Without [stop_at_first_empty] it
    finds the sectors of [1..15], in ascending order, whose first block
    [4 * s] does not add up to zero; with it, it finds those of them that
    come before the first sector whose first block adds up to zero.  With
    [nfcfilter] only the sectors found that [NFCSectors] of the directory
    lists are returned.  The list returned is stored in [_wr_sectors] of
    the tag, whose image, payload buffer and device stay as they are.
    Sector 0 is never returned, and the other blocks of a sector are not
    looked at. *)
Theorem find_wr_sectors_cached (nfcfilter stop : bool) self mad :
  len (_memory self) = 1024 ->
  let found :=
    if stop then leading (written self) (seqZ 1 15)
    else filter (fun s => written self s = true) (seqZ 1 15) in
  let listed :=
    if nfcfilter then filter (fun s => s ∈ (MAD1.NFCSectors native mad).1) found
    else found in
  exists mad',
    find_wr_sectors native nfcfilter stop true self mad
    = Ok (listed, with_wr_sectors self listed, mad').
Proof.
  intros Hm found listed. unfold find_wr_sectors.
  change (range _bps _nblocks _bps) with ((fun s => 4 * s) <$> seqZ 1 15).
  rewrite (wr_sectors_loop_cached stop self (seqZ 1 15) Hm).
  2:{ apply Forall_forall. intros s Hs%elem_of_seqZ. lia. }
  cbn [bind app]. fold found. unfold listed.
  destruct nfcfilter; [|exists mad; reflexivity].
  pose proof (nfc_only_filter found mad) as Hfilter.
  destruct (nfc_only native mad found) as [kept mad']. cbn [fst] in Hfilter.
  exists mad'. rewrite Hfilter. reflexivity.
Qed.

(** [set_mad_data] with at least the two leading bytes *)
Lemma set_mad_data_ok (self : MAD1.T) crc info (data : list Z) :
  MAD1.set_mad_data native self (crc :: info :: data)
  = Ok (MAD1._get_nfc_sectors native
          {| MAD1._mad := crc :: info :: data; MAD1._crc := crc;
             MAD1._info := info;
             MAD1._aids := MAD1.aids_of (crc :: info :: data);
             MAD1._nfc_sectors := MAD1._nfc_sectors self |}).
Proof.
  unfold MAD1.set_mad_data.
  rewrite (getitem_nonneg _ 0 crc) by (lia || reflexivity). cbn [bind].
  rewrite (getitem_nonneg _ 1 info) by (lia || reflexivity). reflexivity.
Qed.

(** X26: [set_mad_data] on a directory of any length.  With fewer than two
    bytes it raises [IndexError].  Otherwise it stores the first byte as
    the CRC and the second as the info byte, and the sectors that
    [NFCSectors] lists afterwards are numbers in [1..15] whose two AID
    bytes are both within the data: an entry that a short directory cuts
    off is never an NFC sector. *)
Theorem set_mad_data_bounds (self : MAD1.T) (data : list Z) :
  (len data < 2 -> MAD1.set_mad_data native self data = Raise IndexError)
  /\ (2 <= len data ->
        exists self' crc info,
          MAD1.set_mad_data native self data = Ok self'
          /\ data !! 0%nat = Some crc /\ data !! 1%nat = Some info
          /\ MAD1._crc self' = crc /\ MAD1._info self' = info
          /\ MAD1._mad self' = data
          /\ forall s, s ∈ (MAD1.NFCSectors native self').1 ->
                       1 <= s <= 15 /\ 2 * s + 2 <= len data).
Proof.
  split.
  - intros Hshort. unfold MAD1.set_mad_data.
    destruct data as [|crc [|info data]].
    + reflexivity.
    + cbn [getitem norm_index]. reflexivity.
    + exfalso. revert Hshort. len_tac.
  - intros Hlong. destruct data as [|crc [|info data]];
      [revert Hlong; len_tac|revert Hlong; len_tac|].
    pose proof (set_mad_data_ok self crc info data) as Hset.
    eexists _, crc, info. split; [exact Hset|].
    repeat (split; [reflexivity|]).
    intros s Hs. apply (nfc_sectors_after_set native _ _ _ Hset) in Hs as [Hrange Hcode].
    split; [exact Hrange|].
    destruct (Z.le_gt_cases (2 * s + 2) (len (crc :: info :: data))) as [|Hcut]; [done|].
    exfalso. unfold MAD1.aid_code, struct.unpack in Hcode.
    assert (Hlen : len (slice (crc :: info :: data) (2 * s) (2 * s + 2)) < 2).
    { rewrite slice_nonneg by lia. revert Hcut. len_tac. }
    pose proof (len_nonneg (slice (crc :: info :: data) (2 * s) (2 * s + 2))).
    destruct (Z.eqb_spec (len (slice (crc :: info :: data) (2 * s) (2 * s + 2)))
                (struct.calcsize [struct.H])) as [Heq|_].
    + change (struct.calcsize [struct.H]) with 2 in Heq. lia.
    + cbn [negb] in Hcode. discriminate.
Qed.

(** X27: [get_mad] reads the directory from the cached blocks 1 and 2.  On
    a tag with a 1024-byte image and a device, it sets the directory data
    to the 32 bytes of the image from byte 16 on, and afterwards
    [NFCSectors] lists the sectors [s] of [1..15] whose AID, the two
    bytes at [16 + 2 * s] of the image, unpacks to [0xE103]; nothing is
    read from the tag.  On a tag without a device it leaves the directory
    object as it is. *)
Theorem get_mad_cached self (mad : MAD1.T) :
  len (_memory self) = 1024 ->
  (_device self = None -> get_mad native self mad = Ok mad)
  /\ (_device self <> None ->
        exists mad',
          get_mad native self mad = Ok mad'
          /\ MAD1._mad mad' = slice (_memory self) 16 48
          /\ forall s,
               s ∈ (MAD1.NFCSectors native mad').1 <->
               1 <= s <= 15
               /\ MAD1.aid_code native
                    (slice (_memory self) (16 + 2 * s) (16 + 2 * s + 2))
                  = MAD1._MAD_AID_NFC).
Proof.
  intros Hm. split.
  - intros Hdev. unfold get_mad. rewrite Hdev. reflexivity.
  - intros Hdev. unfold get_mad.
    destruct (_device self) as [device|]; [|done].
    destruct (block_bytes self 1 Hm ltac:(lia)) as [-> Hl1].
    destruct (block_bytes self 2 Hm ltac:(lia)) as [-> Hl2].
    cbn [bind app].
    change (16 * 1) with 16 in *. change (16 * 2) with (16 + 16) in *.
    change (16 + 16 + 16) with (16 + 16 + 16) in *.
    rewrite (slices_adjacent (_memory self) 16 16 16) by lia.
    change (16 + 16 + 16) with 48.
    set (data := slice (_memory self) 16 48).
    assert (Hdata : len data = 32).
    { unfold data. rewrite slice_nonneg by lia. len_tac. }
    destruct data as [|crc [|info rest]] eqn:Hshape;
      [revert Hdata; len_tac|revert Hdata; len_tac|].
    pose proof (set_mad_data_ok mad crc info rest) as Hset.
    eexists. split; [exact Hset|]. split; [reflexivity|].
    intros s. rewrite (nfc_sectors_after_set native _ _ _ Hset s).
    split; intros [Hs Hcode]; (split; [exact Hs|]).
    + rewrite <- Hcode. f_equal. rewrite <- Hshape. unfold data.
      rewrite (slice_slice (_memory self) 16 48 (2 * s) (2 * s + 2)) by lia.
      f_equal; lia.
    + rewrite <- Hcode. f_equal. rewrite <- Hshape. unfold data.
      rewrite (slice_slice (_memory self) 16 48 (2 * s) (2 * s + 2)) by lia.
      f_equal; lia.
Qed.

End WrittenSectors.

Lemma find_wr_sectors_cached_witness :
  (exists mad',
     NFCTag.find_wr_sectors struct.Little false false true marked_tag blank_mad
     = Ok ([1; 3], NFCTag.with_wr_sectors marked_tag [1; 3], mad'))
  /\ (exists mad',
        NFCTag.find_wr_sectors struct.Little false true true marked_tag blank_mad
        = Ok ([1], NFCTag.with_wr_sectors marked_tag [1], mad')).
Proof.
  split.
  - destruct (find_wr_sectors_cached struct.Little false false marked_tag blank_mad eq_refl)
      as [mad' Hfound].
    exists mad'. rewrite Hfound. reflexivity.
  - destruct (find_wr_sectors_cached struct.Little false true marked_tag blank_mad eq_refl)
      as [mad' Hfound].
    exists mad'. rewrite Hfound. reflexivity.
Defined.

Lemma set_mad_data_bounds_witness :
  MAD1.set_mad_data struct.Little blank_mad [0x14] = Raise IndexError.
Proof.
  apply (proj1 (set_mad_data_bounds struct.Little blank_mad [0x14])).
  vm_compute. reflexivity.
Defined.

Lemma get_mad_cached_witness :
  exists mad',
    NFCTag.get_mad struct.Little fresh_tag blank_mad = Ok mad'
    /\ MAD1._mad mad' = slice (NFCTag._memory fresh_tag) 16 48.
Proof.
  destruct (proj2 (get_mad_cached struct.Little fresh_tag blank_mad eq_refl)
              ltac:(discriminate))
    as (mad' & Hget & Hmad & _).
  exists mad'. split; assumption.
Defined.

(** ** [nfctag/utag.py]: the record loop *)

Section RecordLoop.
Import NDEFBase NDEFRecord NFCTag.

Lemma read_shrinks s n data s' :
  BytesIO.read s n = (data, s') ->
  (length (remaining s') <= length (remaining s))%nat.
Proof.
  unfold BytesIO.read, remaining. intros H. injection H as _ <-.
  cbn [BytesIO.pos BytesIO.buf]. rewrite !length_drop. lia.
Qed.

(** A call of [_decode] that returns has read at least one byte. *)
Lemma decode_consumes utf16 self out r self' out' :
  _decode utf16 self out = (Ok r, self', out') ->
  (length (remaining (_data self')) < length (remaining (_data self)))%nat.
Proof.
  unfold _decode. rewrite read_one.
  destruct (remaining (_data self)) as [|octet0 more] eqn:Hrem; [discriminate|].
  pose proof (remaining_next _ _ _ Hrem) as Hnext.
  apply (f_equal length) in Hnext.
  cbn [ord]. unfold dispatch, bind.
  repeat case_match; intros ?; simplify_eq;
    cbn [_data with_data with_header] in *;
    repeat match goal with
           | H : BytesIO.read _ _ = _ |- _ => apply read_shrinks in H
           end;
    cbn [length]; lia.
Qed.

(** X25: the record loop of [read_nfc_records] ends.  Each record that
    [_decode] returns has used up at least one byte of the data, and at
    the end of the data [_decode] raises the [TypeError] that ends the
    loop; so within one round more than there are bytes left, the loop
    has either raised the error of a record that does not decode or
    ended with its dict of records, which holds the entries it started
    with and at most one more for every byte that was left. *)
Theorem decode_records_ends utf16 fuel :
  forall record out raw_records ri,
    (length (remaining (_data record)) < fuel)%nat ->
    exists outcome record' out',
      decode_records utf16 fuel record out raw_records ri = Some (outcome, record', out')
      /\ forall records,
            outcome = Ok records ->
            take (length raw_records) records = raw_records
            /\ (length records
                 <= length raw_records + length (remaining (_data record)))%nat.
Proof.
  induction fuel as [|fuel IH]; intros record out raw_records ri Hfuel; [lia|].
  cbn [decode_records].
  destruct (_decode utf16 record out) as [[outcome record1] out1] eqn:Hdecode.
  destruct outcome as [[[[r MB] ME] CF]|e].
  - pose proof (decode_consumes _ _ _ _ _ _ Hdecode) as Hless.
    destruct (IH record1 out1 (raw_records ++ [(format1 "r{}" (pretty ri), r)]) (ri + 1)
                ltac:(lia)) as (outcome & record' & out' & -> & Hrecords).
    exists outcome, record', out'. split; [reflexivity|].
    intros records Hok. destruct (Hrecords records Hok) as [Htake Hlen].
    rewrite length_app in Htake, Hlen. cbn [length] in Htake, Hlen. split; [|lia].
    replace (take (length raw_records) records)
      with (take (length raw_records) (take (length raw_records + 1) records))
      by (rewrite take_take; f_equal; lia).
    rewrite Htake. apply take_app_length.
  - assert (Hend : exists outcome,
               match e with
               | TypeError _ => Some (Ok raw_records, record1, out1)
               | _ => Some (Raise e, record1, out1)
               end = Some (outcome, record1, out1)
               /\ (forall records, outcome = Ok records -> records = raw_records)).
    { destruct e; eexists; (split; [reflexivity|]); intros records ?; simplify_eq;
        reflexivity. }
    destruct Hend as (outcome & Heq & Hrecords).
    exists outcome, record1, out1. split.
    + destruct e; exact Heq.
    + intros records Hok. rewrite (Hrecords records Hok).
      split; [apply firstn_all|lia].
Qed.

Lemma decode_records_ends_witness :
  exists outcome record' out',
    decode_records Codec.utf8 7
      (NDEFRecord.__init__ [0xD1; 0x01; 0x02; 0x55; 0x01; 0x61]) [] [] 0
    = Some (outcome, record', out').
Proof.
  destruct (decode_records_ends Codec.utf8 7
              (NDEFRecord.__init__ [0xD1; 0x01; 0x02; 0x55; 0x01; 0x61]) [] [] 0
              ltac:(vm_compute; lia))
    as (outcome & record' & out' & Hloop & _).
  exists outcome, record', out'. exact Hloop.
Defined.

(** X30: a URI written by [MicroUri._encode_payload] is read back by the
    record loop.  For an ASCII [uri] whose payload is shorter than 256
    bytes, the short well-known record of type "U" that carries the
    payload (first octet 0xD1: message begin, message end, short record,
    type name format 1) is decoded by the loop of [read_nfc_records]
    into one entry, "r0", which is the [MicroUri] of the same [uri]; the
    loop has then read every byte and printed nothing. *)
Theorem uri_record_read_back utf16 (uri payload : list Z) out (fuel : nat) :
  forallb Codec.is_ascii uri = true ->
  MicroUri._encode_payload {| MicroUri._url := uri |} = Ok payload ->
  len payload < 256 ->
  (2 <= fuel)%nat ->
  exists record',
    decode_records utf16 fuel
      (NDEFRecord.__init__ ([0xD1; 0x01; len payload; 0x55] ++ payload)) out [] 0
    = Some (Ok [("r0"%string, Some (Uri {| MicroUri._url := uri |}))], record', out)
    /\ remaining (NDEFRecord._data record') = [].
Proof.
  intros Hascii Hpayload Hshort Hfuel.
  pose proof (uri_payload_read_back uri payload Hascii Hpayload) as Hback.
  assert (Hlen : 1 <= len payload).
  { destruct (encode_payload_ascii uri Hascii) as (code & prefix & _ & _ & Henc & _).
    rewrite Henc in Hpayload. injection Hpayload as <-.
    unfold len. cbn [length]. lia. }
  destruct (decode_layout utf16 0xD1 [0x55] [] payload [] out)
    as (self' & Hdecode & Hrem).
  { vm_compute. discriminate. }
  { unfold satisfies_invariants. change (Z.land 209 7) with 1.
    rewrite tnf_056, tnf_1234. change (len [85]) with 1.
    repeat split; intros; lia. }
  { lia. }
  { reflexivity. }
  change (Z.land 209 7) with 1 in Hdecode.
  change (negb (Z.land 209 16 =? 0)) with true in Hdecode.
  change (negb (Z.land 209 8 =? 0)) with false in Hdecode.
  change (negb (Z.land 209 128 =? 0)) with true in Hdecode.
  change (negb (Z.land 209 64 =? 0)) with true in Hdecode.
  change (negb (Z.land 209 32 =? 0)) with false in Hdecode.
  change (209 :: length_fields true false [85] payload [] ++ [85] ++ [] ++ payload ++ [])
    with ([209; 1; len payload; 85] ++ payload ++ []) in Hdecode.
  rewrite app_nil_r in Hdecode.
  rewrite decode_fields_uri in Hdecode by lia.
  rewrite Hback in Hdecode. cbn [bind] in Hdecode.
  destruct fuel as [|[|fuel]]; [lia|lia|].
  cbn [decode_records]. rewrite Hdecode.
  unfold _decode. rewrite read_one, Hrem. cbn [ord].
  eexists. split; [reflexivity|]. cbn [with_data NDEFRecord._data]. exact Hrem.
Qed.

Lemma uri_record_read_back_witness :
  exists record',
    decode_records Codec.utf8 2
      (NDEFRecord.__init__ ([0xD1; 0x01; 5; 0x55] ++ 0x01 :: str_of_string "a.io")) [] [] 0
    = Some (Ok [("r0"%string,
                 Some (Uri {| MicroUri._url := str_of_string "http://www.a.io" |}))],
            record', [])
    /\ remaining (NDEFRecord._data record') = [].
Proof.
  apply (uri_record_read_back Codec.utf8 (str_of_string "http://www.a.io")
           (0x01 :: str_of_string "a.io") [] 2).
  - reflexivity.
  - vm_compute. reflexivity.
  - vm_compute. reflexivity.
  - lia.
Defined.

End RecordLoop.
